(** * INAV flight controller: configuration validation, profiles, persistence
      and the MSP box registry

    A shallow embedding of [src/main/fc/config.c] and
    [src/main/fc/fc_msp_box.c].  C integers are [Z] with the wrap-around of
    their width written out; structs are records; the constants, enumeration
    values and preprocessor switches that the two files take from headers
    are fields of a per-build record. *)

From Stdlib Require Import ZArith Bool String Ascii Lia.
From stdpp Require Import base list.

Local Open Scope Z_scope.

(** ** Fixed-width integers *)

Definition uint8_t (z : Z) : Z := z mod 256.
Definition uint16_t (z : Z) : Z := z mod 65536.

Definition is_uint8 (z : Z) : Prop := 0 <= z < 256.
Definition is_uint16 (z : Z) : Prop := 0 <= z < 65536.

(** [common/maths.h]: [MIN] is a macro, its comparison is made on the
    promoted operands (here: [int]); [constrain] works on [int]. *)
Definition MIN (a b : Z) : Z := if a <? b then a else b.

Definition constrain (amt low high : Z) : Z :=
  if amt <? low then low else if amt >? high then high else amt.

(** Parameter-group storage whose layout the two files never look into. *)
Definition blob := list Z.

(* ================================================================== *)
(** * config.c *)
(* ================================================================== *)

Module Config.

(** The parameter groups that [config.c] reads or writes, field by field.
    [land_slowdown_minalt], [land_slowdown_maxalt] and [motorPwmRate] are
    [uint16_t]; the other scalar fields are [uint8_t], [enabledFeatures]
    is [uint32_t]. *)
Record config_t := {
  acc_notch_hz : Z;                  (* accelerometerConfig *)
  acc_notch_cutoff : Z;
  enabledFeatures : Z;               (* featureConfig *)
  servo_protocol : Z;                (* servoConfig *)
  serialConfig : blob;
  land_slowdown_minalt : Z;          (* navConfig()->general *)
  land_slowdown_maxalt : Z;
  motorPwmProtocol : Z;              (* motorConfig *)
  motorPwmRate : Z;
  mag_align : Z;                     (* compassConfig *)
  current_profile_index : Z;         (* systemConfig *)
  current_battery_profile_index : Z;
  rcmap : blob;                      (* rxConfig, written by parseRcChannels *)
  pgProfiles : list blob;            (* the profile-indexed groups, one per slot *)
  pgOther : blob                     (* every other registered group *)
}.

(** Every field within the range of its C type. *)
Record config_wf (c : config_t) : Prop := {
  wf_notch_hz : is_uint8 (acc_notch_hz c);
  wf_notch_cutoff : is_uint8 (acc_notch_cutoff c);
  wf_features : 0 <= enabledFeatures c < 2 ^ 32;
  wf_servo : is_uint8 (servo_protocol c);
  wf_minalt : is_uint16 (land_slowdown_minalt c);
  wf_maxalt : is_uint16 (land_slowdown_maxalt c);
  wf_protocol : is_uint8 (motorPwmProtocol c);
  wf_rate : is_uint16 (motorPwmRate c);
  wf_mag : is_uint8 (mag_align c);
  wf_profile : is_uint8 (current_profile_index c);
  wf_battery : is_uint8 (current_battery_profile_index c)
}.

(** What one firmware build fixes: preprocessor switches, the values of
    the enumeration constants and macros that come from headers, what the
    timer lookup answers on the board, and the reset templates of the
    groups registered in other files. *)
Record target_t := {
  (* switches *)
  USE_LED_STRIP_WITH_SOFTSERIAL : bool; (* USE_LED_STRIP && (USE_SOFTSERIAL1 || USE_SOFTSERIAL2) *)
  USE_SOFTSERIAL1 : bool;
  USE_SOFTSERIAL2 : bool;
  USE_SERVO_SBUS : bool;
  USE_DSHOT : bool;
  BRUSHED_MOTORS : bool;
  USE_MAG : bool;
  USE_LED_STRIP : bool;
  RX_CHANNELS_TAER : bool;
  BLACKBOX_ON_SPIFLASH_BY_DEFAULT : bool; (* USE_BLACKBOX && ENABLE_BLACKBOX_LOGGING_ON_SPIFLASH_BY_DEFAULT *)
  (* timerGetByTag(...)->tim, None for a NULL result *)
  ledTimerHardware : option Z;
  ss1TimerHardware : option Z;
  ss2TimerHardware : option Z;
  (* macros and enumeration constants *)
  MAX_PROFILE_COUNT : Z;
  MAX_BATTERY_PROFILE_COUNT : Z;
  FEATURE_UNUSED : Z;  (* FEATURE_UNUSED_1 | FEATURE_UNUSED_3 | ... | FEATURE_UNUSED_10 *)
  FEATURE_SOFTSERIAL : Z;
  FEATURE_LED_STRIP : Z;
  FEATURE_BLACKBOX : Z;
  FEATURE_AIRMODE : Z;
  DEFAULT_FEATURES : Z;
  COMMON_DEFAULT_FEATURES : Z;
  SERVO_TYPE_PWM : Z;
  SERVO_TYPE_SBUS : Z;
  SERVO_TYPE_SBUS_PWM : Z;
  PWM_TYPE_STANDARD : Z;
  PWM_TYPE_ONESHOT125 : Z;
  PWM_TYPE_MULTISHOT : Z;
  PWM_TYPE_BRUSHED : Z;
  PWM_TYPE_DSHOT150 : Z;
  PWM_TYPE_DSHOT300 : Z;
  PWM_TYPE_DSHOT600 : Z;
  ALIGN_DEFAULT : Z;
  CW270_DEG_FLIP : Z;
  ARMING_DISABLED_INVALID_SETTING : Z;
  (* reset templates of the groups [config.c] does not register itself *)
  resetTemplates : config_t;
  profileSlotTemplate : blob
}.

(** The functions of other translation units whose result only depends on
    the configuration they are handed. *)
Record extern_t := {
  isSerialConfigValid : blob -> bool;
  settingsValidate : config_t -> Z -> bool;  (* the groups and the active profile slot *)
  parseRcChannels : string -> blob
}.

(** Modelled from the spec: the storage collaborator of section 6
    ([readImage], [writeImage], [isImageValid]); [config_eeprom.c] is not
    part of the sources at hand.  An image holds the serialised groups and
    a validity marker; a device that cannot be read at all is a separate
    condition. *)
Record image_t := {
  img_readable : bool;
  img_valid : bool;
  img_config : config_t
}.

Inductive event :=
  | EvSuspendRx
  | EvResumeRx
  | EvWriteConfigToEEPROM
  | EvLoadEEPROM
  | EvActivateConfig
  | EvReevaluateLedConfig
  | EvBeep (n : Z).

(** The state that [config.c] works on. *)
Record fc_t := {
  config : config_t;
  pgActiveProfile : Z;       (* what pgActivateProfile selected *)
  controlRateProfile : Z;    (* what setControlRateProfile selected *)
  batteryProfile : Z;        (* what setBatteryProfile selected *)
  armingFlags : Z;
  eeprom : image_t;
  events : list event        (* calls into other subsystems, latest first *)
}.

Definition with_config (f : config_t -> config_t) (s : fc_t) : fc_t :=
  {| config := f (config s); pgActiveProfile := pgActiveProfile s;
     controlRateProfile := controlRateProfile s;
     batteryProfile := batteryProfile s; armingFlags := armingFlags s;
     eeprom := eeprom s; events := events s |}.

Definition emit (e : event) (s : fc_t) : fc_t :=
  {| config := config s; pgActiveProfile := pgActiveProfile s;
     controlRateProfile := controlRateProfile s;
     batteryProfile := batteryProfile s; armingFlags := armingFlags s;
     eeprom := eeprom s; events := e :: events s |}.

(** *** Field updates *)

Definition set_acc_notch_hz (v : Z) (c : config_t) : config_t :=
  {| acc_notch_hz := v; acc_notch_cutoff := acc_notch_cutoff c;
     enabledFeatures := enabledFeatures c; servo_protocol := servo_protocol c;
     serialConfig := serialConfig c;
     land_slowdown_minalt := land_slowdown_minalt c;
     land_slowdown_maxalt := land_slowdown_maxalt c;
     motorPwmProtocol := motorPwmProtocol c; motorPwmRate := motorPwmRate c;
     mag_align := mag_align c; current_profile_index := current_profile_index c;
     current_battery_profile_index := current_battery_profile_index c;
     rcmap := rcmap c; pgProfiles := pgProfiles c; pgOther := pgOther c |}.

Definition set_enabledFeatures (v : Z) (c : config_t) : config_t :=
  {| acc_notch_hz := acc_notch_hz c; acc_notch_cutoff := acc_notch_cutoff c;
     enabledFeatures := v; servo_protocol := servo_protocol c;
     serialConfig := serialConfig c;
     land_slowdown_minalt := land_slowdown_minalt c;
     land_slowdown_maxalt := land_slowdown_maxalt c;
     motorPwmProtocol := motorPwmProtocol c; motorPwmRate := motorPwmRate c;
     mag_align := mag_align c; current_profile_index := current_profile_index c;
     current_battery_profile_index := current_battery_profile_index c;
     rcmap := rcmap c; pgProfiles := pgProfiles c; pgOther := pgOther c |}.

Definition set_servo_protocol (v : Z) (c : config_t) : config_t :=
  {| acc_notch_hz := acc_notch_hz c; acc_notch_cutoff := acc_notch_cutoff c;
     enabledFeatures := enabledFeatures c; servo_protocol := v;
     serialConfig := serialConfig c;
     land_slowdown_minalt := land_slowdown_minalt c;
     land_slowdown_maxalt := land_slowdown_maxalt c;
     motorPwmProtocol := motorPwmProtocol c; motorPwmRate := motorPwmRate c;
     mag_align := mag_align c; current_profile_index := current_profile_index c;
     current_battery_profile_index := current_battery_profile_index c;
     rcmap := rcmap c; pgProfiles := pgProfiles c; pgOther := pgOther c |}.

Definition set_serialConfig (v : blob) (c : config_t) : config_t :=
  {| acc_notch_hz := acc_notch_hz c; acc_notch_cutoff := acc_notch_cutoff c;
     enabledFeatures := enabledFeatures c; servo_protocol := servo_protocol c;
     serialConfig := v;
     land_slowdown_minalt := land_slowdown_minalt c;
     land_slowdown_maxalt := land_slowdown_maxalt c;
     motorPwmProtocol := motorPwmProtocol c; motorPwmRate := motorPwmRate c;
     mag_align := mag_align c; current_profile_index := current_profile_index c;
     current_battery_profile_index := current_battery_profile_index c;
     rcmap := rcmap c; pgProfiles := pgProfiles c; pgOther := pgOther c |}.

Definition set_land_slowdown_minalt (v : Z) (c : config_t) : config_t :=
  {| acc_notch_hz := acc_notch_hz c; acc_notch_cutoff := acc_notch_cutoff c;
     enabledFeatures := enabledFeatures c; servo_protocol := servo_protocol c;
     serialConfig := serialConfig c;
     land_slowdown_minalt := v;
     land_slowdown_maxalt := land_slowdown_maxalt c;
     motorPwmProtocol := motorPwmProtocol c; motorPwmRate := motorPwmRate c;
     mag_align := mag_align c; current_profile_index := current_profile_index c;
     current_battery_profile_index := current_battery_profile_index c;
     rcmap := rcmap c; pgProfiles := pgProfiles c; pgOther := pgOther c |}.

Definition set_motorPwmProtocol (v : Z) (c : config_t) : config_t :=
  {| acc_notch_hz := acc_notch_hz c; acc_notch_cutoff := acc_notch_cutoff c;
     enabledFeatures := enabledFeatures c; servo_protocol := servo_protocol c;
     serialConfig := serialConfig c;
     land_slowdown_minalt := land_slowdown_minalt c;
     land_slowdown_maxalt := land_slowdown_maxalt c;
     motorPwmProtocol := v; motorPwmRate := motorPwmRate c;
     mag_align := mag_align c; current_profile_index := current_profile_index c;
     current_battery_profile_index := current_battery_profile_index c;
     rcmap := rcmap c; pgProfiles := pgProfiles c; pgOther := pgOther c |}.

Definition set_motorPwmRate (v : Z) (c : config_t) : config_t :=
  {| acc_notch_hz := acc_notch_hz c; acc_notch_cutoff := acc_notch_cutoff c;
     enabledFeatures := enabledFeatures c; servo_protocol := servo_protocol c;
     serialConfig := serialConfig c;
     land_slowdown_minalt := land_slowdown_minalt c;
     land_slowdown_maxalt := land_slowdown_maxalt c;
     motorPwmProtocol := motorPwmProtocol c; motorPwmRate := v;
     mag_align := mag_align c; current_profile_index := current_profile_index c;
     current_battery_profile_index := current_battery_profile_index c;
     rcmap := rcmap c; pgProfiles := pgProfiles c; pgOther := pgOther c |}.

Definition set_mag_align (v : Z) (c : config_t) : config_t :=
  {| acc_notch_hz := acc_notch_hz c; acc_notch_cutoff := acc_notch_cutoff c;
     enabledFeatures := enabledFeatures c; servo_protocol := servo_protocol c;
     serialConfig := serialConfig c;
     land_slowdown_minalt := land_slowdown_minalt c;
     land_slowdown_maxalt := land_slowdown_maxalt c;
     motorPwmProtocol := motorPwmProtocol c; motorPwmRate := motorPwmRate c;
     mag_align := v; current_profile_index := current_profile_index c;
     current_battery_profile_index := current_battery_profile_index c;
     rcmap := rcmap c; pgProfiles := pgProfiles c; pgOther := pgOther c |}.

Definition set_current_profile_index (v : Z) (c : config_t) : config_t :=
  {| acc_notch_hz := acc_notch_hz c; acc_notch_cutoff := acc_notch_cutoff c;
     enabledFeatures := enabledFeatures c; servo_protocol := servo_protocol c;
     serialConfig := serialConfig c;
     land_slowdown_minalt := land_slowdown_minalt c;
     land_slowdown_maxalt := land_slowdown_maxalt c;
     motorPwmProtocol := motorPwmProtocol c; motorPwmRate := motorPwmRate c;
     mag_align := mag_align c; current_profile_index := v;
     current_battery_profile_index := current_battery_profile_index c;
     rcmap := rcmap c; pgProfiles := pgProfiles c; pgOther := pgOther c |}.

Definition set_current_battery_profile_index (v : Z) (c : config_t) : config_t :=
  {| acc_notch_hz := acc_notch_hz c; acc_notch_cutoff := acc_notch_cutoff c;
     enabledFeatures := enabledFeatures c; servo_protocol := servo_protocol c;
     serialConfig := serialConfig c;
     land_slowdown_minalt := land_slowdown_minalt c;
     land_slowdown_maxalt := land_slowdown_maxalt c;
     motorPwmProtocol := motorPwmProtocol c; motorPwmRate := motorPwmRate c;
     mag_align := mag_align c; current_profile_index := current_profile_index c;
     current_battery_profile_index := v;
     rcmap := rcmap c; pgProfiles := pgProfiles c; pgOther := pgOther c |}.

Definition set_rcmap (v : blob) (c : config_t) : config_t :=
  {| acc_notch_hz := acc_notch_hz c; acc_notch_cutoff := acc_notch_cutoff c;
     enabledFeatures := enabledFeatures c; servo_protocol := servo_protocol c;
     serialConfig := serialConfig c;
     land_slowdown_minalt := land_slowdown_minalt c;
     land_slowdown_maxalt := land_slowdown_maxalt c;
     motorPwmProtocol := motorPwmProtocol c; motorPwmRate := motorPwmRate c;
     mag_align := mag_align c; current_profile_index := current_profile_index c;
     current_battery_profile_index := current_battery_profile_index c;
     rcmap := v; pgProfiles := pgProfiles c; pgOther := pgOther c |}.

(** *** Helpers of other translation units *)

(** Modelled from the spec: [featureClear], [featureSet] and
    [featureConfigured] of [config/feature.c] (not part of the sources at
    hand): clear, set and test bits of the feature word. *)
Definition featureClear (mask : Z) (c : config_t) : config_t :=
  set_enabledFeatures (Z.land (enabledFeatures c) (Z.lnot mask)) c.

Definition featureSet (mask : Z) (c : config_t) : config_t :=
  set_enabledFeatures (Z.lor (enabledFeatures c) mask) c.

Definition featureConfigured (mask : Z) (c : config_t) : bool :=
  negb (Z.land (enabledFeatures c) mask =? 0).

(** [DISABLE_ARMING_FLAG] and [ENABLE_ARMING_FLAG] of [fc/runtime_config.h]. *)
Definition DISABLE_ARMING_FLAG (mask : Z) (flags : Z) : Z := Z.land flags (Z.lnot mask).
Definition ENABLE_ARMING_FLAG (mask : Z) (flags : Z) : Z := Z.lor flags mask.

Definition set_armingFlags (v : Z) (s : fc_t) : fc_t :=
  {| config := config s; pgActiveProfile := pgActiveProfile s;
     controlRateProfile := controlRateProfile s;
     batteryProfile := batteryProfile s; armingFlags := v;
     eeprom := eeprom s; events := events s |}.

(** *** validateNavConfig

    [minalt = MIN(minalt, maxalt - 100)]: both operands are promoted to
    [int], the result is stored back into a [uint16_t]. *)
Definition validateNavConfig (c : config_t) : config_t :=
  set_land_slowdown_minalt
    (uint16_t (MIN (land_slowdown_minalt c) (land_slowdown_maxalt c - 100))) c.

(** The weak default of the target hooks: [__NOP()]. *)
Definition validateAndFixTargetConfig (c : config_t) : config_t := c.
Definition targetConfiguration (c : config_t) : config_t := c.

(** *** validateAndFixConfig, rule by rule in source order *)

Definition fixAccNotch (c : config_t) : config_t :=
  if acc_notch_cutoff c >=? acc_notch_hz c then set_acc_notch_hz 0 c else c.

Definition sameTimerAs (led : Z) (enabled : bool) (tim : option Z) : bool :=
  enabled && match tim with Some t => t =? led | None => false end.

Definition fixLedStripTimer (T : target_t) (c : config_t) : config_t :=
  if USE_LED_STRIP_WITH_SOFTSERIAL T then
    if featureConfigured (FEATURE_SOFTSERIAL T) c && featureConfigured (FEATURE_LED_STRIP T) c then
      match ledTimerHardware T with
      | Some led =>
          let sameTimerUsed :=
            sameTimerAs led (USE_SOFTSERIAL1 T) (ss1TimerHardware T)
            || sameTimerAs led (USE_SOFTSERIAL2 T) (ss2TimerHardware T) in
          if sameTimerUsed then featureClear (FEATURE_LED_STRIP T) c else c
      | None => c
      end
    else c
  else c.

Definition fixServoProtocol (T : target_t) (c : config_t) : config_t :=
  if USE_SERVO_SBUS T then c
  else if (servo_protocol c =? SERVO_TYPE_SBUS T) || (servo_protocol c =? SERVO_TYPE_SBUS_PWM T)
       then set_servo_protocol (SERVO_TYPE_PWM T) c
       else c.

Definition fixSerialConfig (T : target_t) (X : extern_t) (c : config_t) : config_t :=
  if isSerialConfigValid X (serialConfig c) then c
  else set_serialConfig (serialConfig (resetTemplates T)) c.

Definition fixMotorProtocol (T : target_t) (c : config_t) : config_t :=
  if USE_DSHOT T then c
  else if motorPwmProtocol c >? PWM_TYPE_BRUSHED T
       then set_motorPwmProtocol (PWM_TYPE_MULTISHOT T) c
       else c.

(** The [switch] on [motorPwmProtocol]; the result is stored into the
    [uint16_t] field.  The three DSHOT labels exist with [USE_DSHOT] only;
    a value matching no label takes the [default:] arm, which is the
    STANDARD one. *)
Definition motorPwmRateLimit (T : target_t) (protocol rate : Z) : Z :=
  if protocol =? PWM_TYPE_STANDARD T then MIN rate 490
  else if protocol =? PWM_TYPE_ONESHOT125 T then MIN rate 3900
  else if protocol =? PWM_TYPE_MULTISHOT T then constrain rate 2000 16000
  else if protocol =? PWM_TYPE_BRUSHED T then constrain rate 500 32000
  else if USE_DSHOT T && (protocol =? PWM_TYPE_DSHOT150 T) then MIN rate 4000
  else if USE_DSHOT T && (protocol =? PWM_TYPE_DSHOT300 T) then MIN rate 8000
  else if USE_DSHOT T && (protocol =? PWM_TYPE_DSHOT600 T) then MIN rate 16000
  else MIN rate 490.

Definition fixMotorPwmRate (T : target_t) (c : config_t) : config_t :=
  if BRUSHED_MOTORS T
  then set_motorPwmRate (uint16_t (constrain (motorPwmRate c) 500 32000)) c
  else set_motorPwmRate (uint16_t (motorPwmRateLimit T (motorPwmProtocol c) (motorPwmRate c))) c.

Definition fixMagAlign (T : target_t) (c : config_t) : config_t :=
  if USE_MAG T then
    if mag_align c =? ALIGN_DEFAULT T then set_mag_align (CW270_DEG_FLIP T) c else c
  else c.

Definition validateAndFixGroups (T : target_t) (X : extern_t) (c : config_t) : config_t :=
  let c := fixAccNotch c in
  let c := featureClear (FEATURE_UNUSED T) c in
  let c := fixLedStripTimer T c in
  let c := fixServoProtocol T c in
  let c := fixSerialConfig T X c in
  let c := validateNavConfig c in
  let c := fixMotorProtocol T c in
  let c := fixMotorPwmRate T c in
  let c := validateAndFixTargetConfig c in
  fixMagAlign T c.

Definition validateAndFixConfig (T : target_t) (X : extern_t) (s : fc_t) : fc_t :=
  let s := with_config (validateAndFixGroups T X) s in
  if settingsValidate X (config s) (pgActiveProfile s)
  then set_armingFlags (DISABLE_ARMING_FLAG (ARMING_DISABLED_INVALID_SETTING T) (armingFlags s)) s
  else set_armingFlags (ENABLE_ARMING_FLAG (ARMING_DISABLED_INVALID_SETTING T) (armingFlags s)) s.

(** *** Parameter groups, profiles and persistence *)

(** Modelled from the spec: [pgResetAll] of [config/parameter_group.c]
    (not part of the sources at hand), section 4.1: it "resets every
    registered group across every profile slot", unconditionally.  The
    templates of [featureConfig] and [systemConfig] are the ones
    [config.c] registers; the other groups take theirs from the target. *)
Definition pgResetAll (T : target_t) (profileCount : Z) : config_t :=
  let d := resetTemplates T in
  {| acc_notch_hz := acc_notch_hz d; acc_notch_cutoff := acc_notch_cutoff d;
     enabledFeatures := Z.lor (DEFAULT_FEATURES T) (COMMON_DEFAULT_FEATURES T);
     servo_protocol := servo_protocol d;
     serialConfig := serialConfig d;
     land_slowdown_minalt := land_slowdown_minalt d;
     land_slowdown_maxalt := land_slowdown_maxalt d;
     motorPwmProtocol := motorPwmProtocol d; motorPwmRate := motorPwmRate d;
     mag_align := mag_align d;
     current_profile_index := 0;
     current_battery_profile_index := 0;
     rcmap := rcmap d;
     pgProfiles := replicate (Z.to_nat profileCount) (profileSlotTemplate T);
     pgOther := pgOther d |}.

(** Modelled from the spec: [pgActivateProfile], [setControlRateProfile]
    and [setBatteryProfile] (not part of the sources at hand) select a
    slot; the selection is all that is recorded of them. *)
Definition pgActivateProfile (i : Z) (s : fc_t) : fc_t :=
  {| config := config s; pgActiveProfile := i;
     controlRateProfile := controlRateProfile s;
     batteryProfile := batteryProfile s; armingFlags := armingFlags s;
     eeprom := eeprom s; events := events s |}.

Definition setControlRateProfile (i : Z) (s : fc_t) : fc_t :=
  {| config := config s; pgActiveProfile := pgActiveProfile s;
     controlRateProfile := i;
     batteryProfile := batteryProfile s; armingFlags := armingFlags s;
     eeprom := eeprom s; events := events s |}.

Definition setBatteryProfile (i : Z) (s : fc_t) : fc_t :=
  {| config := config s; pgActiveProfile := pgActiveProfile s;
     controlRateProfile := controlRateProfile s;
     batteryProfile := i; armingFlags := armingFlags s;
     eeprom := eeprom s; events := events s |}.

Definition set_eeprom (img : image_t) (s : fc_t) : fc_t :=
  {| config := config s; pgActiveProfile := pgActiveProfile s;
     controlRateProfile := controlRateProfile s;
     batteryProfile := batteryProfile s; armingFlags := armingFlags s;
     eeprom := img; events := events s |}.

(** Modelled from the spec: [isEEPROMContentValid], [writeConfigToEEPROM]
    and [loadEEPROM] of [config/config_eeprom.c] (not part of the sources
    at hand), sections 4.3 and 6: validity is the image's own integrity
    test, a write stores all groups as a valid image, a load copies the
    image into the groups and fails only if the store cannot be read. *)
Definition isEEPROMContentValid (s : fc_t) : bool := img_valid (eeprom s).

Definition writeConfigToEEPROM (s : fc_t) : fc_t :=
  emit EvWriteConfigToEEPROM
    (set_eeprom {| img_readable := img_readable (eeprom s);
                   img_valid := true;
                   img_config := config s |} s).

Definition loadEEPROM (s : fc_t) : bool * fc_t :=
  if img_readable (eeprom s)
  then (true, emit EvLoadEEPROM (with_config (fun _ => img_config (eeprom s)) s))
  else (false, s).

(** *** The profile index *)

Definition getConfigProfile (s : fc_t) : Z := current_profile_index (config s).

Definition setConfigProfile (T : target_t) (profileIndex : Z) (s : fc_t) : bool * fc_t :=
  let ret := negb (current_profile_index (config s) =? profileIndex) in
  let profileIndex := if profileIndex >=? MAX_PROFILE_COUNT T then 0 else profileIndex in
  let s := pgActivateProfile profileIndex s in
  let s := with_config (set_current_profile_index profileIndex) s in
  let s := setControlRateProfile profileIndex s in
  (ret, s).

Definition getConfigBatteryProfile (s : fc_t) : Z :=
  current_battery_profile_index (config s).

Definition setConfigBatteryProfile (T : target_t) (profileIndex : Z) (s : fc_t) : bool * fc_t :=
  let ret := negb (current_battery_profile_index (config s) =? profileIndex) in
  let profileIndex := if profileIndex >=? MAX_BATTERY_PROFILE_COUNT T then 0 else profileIndex in
  let s := with_config (set_current_battery_profile_index profileIndex) s in
  let s := setBatteryProfile profileIndex s in
  (ret, s).

(** *** Defaults *)

Definition createDefaultConfig (T : target_t) (X : extern_t) (c : config_t) : config_t :=
  let c := set_rcmap (parseRcChannels X (if RX_CHANNELS_TAER T then "TAER1234" else "AETR1234")%string) c in
  let c := if BLACKBOX_ON_SPIFLASH_BY_DEFAULT T then featureSet (FEATURE_BLACKBOX T) c else c in
  let c := featureSet (FEATURE_AIRMODE T) c in
  targetConfiguration c.

Definition resetConfigs (T : target_t) (X : extern_t) (s : fc_t) : fc_t :=
  let s := with_config (fun _ => pgResetAll T (MAX_PROFILE_COUNT T)) s in
  let s := pgActivateProfile 0 s in
  let s := with_config (createDefaultConfig T X) s in
  let s := snd (setConfigProfile T (getConfigProfile s) s) in
  if USE_LED_STRIP T then emit EvReevaluateLedConfig s else s.

(** [activateConfig] only calls into the subsystems that consume the
    configuration. *)
Definition activateConfig (s : fc_t) : fc_t := emit EvActivateConfig s.

(** *** EEPROM cycles.  [readEEPROM] yields [None] when [failureMode]
    is entered, which does not return. *)
Definition readEEPROM (T : target_t) (X : extern_t) (s : fc_t) : option fc_t :=
  let s := emit EvSuspendRx s in
  let '(ok, s) := loadEEPROM s in
  if ok then
    let s := snd (setConfigProfile T (getConfigProfile s) s) in
    let s := snd (setConfigBatteryProfile T (getConfigBatteryProfile s) s) in
    let s := validateAndFixConfig T X s in
    let s := activateConfig s in
    Some (emit EvResumeRx s)
  else None.

Definition writeEEPROM (s : fc_t) : fc_t :=
  let s := emit EvSuspendRx s in
  let s := writeConfigToEEPROM s in
  emit EvResumeRx s.

Definition resetEEPROM (T : target_t) (X : extern_t) (s : fc_t) : fc_t :=
  writeEEPROM (resetConfigs T X s).

Definition ensureEEPROMContainsValidData (T : target_t) (X : extern_t) (s : fc_t) : fc_t :=
  if isEEPROMContentValid s then s else resetEEPROM T X s.

Definition beeperConfirmationBeeps (beepCount : Z) (s : fc_t) : fc_t :=
  emit (EvBeep (uint8_t beepCount)) s.

Definition saveConfigAndNotify (T : target_t) (X : extern_t) (s : fc_t) : option fc_t :=
  match readEEPROM T X (writeEEPROM s) with
  | Some s => Some (beeperConfirmationBeeps 1 s)
  | None => None
  end.

Definition setConfigProfileAndWriteEEPROM (T : target_t) (X : extern_t)
    (profileIndex : Z) (s : fc_t) : option fc_t :=
  let '(changed, s) := setConfigProfile T profileIndex s in
  if changed then
    (* profile has changed, so ensure current values saved before new profile is loaded *)
    match readEEPROM T X (writeEEPROM s) with
    | Some s => Some (beeperConfirmationBeeps (profileIndex + 1) s)
    | None => None
    end
  else Some (beeperConfirmationBeeps (profileIndex + 1) s).

Definition setConfigBatteryProfileAndWriteEEPROM (T : target_t) (X : extern_t)
    (profileIndex : Z) (s : fc_t) : option fc_t :=
  let '(changed, s) := setConfigBatteryProfile T profileIndex s in
  if changed then
    match readEEPROM T X (writeEEPROM s) with
    | Some s => Some (beeperConfirmationBeeps (profileIndex + 1) s)
    | None => None
    end
  else Some (beeperConfirmationBeeps (profileIndex + 1) s).

(** The save+reload of [setConfigProfileAndWriteEEPROM], as seen in the
    log of calls: did [writeConfigToEEPROM] and [loadEEPROM] run? *)
Definition isEepromAccess (e : event) : bool :=
  match e with
  | EvWriteConfigToEEPROM | EvLoadEEPROM => true
  | _ => false
  end.

Definition eepromAccesses (s : fc_t) : list event :=
  List.filter isEepromAccess (events s).

End Config.

(* ================================================================== *)
(** * fc_msp_box.c *)
(* ================================================================== *)

Module MspBox.

(** [boxId_e] of [fc/rc_modes.h]: the members that the box table names.
    [CHECKBOX_ITEM_COUNT] closes the enumeration; the table
    [boxes[CHECKBOX_ITEM_COUNT + 1]] has one row per member and the
    terminating row. *)
Inductive boxId_e :=
  | BOXARM | BOXANGLE | BOXHORIZON | BOXNAVALTHOLD | BOXHEADINGHOLD
  | BOXHEADFREE | BOXHEADADJ | BOXCAMSTAB | BOXNAVRTH | BOXNAVPOSHOLD
  | BOXMANUAL | BOXBEEPERON | BOXLEDLOW | BOXLIGHTS | BOXOSD | BOXTELEMETRY
  | BOXAUTOTUNE | BOXBLACKBOX | BOXFAILSAFE | BOXNAVWP | BOXAIRMODE
  | BOXHOMERESET | BOXGCSNAV | BOXFPVANGLEMIX | BOXSURFACE | BOXFLAPERON
  | BOXTURNASSIST | BOXNAVLAUNCH | BOXAUTOTRIM | BOXKILLSWITCH
  | BOXCAMERA1 | BOXCAMERA2 | BOXCAMERA3 | BOXOSDALT1 | BOXOSDALT2
  | BOXOSDALT3 | BOXNAVCOURSEHOLD | BOXBRAKING | BOXUSER1 | BOXUSER2
  | BOXLOITERDIRCHN | BOXMSPRCOVERRIDE | BOXPREARM | BOXTURTLE
  | BOXNAVCRUISE | BOXAUTOLEVEL | BOXPLANWPMISSION | BOXSOARING.

Definition CHECKBOX_ITEM_COUNT : Z := 48.

(** The position of a member in the listing above; a decision procedure
    for equality of members, and one admissible numbering of them. *)
Definition boxOrdinal (b : boxId_e) : Z :=
  match b with
  | BOXARM => 0 | BOXANGLE => 1 | BOXHORIZON => 2 | BOXNAVALTHOLD => 3
  | BOXHEADINGHOLD => 4 | BOXHEADFREE => 5 | BOXHEADADJ => 6 | BOXCAMSTAB => 7
  | BOXNAVRTH => 8 | BOXNAVPOSHOLD => 9 | BOXMANUAL => 10 | BOXBEEPERON => 11
  | BOXLEDLOW => 12 | BOXLIGHTS => 13 | BOXOSD => 14 | BOXTELEMETRY => 15
  | BOXAUTOTUNE => 16 | BOXBLACKBOX => 17 | BOXFAILSAFE => 18 | BOXNAVWP => 19
  | BOXAIRMODE => 20 | BOXHOMERESET => 21 | BOXGCSNAV => 22
  | BOXFPVANGLEMIX => 23 | BOXSURFACE => 24 | BOXFLAPERON => 25
  | BOXTURNASSIST => 26 | BOXNAVLAUNCH => 27 | BOXAUTOTRIM => 28
  | BOXKILLSWITCH => 29 | BOXCAMERA1 => 30 | BOXCAMERA2 => 31
  | BOXCAMERA3 => 32 | BOXOSDALT1 => 33 | BOXOSDALT2 => 34 | BOXOSDALT3 => 35
  | BOXNAVCOURSEHOLD => 36 | BOXBRAKING => 37 | BOXUSER1 => 38 | BOXUSER2 => 39
  | BOXLOITERDIRCHN => 40 | BOXMSPRCOVERRIDE => 41 | BOXPREARM => 42
  | BOXTURTLE => 43 | BOXNAVCRUISE => 44 | BOXAUTOLEVEL => 45
  | BOXPLANWPMISSION => 46 | BOXSOARING => 47
  end.

Definition boxId_eqb (a b : boxId_e) : bool := boxOrdinal a =? boxOrdinal b.

(** [box_t]: [boxName] is a [const char *], [None] for [NULL]. *)
Record box_t := {
  boxId : Z;
  boxName : option string;
  permanentId : Z
}.

(** Modelled from the spec: the destination buffer of section 4.6,
    [sbuf_t] with [sbufBytesRemaining], [sbufWriteU8] and [sbufWriteData]
    of [common/streambuf.c] (not part of the sources at hand): a write
    cursor and an end.  The bytes written so far are kept in order; the
    writes advance the cursor without a check of their own. *)
Record sbuf_t := {
  sbuf_written : list Z;
  sbuf_remaining : Z
}.

Definition sbufBytesRemaining (dst : sbuf_t) : Z := sbuf_remaining dst.

Definition sbufWriteU8 (dst : sbuf_t) (val : Z) : sbuf_t :=
  {| sbuf_written := sbuf_written dst ++ [uint8_t val];
     sbuf_remaining := sbuf_remaining dst - 1 |}.

Definition sbufWriteData (dst : sbuf_t) (data : list Z) (len : Z) : sbuf_t :=
  {| sbuf_written := sbuf_written dst ++ take (Z.to_nat len) data;
     sbuf_remaining := sbuf_remaining dst - len |}.

Definition chars (s : string) : list Z :=
  List.map (fun c => Z.of_N (N_of_ascii c)) (list_ascii_of_string s).

Definition strlen (s : string) : Z := Z.of_nat (String.length s).

Definition BOX_SUFFIX : Z := 59.  (* ';' *)
Definition BOX_SUFFIX_LEN : Z := 1.

(** The mutable file-scope state. *)
Record boxState := {
  activeBoxIds : list Z;     (* uint8_t activeBoxIds[CHECKBOX_ITEM_COUNT] *)
  activeBoxIdCount : Z       (* uint8_t *)
}.

(** The filled part of [activeBoxIds]. *)
Definition activeList (st : boxState) : list Z :=
  take (Z.to_nat (activeBoxIdCount st)) (activeBoxIds st).

(** The collaborators that [initActiveBoxIds] and [packBoxModeFlags]
    query, with the arguments the two functions pass. *)
Inductive sensors_e :=
  | SENSOR_ACC | SENSOR_BARO | SENSOR_MAG | SENSOR_GPS
  | SENSOR_RANGEFINDER | SENSOR_OPFLOW | SENSOR_PITOT | SENSOR_TEMP.

Inductive stateFlags_t :=
  | ALTITUDE_CONTROL | MULTIROTOR | AIRPLANE | ROVER | BOAT | FLAPERON_AVAILABLE.

Inductive features_e :=
  | FEATURE_AIRMODE | FEATURE_GPS | FEATURE_FW_LAUNCH | FEATURE_FW_AUTOTRIM
  | FEATURE_LED_STRIP | FEATURE_TELEMETRY | FEATURE_BLACKBOX.

Inductive flightModeFlags_e :=
  | ANGLE_MODE | HORIZON_MODE | HEADING_MODE | HEADFREE_MODE | MANUAL_MODE
  | FAILSAFE_MODE | NAV_ALTHOLD_MODE | NAV_POSHOLD_MODE | NAV_COURSE_HOLD_MODE
  | NAV_RTH_MODE | NAV_WP_MODE | FLAPERON | TURN_ASSISTANT | NAV_LAUNCH_MODE
  | AUTO_TUNE.

(** The preprocessor switches of [fc_msp_box.c]. *)
Record build_t := {
  USE_GPS : bool;
  USE_MR_BRAKING_MODE : bool;
  USE_AUTOTUNE_FIXED_WING : bool;
  USE_LIGHTS : bool;
  USE_LED_STRIP : bool;
  USE_TELEMETRY : bool;
  USE_BLACKBOX : bool;
  USE_RCDEVICE : bool;
  USE_PINIOBOX : bool;
  USE_OSD : bool;
  OSD_LAYOUT_COUNT : option Z;        (* None: not defined *)
  USE_RX_MSP_RC_OVERRIDE : bool;      (* USE_RX_MSP && USE_MSP_RC_OVERRIDE *)
  USE_DSHOT : bool;
  USE_FLM_FLAPERON : bool
}.

(** What [initActiveBoxIds] reads. *)
Record context_t := {
  build : build_t;
  sensors : sensors_e -> bool;
  STATE : stateFlags_t -> bool;
  feature : features_e -> bool;
  use_gps_no_baro : bool;             (* positionEstimationConfig() *)
  allow_dead_reckoning : bool;
  hwCompassPresent : bool;            (* getHwCompassStatus() != HW_SENSOR_NONE *)
  platformIsMultirotor : bool;        (* mixerConfig()->platformType == PLATFORM_MULTIROTOR *)
  telemetry_switch : bool;            (* telemetryConfig() *)
  isMotorProtocolDshot : bool
}.

(** What [packBoxModeFlags] reads. *)
Record runtime_t := {
  FLIGHT_MODE : flightModeFlags_e -> bool;
  IS_RC_MODE_ACTIVE : boxId_e -> bool;
  ARMED : bool;                               (* ARMING_FLAG(ARMED) *)
  navigationTerrainFollowingEnabled : bool
}.

(** Modelled from the spec: the bitset of section 4.6, [boxBitmask_t]
    ([uint32_t bits[(CHECKBOX_ITEM_COUNT + 31) / 32]]) with [bitArraySet]
    and [bitArrayGet] of [common/bitarray.c] (not part of the sources at
    hand): bit [bit mod 32] of word [bit / 32]. *)
Abbreviation boxBitmask_t := (list Z) (only parsing).

Definition emptyBitmask : boxBitmask_t :=
  replicate (Z.to_nat ((CHECKBOX_ITEM_COUNT + 31) / 32)) 0.

Definition bitArraySet (bits : boxBitmask_t) (bit : Z) : boxBitmask_t :=
  <[Z.to_nat (bit / 32) := Z.lor (nth (Z.to_nat (bit / 32)) bits 0) (Z.shiftl 1 (bit mod 32))]> bits.

Definition bitArrayGet (bits : boxBitmask_t) (bit : Z) : bool :=
  Z.testbit (nth (Z.to_nat (bit / 32)) bits 0) (bit mod 32).

(** Statements over the file-scope state; [None] is a write or read
    outside an array. *)
Definition cmd := boxState -> option boxState.

Definition skip : cmd := fun st => Some st.

Definition seq (c1 c2 : cmd) : cmd :=
  fun st => match c1 st with Some st' => c2 st' | None => None end.

Definition when (c : bool) (body : cmd) : cmd := if c then body else skip.

Declare Scope cmd_scope.
Delimit Scope cmd_scope with cmd.
Bind Scope cmd_scope with cmd.
Notation "c1 ;; c2" := (seq c1 c2)
  (at level 100, c2 at level 200, right associativity) : cmd_scope.

Definition RESET_BOX_ID_COUNT : cmd :=
  fun st => Some {| activeBoxIds := activeBoxIds st; activeBoxIdCount := 0 |}.

(** [memset(activeBoxIds, 0xFF, sizeof(activeBoxIds))]. *)
Definition memsetActiveBoxIds : cmd :=
  fun st => Some {| activeBoxIds := replicate (Z.to_nat CHECKBOX_ITEM_COUNT) 255;
                    activeBoxIdCount := activeBoxIdCount st |}.

Section Table.

(** The numbering of [boxId_e] and the two permanent ids that
    [fc_msp_box.h] defines as macros. *)
Variable boxval : boxId_e -> Z.
Variables BOX_PERMANENT_ID_USER1 BOX_PERMANENT_ID_USER2 : Z.

Definition boxRows : list (boxId_e * string * Z) := [
  (BOXARM, "ARM", 0);
  (BOXANGLE, "ANGLE", 1);
  (BOXHORIZON, "HORIZON", 2);
  (BOXNAVALTHOLD, "NAV ALTHOLD", 3);
  (BOXHEADINGHOLD, "HEADING HOLD", 5);
  (BOXHEADFREE, "HEADFREE", 6);
  (BOXHEADADJ, "HEADADJ", 7);
  (BOXCAMSTAB, "CAMSTAB", 8);
  (BOXNAVRTH, "NAV RTH", 10);
  (BOXNAVPOSHOLD, "NAV POSHOLD", 11);
  (BOXMANUAL, "MANUAL", 12);
  (BOXBEEPERON, "BEEPER", 13);
  (BOXLEDLOW, "LEDS OFF", 15);
  (BOXLIGHTS, "LIGHTS", 16);
  (BOXOSD, "OSD OFF", 19);
  (BOXTELEMETRY, "TELEMETRY", 20);
  (BOXAUTOTUNE, "AUTO TUNE", 21);
  (BOXBLACKBOX, "BLACKBOX", 26);
  (BOXFAILSAFE, "FAILSAFE", 27);
  (BOXNAVWP, "NAV WP", 28);
  (BOXAIRMODE, "AIR MODE", 29);
  (BOXHOMERESET, "HOME RESET", 30);
  (BOXGCSNAV, "GCS NAV", 31);
  (BOXFPVANGLEMIX, "FPV ANGLE MIX", 32);
  (BOXSURFACE, "SURFACE", 33);
  (BOXFLAPERON, "FLAPERON", 34);
  (BOXTURNASSIST, "TURN ASSIST", 35);
  (BOXNAVLAUNCH, "NAV LAUNCH", 36);
  (BOXAUTOTRIM, "SERVO AUTOTRIM", 37);
  (BOXKILLSWITCH, "KILLSWITCH", 38);
  (BOXCAMERA1, "CAMERA CONTROL 1", 39);
  (BOXCAMERA2, "CAMERA CONTROL 2", 40);
  (BOXCAMERA3, "CAMERA CONTROL 3", 41);
  (BOXOSDALT1, "OSD ALT 1", 42);
  (BOXOSDALT2, "OSD ALT 2", 43);
  (BOXOSDALT3, "OSD ALT 3", 44);
  (BOXNAVCOURSEHOLD, "NAV COURSE HOLD", 45);
  (BOXBRAKING, "MC BRAKING", 46);
  (BOXUSER1, "USER1", BOX_PERMANENT_ID_USER1);
  (BOXUSER2, "USER2", BOX_PERMANENT_ID_USER2);
  (BOXLOITERDIRCHN, "LOITER CHANGE", 49);
  (BOXMSPRCOVERRIDE, "MSP RC OVERRIDE", 50);
  (BOXPREARM, "PREARM", 51);
  (BOXTURTLE, "TURTLE", 52);
  (BOXNAVCRUISE, "NAV CRUISE", 53);
  (BOXAUTOLEVEL, "AUTO LEVEL", 54);
  (BOXPLANWPMISSION, "WP PLANNER", 55);
  (BOXSOARING, "SOARING", 56)
]%string.

Definition boxOfRow (r : boxId_e * string * Z) : box_t :=
  let '(b, name, pid) := r in
  {| boxId := boxval b; boxName := Some name; permanentId := pid |}.

(** The terminating row [{ CHECKBOX_ITEM_COUNT, NULL, 0xFF }]. *)
Definition sentinel : box_t :=
  {| boxId := CHECKBOX_ITEM_COUNT; boxName := None; permanentId := 255 |}.

(** [static const box_t boxes[CHECKBOX_ITEM_COUNT + 1]]. *)
Definition boxes : list box_t := List.map boxOfRow boxRows ++ [sentinel].

(** The [for] loop of both lookups: the first row that passes the test,
    over all [sizeof(boxes) / sizeof(box_t)] rows. *)
Fixpoint scanBoxes (test : box_t -> bool) (rows : list box_t) : option box_t :=
  match rows with
  | [] => None
  | candidate :: rest => if test candidate then Some candidate else scanBoxes test rest
  end.

Definition findBoxByActiveBoxId (activeBoxId : Z) : option box_t :=
  scanBoxes (fun candidate => boxId candidate =? activeBoxId) boxes.

Definition findBoxByPermanentId (permenantId : Z) : option box_t :=
  scanBoxes (fun candidate => permanentId candidate =? permenantId) boxes.

(** *** serializeBoxNamesReply

    First pass: the total length.  [strlen] of the [NULL] name of the
    terminating row is undefined; the model yields [None] there. *)
Fixpoint replyLength (ids : list Z) (replyLengthTotal : Z) : option Z :=
  match ids with
  | [] => Some replyLengthTotal
  | id :: rest =>
      match findBoxByActiveBoxId id with
      | Some box =>
          match boxName box with
          | Some name => replyLength rest (replyLengthTotal + (strlen name + BOX_SUFFIX_LEN))
          | None => None
          end
      | None => replyLength rest replyLengthTotal
      end
  end.

Fixpoint writeBoxNames (ids : list Z) (dst : sbuf_t) : option sbuf_t :=
  match ids with
  | [] => Some dst
  | activeBoxId :: rest =>
      match findBoxByActiveBoxId activeBoxId with
      | Some box =>
          match boxName box with
          | Some name =>
              let len := strlen name in
              let dst := sbufWriteData dst (chars name) len in
              let dst := sbufWriteU8 dst BOX_SUFFIX in
              writeBoxNames rest dst
          | None => None
          end
      | None => writeBoxNames rest dst
      end
  end.

Definition serializeBoxNamesReply (st : boxState) (dst : sbuf_t) : option (bool * sbuf_t) :=
  match replyLength (activeList st) 0 with
  | None => None
  | Some replyLengthTotal =>
      if sbufBytesRemaining dst <? replyLengthTotal then Some (false, dst)
      else
        match writeBoxNames (activeList st) dst with
        | Some dst => Some (true, dst)
        | None => None
        end
  end.

(** *** serializeBoxReply *)
Fixpoint writeBoxIds (ids : list Z) (dst : sbuf_t) : sbuf_t :=
  match ids with
  | [] => dst
  | id :: rest =>
      match findBoxByActiveBoxId id with
      | None => writeBoxIds rest dst      (* continue *)
      | Some box => writeBoxIds rest (sbufWriteU8 dst (permanentId box))
      end
  end.

Definition serializeBoxReply (st : boxState) (dst : sbuf_t) : sbuf_t :=
  writeBoxIds (activeList st) dst.

(** *** initActiveBoxIds

    [ADD_ACTIVE_BOX(box)] is [activeBoxIds[activeBoxIdCount++] = box]. *)
Definition ADD_ACTIVE_BOX (box : boxId_e) : cmd :=
  fun st =>
    let i := activeBoxIdCount st in
    if (0 <=? i) && (i <? CHECKBOX_ITEM_COUNT) then
      Some {| activeBoxIds := <[Z.to_nat i := boxval box]> (activeBoxIds st);
              activeBoxIdCount := uint8_t (i + 1) |}
    else None.

Definition osdLayoutAbove (B : build_t) (n : Z) : bool :=
  USE_OSD B && match OSD_LAYOUT_COUNT B with Some k => k >? n | None => false end.

Definition initActiveBoxIds (C : context_t) : cmd :=
  let B := build C in
  let navReadyAltControl :=
    if USE_GPS B
    then sensors C SENSOR_BARO
         || (feature C FEATURE_GPS && (STATE C AIRPLANE || use_gps_no_baro C))
    else sensors C SENSOR_BARO in
  let navFlowDeadReckoning :=
    sensors C SENSOR_OPFLOW && sensors C SENSOR_ACC && allow_dead_reckoning C in
  let navReadyPosControl :=
    if STATE C MULTIROTOR
    then sensors C SENSOR_ACC && feature C FEATURE_GPS && hwCompassPresent C
    else sensors C SENSOR_ACC && feature C FEATURE_GPS in
  (memsetActiveBoxIds ;;
   RESET_BOX_ID_COUNT ;;
   ADD_ACTIVE_BOX BOXARM ;;
   ADD_ACTIVE_BOX BOXPREARM ;;
   when (sensors C SENSOR_ACC && STATE C ALTITUDE_CONTROL)
     (ADD_ACTIVE_BOX BOXANGLE ;;
      ADD_ACTIVE_BOX BOXHORIZON ;;
      ADD_ACTIVE_BOX BOXTURNASSIST) ;;
   when (negb (feature C FEATURE_AIRMODE) && STATE C ALTITUDE_CONTROL)
     (ADD_ACTIVE_BOX BOXAIRMODE) ;;
   ADD_ACTIVE_BOX BOXHEADINGHOLD ;;
   ADD_ACTIVE_BOX BOXCAMSTAB ;;
   when (STATE C MULTIROTOR)
     (when (sensors C SENSOR_ACC || sensors C SENSOR_MAG)
        (ADD_ACTIVE_BOX BOXHEADFREE ;;
         ADD_ACTIVE_BOX BOXHEADADJ) ;;
      when (sensors C SENSOR_BARO && sensors C SENSOR_RANGEFINDER && sensors C SENSOR_OPFLOW)
        (ADD_ACTIVE_BOX BOXSURFACE) ;;
      ADD_ACTIVE_BOX BOXFPVANGLEMIX) ;;
   when (USE_GPS B)
     (when (STATE C ALTITUDE_CONTROL && navReadyAltControl
            && (navReadyPosControl || navFlowDeadReckoning))
        (ADD_ACTIVE_BOX BOXNAVPOSHOLD ;;
         when (STATE C AIRPLANE) (ADD_ACTIVE_BOX BOXLOITERDIRCHN)) ;;
      when navReadyPosControl
        (when (negb (STATE C ALTITUDE_CONTROL)
               || (STATE C ALTITUDE_CONTROL && navReadyAltControl))
           (ADD_ACTIVE_BOX BOXNAVRTH ;;
            ADD_ACTIVE_BOX BOXNAVWP ;;
            ADD_ACTIVE_BOX BOXHOMERESET ;;
            ADD_ACTIVE_BOX BOXGCSNAV ;;
            ADD_ACTIVE_BOX BOXPLANWPMISSION) ;;
         when (STATE C AIRPLANE)
           (ADD_ACTIVE_BOX BOXNAVCRUISE ;;
            ADD_ACTIVE_BOX BOXNAVCOURSEHOLD ;;
            ADD_ACTIVE_BOX BOXSOARING)) ;;
      when (USE_MR_BRAKING_MODE B)
        (when (platformIsMultirotor C) (ADD_ACTIVE_BOX BOXBRAKING))) ;;
   when (STATE C ALTITUDE_CONTROL && navReadyAltControl)
     (ADD_ACTIVE_BOX BOXNAVALTHOLD) ;;
   when (STATE C AIRPLANE || STATE C ROVER || STATE C BOAT)
     (ADD_ACTIVE_BOX BOXMANUAL) ;;
   when (STATE C AIRPLANE)
     (when (negb (feature C FEATURE_FW_LAUNCH)) (ADD_ACTIVE_BOX BOXNAVLAUNCH) ;;
      when (negb (feature C FEATURE_FW_AUTOTRIM)) (ADD_ACTIVE_BOX BOXAUTOTRIM) ;;
      when (USE_AUTOTUNE_FIXED_WING B) (ADD_ACTIVE_BOX BOXAUTOTUNE) ;;
      when (sensors C SENSOR_BARO) (ADD_ACTIVE_BOX BOXAUTOLEVEL)) ;;
   when (STATE C FLAPERON_AVAILABLE) (ADD_ACTIVE_BOX BOXFLAPERON) ;;
   ADD_ACTIVE_BOX BOXBEEPERON ;;
   when (USE_LIGHTS B) (ADD_ACTIVE_BOX BOXLIGHTS) ;;
   when (USE_LED_STRIP B)
     (when (feature C FEATURE_LED_STRIP) (ADD_ACTIVE_BOX BOXLEDLOW)) ;;
   ADD_ACTIVE_BOX BOXOSD ;;
   when (USE_TELEMETRY B)
     (when (feature C FEATURE_TELEMETRY && telemetry_switch C)
        (ADD_ACTIVE_BOX BOXTELEMETRY)) ;;
   when (USE_BLACKBOX B)
     (when (feature C FEATURE_BLACKBOX) (ADD_ACTIVE_BOX BOXBLACKBOX)) ;;
   ADD_ACTIVE_BOX BOXKILLSWITCH ;;
   ADD_ACTIVE_BOX BOXFAILSAFE ;;
   when (USE_RCDEVICE B)
     (ADD_ACTIVE_BOX BOXCAMERA1 ;;
      ADD_ACTIVE_BOX BOXCAMERA2 ;;
      ADD_ACTIVE_BOX BOXCAMERA3) ;;
   when (USE_PINIOBOX B)
     (ADD_ACTIVE_BOX BOXUSER1 ;;
      ADD_ACTIVE_BOX BOXUSER2) ;;
   when (osdLayoutAbove B 0)
     (ADD_ACTIVE_BOX BOXOSDALT1 ;;
      when (osdLayoutAbove B 1)
        (ADD_ACTIVE_BOX BOXOSDALT2 ;;
         when (osdLayoutAbove B 2) (ADD_ACTIVE_BOX BOXOSDALT3))) ;;
   when (USE_RX_MSP_RC_OVERRIDE B) (ADD_ACTIVE_BOX BOXMSPRCOVERRIDE) ;;
   when (USE_DSHOT B)
     (when (STATE C MULTIROTOR && isMotorProtocolDshot C) (ADD_ACTIVE_BOX BOXTURTLE)))%cmd.

(** *** packBoxModeFlags

    The [CHECK_ACTIVE_BOX(condition, index)] lines in source order, each
    with the switch that guards it. *)
Definition checkedBoxes (B : build_t) (R : runtime_t) : list (bool * boxId_e) := [
  (FLIGHT_MODE R ANGLE_MODE, BOXANGLE);
  (FLIGHT_MODE R HORIZON_MODE, BOXHORIZON);
  (FLIGHT_MODE R HEADING_MODE, BOXHEADINGHOLD);
  (FLIGHT_MODE R HEADFREE_MODE, BOXHEADFREE);
  (IS_RC_MODE_ACTIVE R BOXHEADADJ, BOXHEADADJ);
  (IS_RC_MODE_ACTIVE R BOXCAMSTAB, BOXCAMSTAB);
  (IS_RC_MODE_ACTIVE R BOXFPVANGLEMIX, BOXFPVANGLEMIX);
  (FLIGHT_MODE R MANUAL_MODE, BOXMANUAL);
  (IS_RC_MODE_ACTIVE R BOXBEEPERON, BOXBEEPERON);
  (IS_RC_MODE_ACTIVE R BOXLEDLOW, BOXLEDLOW);
  (IS_RC_MODE_ACTIVE R BOXLIGHTS, BOXLIGHTS);
  (IS_RC_MODE_ACTIVE R BOXOSD, BOXOSD);
  (IS_RC_MODE_ACTIVE R BOXTELEMETRY, BOXTELEMETRY);
  (ARMED R, BOXARM);
  (IS_RC_MODE_ACTIVE R BOXBLACKBOX, BOXBLACKBOX);
  (FLIGHT_MODE R FAILSAFE_MODE, BOXFAILSAFE);
  (FLIGHT_MODE R NAV_ALTHOLD_MODE, BOXNAVALTHOLD);
  (FLIGHT_MODE R NAV_POSHOLD_MODE, BOXNAVPOSHOLD);
  (FLIGHT_MODE R NAV_COURSE_HOLD_MODE, BOXNAVCOURSEHOLD);
  (FLIGHT_MODE R NAV_COURSE_HOLD_MODE && FLIGHT_MODE R NAV_ALTHOLD_MODE, BOXNAVCRUISE);
  (FLIGHT_MODE R NAV_RTH_MODE, BOXNAVRTH);
  (FLIGHT_MODE R NAV_WP_MODE, BOXNAVWP);
  (IS_RC_MODE_ACTIVE R BOXAIRMODE, BOXAIRMODE);
  (IS_RC_MODE_ACTIVE R BOXGCSNAV, BOXGCSNAV);
  (USE_FLM_FLAPERON B && FLIGHT_MODE R FLAPERON, BOXFLAPERON);
  (FLIGHT_MODE R TURN_ASSISTANT, BOXTURNASSIST);
  (FLIGHT_MODE R NAV_LAUNCH_MODE, BOXNAVLAUNCH);
  (FLIGHT_MODE R AUTO_TUNE, BOXAUTOTUNE);
  (IS_RC_MODE_ACTIVE R BOXAUTOTRIM, BOXAUTOTRIM);
  (IS_RC_MODE_ACTIVE R BOXKILLSWITCH, BOXKILLSWITCH);
  (IS_RC_MODE_ACTIVE R BOXHOMERESET, BOXHOMERESET);
  (IS_RC_MODE_ACTIVE R BOXCAMERA1, BOXCAMERA1);
  (IS_RC_MODE_ACTIVE R BOXCAMERA2, BOXCAMERA2);
  (IS_RC_MODE_ACTIVE R BOXCAMERA3, BOXCAMERA3);
  (IS_RC_MODE_ACTIVE R BOXOSDALT1, BOXOSDALT1);
  (IS_RC_MODE_ACTIVE R BOXOSDALT2, BOXOSDALT2);
  (IS_RC_MODE_ACTIVE R BOXOSDALT3, BOXOSDALT3);
  (navigationTerrainFollowingEnabled R, BOXSURFACE);
  (IS_RC_MODE_ACTIVE R BOXBRAKING, BOXBRAKING);
  (IS_RC_MODE_ACTIVE R BOXUSER1, BOXUSER1);
  (IS_RC_MODE_ACTIVE R BOXUSER2, BOXUSER2);
  (IS_RC_MODE_ACTIVE R BOXLOITERDIRCHN, BOXLOITERDIRCHN);
  (USE_RX_MSP_RC_OVERRIDE B && IS_RC_MODE_ACTIVE R BOXMSPRCOVERRIDE, BOXMSPRCOVERRIDE);
  (IS_RC_MODE_ACTIVE R BOXAUTOLEVEL, BOXAUTOLEVEL);
  (IS_RC_MODE_ACTIVE R BOXPLANWPMISSION, BOXPLANWPMISSION);
  (IS_RC_MODE_ACTIVE R BOXSOARING, BOXSOARING)
].

(** [CHECK_ACTIVE_BOX]: [if (condition) activeBoxes[index] = 1]. *)
Definition CHECK_ACTIVE_BOX (activeBoxes : list Z) (line : bool * boxId_e) : list Z :=
  if fst line then <[Z.to_nat (boxval (snd line)) := 1]> activeBoxes else activeBoxes.

Definition checkActiveBoxes (B : build_t) (R : runtime_t) : list Z :=
  fold_left CHECK_ACTIVE_BOX (checkedBoxes B R)
    (replicate (Z.to_nat CHECKBOX_ITEM_COUNT) 0).

(** The closing loop, [i] running over the filled part of
    [activeBoxIds]; [activeBoxes[activeBoxIds[i]]] is a read of a
    [CHECKBOX_ITEM_COUNT]-element array. *)
Fixpoint packLoop (activeBoxes : list Z) (ids : list Z) (i : Z)
    (mspBoxModeFlags : boxBitmask_t) : option boxBitmask_t :=
  match ids with
  | [] => Some mspBoxModeFlags
  | id :: rest =>
      match activeBoxes !! Z.to_nat id with
      | None => None
      | Some flag =>
          packLoop activeBoxes rest (i + 1)
            (if flag =? 0 then mspBoxModeFlags else bitArraySet mspBoxModeFlags i)
      end
  end.

Definition packBoxModeFlags (B : build_t) (R : runtime_t) (st : boxState) : option boxBitmask_t :=
  packLoop (checkActiveBoxes B R) (activeList st) 0 emptyBitmask.

End Table.

End MspBox.

(* ================================================================== *)
(** * Sample inputs *)
(* ================================================================== *)

Module Samples.

Import Config.

Definition sampleConfig : config_t :=
  {| acc_notch_hz := 0; acc_notch_cutoff := 1;
     enabledFeatures := 4194304;
     servo_protocol := 0; serialConfig := [];
     land_slowdown_minalt := 500; land_slowdown_maxalt := 2000;
     motorPwmProtocol := 0; motorPwmRate := 400;
     mag_align := 0; current_profile_index := 0;
     current_battery_profile_index := 0;
     rcmap := []; pgProfiles := [[]; []; []]; pgOther := [] |}.

(** A brushless build with DSHOT, three profile slots. *)
Definition sampleTarget : target_t :=
  {| USE_LED_STRIP_WITH_SOFTSERIAL := true;
     USE_SOFTSERIAL1 := true; USE_SOFTSERIAL2 := false;
     USE_SERVO_SBUS := false; Config.USE_DSHOT := true; BRUSHED_MOTORS := false;
     USE_MAG := true; Config.USE_LED_STRIP := true; RX_CHANNELS_TAER := false;
     BLACKBOX_ON_SPIFLASH_BY_DEFAULT := false;
     ledTimerHardware := Some 3; ss1TimerHardware := Some 3; ss2TimerHardware := None;
     MAX_PROFILE_COUNT := 3; MAX_BATTERY_PROFILE_COUNT := 3;
     FEATURE_UNUSED := 32; FEATURE_SOFTSERIAL := 64;
     Config.FEATURE_LED_STRIP := 65536; Config.FEATURE_BLACKBOX := 524288;
     Config.FEATURE_AIRMODE := 4194304;
     DEFAULT_FEATURES := 0; COMMON_DEFAULT_FEATURES := 0;
     SERVO_TYPE_PWM := 0; SERVO_TYPE_SBUS := 2; SERVO_TYPE_SBUS_PWM := 3;
     PWM_TYPE_STANDARD := 0; PWM_TYPE_ONESHOT125 := 1; PWM_TYPE_MULTISHOT := 2;
     PWM_TYPE_BRUSHED := 3; PWM_TYPE_DSHOT150 := 4; PWM_TYPE_DSHOT300 := 5;
     PWM_TYPE_DSHOT600 := 6;
     ALIGN_DEFAULT := 0; CW270_DEG_FLIP := 8;
     ARMING_DISABLED_INVALID_SETTING := 67108864;
     resetTemplates := sampleConfig; profileSlotTemplate := [] |}.

(** The same board built without DSHOT. *)
Definition sampleTargetNoDshot : target_t :=
  {| USE_LED_STRIP_WITH_SOFTSERIAL := true;
     USE_SOFTSERIAL1 := true; USE_SOFTSERIAL2 := false;
     USE_SERVO_SBUS := false; Config.USE_DSHOT := false; BRUSHED_MOTORS := false;
     USE_MAG := true; Config.USE_LED_STRIP := true; RX_CHANNELS_TAER := false;
     BLACKBOX_ON_SPIFLASH_BY_DEFAULT := false;
     ledTimerHardware := Some 3; ss1TimerHardware := Some 3; ss2TimerHardware := None;
     MAX_PROFILE_COUNT := 3; MAX_BATTERY_PROFILE_COUNT := 3;
     FEATURE_UNUSED := 32; FEATURE_SOFTSERIAL := 64;
     Config.FEATURE_LED_STRIP := 65536; Config.FEATURE_BLACKBOX := 524288;
     Config.FEATURE_AIRMODE := 4194304;
     DEFAULT_FEATURES := 0; COMMON_DEFAULT_FEATURES := 0;
     SERVO_TYPE_PWM := 0; SERVO_TYPE_SBUS := 2; SERVO_TYPE_SBUS_PWM := 3;
     PWM_TYPE_STANDARD := 0; PWM_TYPE_ONESHOT125 := 1; PWM_TYPE_MULTISHOT := 2;
     PWM_TYPE_BRUSHED := 3; PWM_TYPE_DSHOT150 := 4; PWM_TYPE_DSHOT300 := 5;
     PWM_TYPE_DSHOT600 := 6;
     ALIGN_DEFAULT := 0; CW270_DEG_FLIP := 8;
     ARMING_DISABLED_INVALID_SETTING := 67108864;
     resetTemplates := sampleConfig; profileSlotTemplate := [] |}.

(** The same board as a [BRUSHED_MOTORS] build. *)
Definition sampleTargetBrushed : target_t :=
  {| USE_LED_STRIP_WITH_SOFTSERIAL := true;
     USE_SOFTSERIAL1 := true; USE_SOFTSERIAL2 := false;
     USE_SERVO_SBUS := false; Config.USE_DSHOT := true; BRUSHED_MOTORS := true;
     USE_MAG := true; Config.USE_LED_STRIP := true; RX_CHANNELS_TAER := false;
     BLACKBOX_ON_SPIFLASH_BY_DEFAULT := false;
     ledTimerHardware := Some 3; ss1TimerHardware := Some 3; ss2TimerHardware := None;
     MAX_PROFILE_COUNT := 3; MAX_BATTERY_PROFILE_COUNT := 3;
     FEATURE_UNUSED := 32; FEATURE_SOFTSERIAL := 64;
     Config.FEATURE_LED_STRIP := 65536; Config.FEATURE_BLACKBOX := 524288;
     Config.FEATURE_AIRMODE := 4194304;
     DEFAULT_FEATURES := 0; COMMON_DEFAULT_FEATURES := 0;
     SERVO_TYPE_PWM := 0; SERVO_TYPE_SBUS := 2; SERVO_TYPE_SBUS_PWM := 3;
     PWM_TYPE_STANDARD := 0; PWM_TYPE_ONESHOT125 := 1; PWM_TYPE_MULTISHOT := 2;
     PWM_TYPE_BRUSHED := 3; PWM_TYPE_DSHOT150 := 4; PWM_TYPE_DSHOT300 := 5;
     PWM_TYPE_DSHOT600 := 6;
     ALIGN_DEFAULT := 0; CW270_DEG_FLIP := 8;
     ARMING_DISABLED_INVALID_SETTING := 67108864;
     resetTemplates := sampleConfig; profileSlotTemplate := [] |}.

Definition sampleExtern : extern_t :=
  {| isSerialConfigValid := fun _ => true;
     settingsValidate := fun c _ => land_slowdown_minalt c <=? 1000;
     parseRcChannels := fun s => List.map (fun c => Z.of_N (N_of_ascii c)) (list_ascii_of_string s) |}.

Definition sampleState (c : config_t) (valid : bool) : fc_t :=
  {| config := c; pgActiveProfile := 0; controlRateProfile := 0;
     batteryProfile := 0; armingFlags := 0;
     eeprom := {| img_readable := true; img_valid := valid; img_config := c |};
     events := [] |}.

(** A stored configuration whose upper landing threshold is below the
    margin, and one that selects DSHOT150 at 50 kHz. *)
Definition lowMaxaltConfig : config_t :=
  set_land_slowdown_minalt 10
    {| acc_notch_hz := 0; acc_notch_cutoff := 1;
       enabledFeatures := 4194304;
       servo_protocol := 0; serialConfig := [];
       land_slowdown_minalt := 500; land_slowdown_maxalt := 50;
       motorPwmProtocol := 0; motorPwmRate := 400;
       mag_align := 0; current_profile_index := 0;
       current_battery_profile_index := 0;
       rcmap := []; pgProfiles := [[]; []; []]; pgOther := [] |}.

Definition dshot150Config : config_t :=
  set_motorPwmRate 50000 (set_motorPwmProtocol 4 sampleConfig).

(** *** fc_msp_box.c *)

Import MspBox.

(** Every switch of [fc_msp_box.c] on, four OSD layouts. *)
Definition fullBuild : build_t :=
  {| USE_GPS := true; USE_MR_BRAKING_MODE := true; USE_AUTOTUNE_FIXED_WING := true;
     USE_LIGHTS := true; MspBox.USE_LED_STRIP := true; USE_TELEMETRY := true;
     USE_BLACKBOX := true; USE_RCDEVICE := true; USE_PINIOBOX := true;
     USE_OSD := true; OSD_LAYOUT_COUNT := Some 4; USE_RX_MSP_RC_OVERRIDE := true;
     MspBox.USE_DSHOT := true; USE_FLM_FLAPERON := true |}.

(** A multirotor on which no sensor was detected and no feature is
    enabled. *)
Definition bareMultirotor : context_t :=
  {| build := fullBuild;
     sensors := fun _ => false;
     STATE := fun f => match f with MULTIROTOR | ALTITUDE_CONTROL => true | _ => false end;
     feature := fun _ => false;
     use_gps_no_baro := false; allow_dead_reckoning := false;
     hwCompassPresent := false; platformIsMultirotor := true;
     telemetry_switch := false; isMotorProtocolDshot := false |}.

(** The same multirotor with the GPS feature enabled and
    [use_gps_no_baro] set; still no sensor detected. *)
Definition gpsNoBaroMultirotor : context_t :=
  {| build := fullBuild;
     sensors := fun _ => false;
     STATE := fun f => match f with MULTIROTOR | ALTITUDE_CONTROL => true | _ => false end;
     feature := fun f => match f with FEATURE_GPS => true | _ => false end;
     use_gps_no_baro := true; allow_dead_reckoning := false;
     hwCompassPresent := false; platformIsMultirotor := true;
     telemetry_switch := false; isMotorProtocolDshot := false |}.

(** Disarmed, no flight mode, the PREARM switch on. *)
Definition prearmSwitchOn : runtime_t :=
  {| FLIGHT_MODE := fun _ => false;
     IS_RC_MODE_ACTIVE := fun b => boxId_eqb b BOXPREARM;
     ARMED := false;
     navigationTerrainFollowingEnabled := false |}.

Definition emptyBoxState : boxState :=
  {| activeBoxIds := replicate 48 0; activeBoxIdCount := 0 |}.

Definition boxStateOf (ids : list Z) : boxState :=
  {| activeBoxIds := ids ++ replicate (48 - length ids) 255;
     activeBoxIdCount := Z.of_nat (length ids) |}.

Definition emptyBuffer (capacity : Z) : sbuf_t :=
  {| sbuf_written := []; sbuf_remaining := capacity |}.

End Samples.
(* ================================================================== *)
(** * Auxiliary definitions for the statements *)
(* ================================================================== *)

Module ConfigAux.

Import Config.

(** The value each rule of the validator leaves in the field it owns. *)
Definition accNotchHzFixed (c : config_t) : Z :=
  if acc_notch_cutoff c >=? acc_notch_hz c then 0 else acc_notch_hz c.

Definition ledStripClash (T : target_t) (features : Z) : bool :=
  USE_LED_STRIP_WITH_SOFTSERIAL T
  && negb (Z.land features (FEATURE_SOFTSERIAL T) =? 0)
  && negb (Z.land features (Config.FEATURE_LED_STRIP T) =? 0)
  && match ledTimerHardware T with
     | Some led => sameTimerAs led (USE_SOFTSERIAL1 T) (ss1TimerHardware T)
                   || sameTimerAs led (USE_SOFTSERIAL2 T) (ss2TimerHardware T)
     | None => false
     end.

Definition featuresFixed (T : target_t) (features : Z) : Z :=
  let f := Z.land features (Z.lnot (FEATURE_UNUSED T)) in
  if ledStripClash T f then Z.land f (Z.lnot (Config.FEATURE_LED_STRIP T)) else f.

Definition servoProtocolFixed (T : target_t) (p : Z) : Z :=
  if USE_SERVO_SBUS T then p
  else if (p =? SERVO_TYPE_SBUS T) || (p =? SERVO_TYPE_SBUS_PWM T) then SERVO_TYPE_PWM T else p.

Definition serialConfigFixed (T : target_t) (X : extern_t) (b : blob) : blob :=
  if isSerialConfigValid X b then b else serialConfig (resetTemplates T).

Definition minaltFixed (minalt maxalt : Z) : Z := uint16_t (MIN minalt (maxalt - 100)).

Definition motorProtocolFixed (T : target_t) (p : Z) : Z :=
  if Config.USE_DSHOT T then p
  else if p >? PWM_TYPE_BRUSHED T then PWM_TYPE_MULTISHOT T else p.

Definition motorRateFixed (T : target_t) (p r : Z) : Z :=
  if BRUSHED_MOTORS T then uint16_t (constrain r 500 32000)
  else uint16_t (motorPwmRateLimit T p r).

Definition magAlignFixed (T : target_t) (a : Z) : Z :=
  if USE_MAG T then if a =? ALIGN_DEFAULT T then CW270_DEG_FLIP T else a else a.

(** What a full reset followed by the creation of defaults leaves in the
    groups. *)
Definition factoryDefaults (T : target_t) (X : extern_t) : config_t :=
  createDefaultConfig T X (pgResetAll T (MAX_PROFILE_COUNT T)).

(** The [case] labels of the [switch] on [motorPwmProtocol]. *)
Definition pwmCaseLabels (T : target_t) : list Z :=
  [PWM_TYPE_STANDARD T; PWM_TYPE_ONESHOT125 T; PWM_TYPE_MULTISHOT T;
   PWM_TYPE_BRUSHED T; PWM_TYPE_DSHOT150 T; PWM_TYPE_DSHOT300 T;
   PWM_TYPE_DSHOT600 T].

End ConfigAux.

Module MspBoxAux.

Import MspBox.

(** The row of the table for a member of [boxId_e], its name (which
    does not depend on the two macro ids) and its permanent id. *)
Definition boxRowOf (U1 U2 : Z) (b : boxId_e) : option (boxId_e * string * Z) :=
  List.find (fun r => boxId_eqb (fst (fst r)) b) (boxRows U1 U2).

Definition boxNameOf (b : boxId_e) : string :=
  match boxRowOf 0 0 b with Some r => snd (fst r) | None => EmptyString end.

Definition boxPermanentIdOf (U1 U2 : Z) (b : boxId_e) : Z :=
  match boxRowOf U1 U2 b with Some r => snd r | None => 255 end.

Definition boxDescriptor (boxval : boxId_e -> Z) (U1 U2 : Z) (b : boxId_e) : box_t :=
  {| boxId := boxval b; boxName := Some (boxNameOf b);
     permanentId := boxPermanentIdOf U1 U2 b |}.

(** The full name list of an active-box list: each name followed by
    [';'], in list order. *)
Definition boxNamesPayload (l : list boxId_e) : list Z :=
  concat (List.map (fun b => chars (boxNameOf b) ++ [BOX_SUFFIX]) l).

Definition boxIdsPayload (U1 U2 : Z) (l : list boxId_e) : list Z :=
  List.map (fun b => uint8_t (boxPermanentIdOf U1 U2 b)) l.

(** Is a box flagged by one of the [CHECK_ACTIVE_BOX] lines? *)
Definition boxChecked (lines : list (bool * boxId_e)) (b : boxId_e) : bool :=
  existsb (fun line => boxId_eqb (snd line) b && fst line) lines.

(** What [packBoxModeFlags] reports for each box, read off its
    [CHECK_ACTIVE_BOX] lines; BOXPREARM and BOXTURTLE have no line. *)
Definition reportedState (B : build_t) (R : runtime_t) (b : boxId_e) : bool :=
  match b with
  | BOXARM => ARMED R
  | BOXANGLE => FLIGHT_MODE R ANGLE_MODE
  | BOXHORIZON => FLIGHT_MODE R HORIZON_MODE
  | BOXNAVALTHOLD => FLIGHT_MODE R NAV_ALTHOLD_MODE
  | BOXHEADINGHOLD => FLIGHT_MODE R HEADING_MODE
  | BOXHEADFREE => FLIGHT_MODE R HEADFREE_MODE
  | BOXNAVRTH => FLIGHT_MODE R NAV_RTH_MODE
  | BOXNAVPOSHOLD => FLIGHT_MODE R NAV_POSHOLD_MODE
  | BOXMANUAL => FLIGHT_MODE R MANUAL_MODE
  | BOXAUTOTUNE => FLIGHT_MODE R AUTO_TUNE
  | BOXFAILSAFE => FLIGHT_MODE R FAILSAFE_MODE
  | BOXNAVWP => FLIGHT_MODE R NAV_WP_MODE
  | BOXSURFACE => navigationTerrainFollowingEnabled R
  | BOXFLAPERON => USE_FLM_FLAPERON B && FLIGHT_MODE R FLAPERON
  | BOXTURNASSIST => FLIGHT_MODE R TURN_ASSISTANT
  | BOXNAVLAUNCH => FLIGHT_MODE R NAV_LAUNCH_MODE
  | BOXNAVCOURSEHOLD => FLIGHT_MODE R NAV_COURSE_HOLD_MODE
  | BOXNAVCRUISE => FLIGHT_MODE R NAV_COURSE_HOLD_MODE && FLIGHT_MODE R NAV_ALTHOLD_MODE
  | BOXMSPRCOVERRIDE => USE_RX_MSP_RC_OVERRIDE B && IS_RC_MODE_ACTIVE R BOXMSPRCOVERRIDE
  | BOXPREARM | BOXTURTLE => false
  | _ => IS_RC_MODE_ACTIVE R b
  end.

(** The shape of the body of [initActiveBoxIds]: additions, sequences and
    guards whose conditions are already evaluated. *)
Inductive additions :=
  | Add (b : boxId_e)
  | Then (p q : additions)
  | Guard (c : bool) (p : additions).

Fixpoint run (boxval : boxId_e -> Z) (p : additions) : cmd :=
  match p with
  | Add b => ADD_ACTIVE_BOX boxval b
  | Then p q => seq (run boxval p) (run boxval q)
  | Guard c p => when c (run boxval p)
  end.

Fixpoint added (p : additions) : list boxId_e :=
  match p with
  | Add b => [b]
  | Then p q => added p ++ added q
  | Guard c p => if c then added p else []
  end.

Fixpoint mentioned (p : additions) : list boxId_e :=
  match p with
  | Add b => [b]
  | Then p q => mentioned p ++ mentioned q
  | Guard _ p => mentioned p
  end.

(** The guards under which a box is added: one list of conditions per
    place where the box is added. *)
Fixpoint guards (b : boxId_e) (p : additions) : list (list bool) :=
  match p with
  | Add b' => if boxId_eqb b' b then [[]] else []
  | Then p q => guards b p ++ guards b q
  | Guard c p => List.map (cons c) (guards b p)
  end.

Definition guardsHold (gs : list (list bool)) : bool :=
  existsb (forallb (fun c : bool => c)) gs.

(** The body of [initActiveBoxIds] after its two resetting statements,
    read off the definition. *)
Ltac shape_of c :=
  lazymatch c with
  | seq ?a ?b =>
      let p := shape_of a in
      let q := shape_of b in
      constr:(Then p q)
  | when ?c ?a =>
      let p := shape_of a in
      constr:(Guard c p)
  | ADD_ACTIVE_BOX _ ?b => constr:(Add b)
  end.

Definition initAdditions (C : context_t) : additions.
Proof.
  let body := eval cbv beta zeta delta [initActiveBoxIds] in (initActiveBoxIds boxOrdinal C) in
  lazymatch body with
  | seq memsetActiveBoxIds (seq RESET_BOX_ID_COUNT ?b) =>
      let p := shape_of b in exact p
  end.
Defined.

(** "No sensors present", "vehicle type multirotor". *)
Definition noSensors (C : context_t) : Prop := forall s, sensors C s = false.

Definition multirotorVehicle (C : context_t) : Prop :=
  STATE C MULTIROTOR = true /\ STATE C AIRPLANE = false
  /\ STATE C ROVER = false /\ STATE C BOAT = false.

(** The boxes that a multirotor without sensors is said to offer, and
    the navigation and altitude boxes, BOXNAVALTHOLD apart, that it is
    said not to offer. *)
Definition alwaysOffered : list boxId_e :=
  [BOXARM; BOXPREARM; BOXHEADINGHOLD; BOXCAMSTAB; BOXBEEPERON; BOXOSD;
   BOXKILLSWITCH; BOXFAILSAFE].

Definition positionBoxes : list boxId_e :=
  [BOXNAVPOSHOLD; BOXNAVRTH; BOXNAVWP; BOXNAVCRUISE; BOXNAVCOURSEHOLD;
   BOXNAVLAUNCH; BOXHOMERESET; BOXGCSNAV; BOXPLANWPMISSION; BOXLOITERDIRCHN;
   BOXSURFACE; BOXSOARING].

(** Every member of [boxId_e], in the order in which [initActiveBoxIds]
    mentions it. *)
Definition initOrder : list boxId_e :=
  [BOXARM; BOXPREARM; BOXANGLE; BOXHORIZON; BOXTURNASSIST; BOXAIRMODE;
   BOXHEADINGHOLD; BOXCAMSTAB; BOXHEADFREE; BOXHEADADJ; BOXSURFACE;
   BOXFPVANGLEMIX; BOXNAVPOSHOLD; BOXLOITERDIRCHN; BOXNAVRTH; BOXNAVWP;
   BOXHOMERESET; BOXGCSNAV; BOXPLANWPMISSION; BOXNAVCRUISE; BOXNAVCOURSEHOLD;
   BOXSOARING; BOXBRAKING; BOXNAVALTHOLD; BOXMANUAL; BOXNAVLAUNCH;
   BOXAUTOTRIM; BOXAUTOTUNE; BOXAUTOLEVEL; BOXFLAPERON; BOXBEEPERON;
   BOXLIGHTS; BOXLEDLOW; BOXOSD; BOXTELEMETRY; BOXBLACKBOX; BOXKILLSWITCH;
   BOXFAILSAFE; BOXCAMERA1; BOXCAMERA2; BOXCAMERA3; BOXUSER1; BOXUSER2;
   BOXOSDALT1; BOXOSDALT2; BOXOSDALT3; BOXMSPRCOVERRIDE; BOXTURTLE].

End MspBoxAux.

(* ================================================================== *)
(** * config.c: the beeper masks *)
(* ================================================================== *)

Module Beeper.

Definition uint32_t (z : Z) : Z := z mod 2 ^ 32.
Definition is_uint32 (z : Z) : Prop := 0 <= z < 2 ^ 32.

(** The two fields of [beeperConfig_t] that [config.c] reads and writes,
    both [uint32_t]. *)
Record beeperConfig_t := {
  beeper_off_flags : Z;
  preferred_beeper_off_flags : Z
}.

(** [beeper_off_flags |= mask]. *)
Definition beeperOffSet (mask : Z) (b : beeperConfig_t) : beeperConfig_t :=
  {| beeper_off_flags := Z.lor (beeper_off_flags b) mask;
     preferred_beeper_off_flags := preferred_beeper_off_flags b |}.

(** [beeper_off_flags = (1 << beeperCount) - 1], computed on [int]: the
    shift is defined for counts up to 30 only, [None] stands for the
    others. *)
Definition beeperOffSetAll (beeperCount : Z) (b : beeperConfig_t) : option beeperConfig_t :=
  if (0 <=? beeperCount) && (beeperCount <? 31) then
    Some {| beeper_off_flags := uint32_t (Z.shiftl 1 beeperCount - 1);
            preferred_beeper_off_flags := preferred_beeper_off_flags b |}
  else None.

(** [beeper_off_flags &= ~(mask)], the complement taken on [uint32_t]. *)
Definition beeperOffClear (mask : Z) (b : beeperConfig_t) : beeperConfig_t :=
  {| beeper_off_flags := Z.land (beeper_off_flags b) (uint32_t (Z.lnot mask));
     preferred_beeper_off_flags := preferred_beeper_off_flags b |}.

Definition beeperOffClearAll (b : beeperConfig_t) : beeperConfig_t :=
  {| beeper_off_flags := 0;
     preferred_beeper_off_flags := preferred_beeper_off_flags b |}.

Definition getBeeperOffMask (b : beeperConfig_t) : Z := beeper_off_flags b.

Definition setBeeperOffMask (mask : Z) (b : beeperConfig_t) : beeperConfig_t :=
  {| beeper_off_flags := mask;
     preferred_beeper_off_flags := preferred_beeper_off_flags b |}.

Definition getPreferredBeeperOffMask (b : beeperConfig_t) : Z :=
  preferred_beeper_off_flags b.

Definition setPreferredBeeperOffMask (mask : Z) (b : beeperConfig_t) : beeperConfig_t :=
  {| beeper_off_flags := beeper_off_flags b;
     preferred_beeper_off_flags := mask |}.

Definition sampleBeeperConfig : beeperConfig_t :=
  {| beeper_off_flags := 5; preferred_beeper_off_flags := 9 |}.

End Beeper.

(* ================================================================== *)
(** * fc_msp_box.c: the sensor status word *)
(* ================================================================== *)

Module SensorStatus.

Import MspBox.

(** [#define IS_ENABLED(mask) ((mask) == 0 ? 0 : 1)]. *)
Definition IS_ENABLED (mask : bool) : Z := if mask then 1 else 0.

(** [packSensorStatus]; [sensors] is the collaborator of
    [initActiveBoxIds], [isHardwareHealthy] the answer of
    [sensors/diagnostics.c].  The word is a [uint16_t]. *)
Definition packSensorStatus (sensors : sensors_e -> bool) (isHardwareHealthy : bool) : Z :=
  let sensorStatus :=
    uint16_t
      (Z.lor (Z.lor (Z.lor (Z.lor (Z.lor (Z.lor (Z.lor
         (Z.shiftl (IS_ENABLED (sensors SENSOR_ACC)) 0)
         (Z.shiftl (IS_ENABLED (sensors SENSOR_BARO)) 1))
         (Z.shiftl (IS_ENABLED (sensors SENSOR_MAG)) 2))
         (Z.shiftl (IS_ENABLED (sensors SENSOR_GPS)) 3))
         (Z.shiftl (IS_ENABLED (sensors SENSOR_RANGEFINDER)) 4))
         (Z.shiftl (IS_ENABLED (sensors SENSOR_OPFLOW)) 5))
         (Z.shiftl (IS_ENABLED (sensors SENSOR_PITOT)) 6))
         (Z.shiftl (IS_ENABLED (sensors SENSOR_TEMP)) 7)) in
  if negb isHardwareHealthy
  then uint16_t (Z.lor sensorStatus (Z.shiftl 1 15))
  else sensorStatus.

(** The sensor a bit of the word stands for. *)
Definition sensorOfBit (k : Z) : option sensors_e :=
  match k with
  | 0 => Some SENSOR_ACC
  | 1 => Some SENSOR_BARO
  | 2 => Some SENSOR_MAG
  | 3 => Some SENSOR_GPS
  | 4 => Some SENSOR_RANGEFINDER
  | 5 => Some SENSOR_OPFLOW
  | 6 => Some SENSOR_PITOT
  | 7 => Some SENSOR_TEMP
  | _ => None
  end.

Definition gpsAndBaroOnly (s : sensors_e) : bool :=
  match s with SENSOR_BARO | SENSOR_GPS => true | _ => false end.

End SensorStatus.

(* ================================================================== *)
(** * Auxiliary definitions for the further statements *)
(* ================================================================== *)

Module MoreAux.

Import Config MspBox MspBoxAux.

(** Both profile indices of a state lie within their slot counts. *)
Definition profilesInRange (T : target_t) (s : fc_t) : Prop :=
  0 <= current_profile_index (config s) < MAX_PROFILE_COUNT T
  /\ 0 <= current_battery_profile_index (config s) < MAX_BATTERY_PROFILE_COUNT T.

(** The index that [setConfigProfile] and [setConfigBatteryProfile]
    store for a request: 0 replaces an index at or beyond the slot
    count. *)
Definition clampIndex (count idx : Z) : Z := if idx >=? count then 0 else idx.

(** The constants that the validator stores into [uint8_t] fields. *)
Definition targetConstantsInRange (T : target_t) : Prop :=
  is_uint8 (SERVO_TYPE_PWM T) /\ is_uint8 (PWM_TYPE_MULTISHOT T)
  /\ is_uint8 (CW270_DEG_FLIP T).

(** Was the RX signal suspended whenever the EEPROM was written or
    loaded?  The calls are read in the order in which they were made. *)
Fixpoint rxSuspendedDuringAccess (calls : list event) (suspended : bool) : bool :=
  match calls with
  | [] => negb suspended
  | EvSuspendRx :: rest => rxSuspendedDuringAccess rest true
  | EvResumeRx :: rest => suspended && rxSuspendedDuringAccess rest false
  | EvWriteConfigToEEPROM :: rest => suspended && rxSuspendedDuringAccess rest suspended
  | EvLoadEEPROM :: rest => suspended && rxSuspendedDuringAccess rest suspended
  | _ :: rest => rxSuspendedDuringAccess rest suspended
  end.

(** The calls made between two states, oldest first (the log of a state
    has the latest call first). *)
Definition callsSince (before after : fc_t) : list event :=
  rev (take (length (events after) - length (events before)) (events after)).

(** How a receiver takes the name list apart: every [';'] closes a name. *)
Fixpoint splitNames (bytes : list Z) (name : list Z) : list (list Z) :=
  match bytes with
  | [] => []
  | c :: rest =>
      if c =? BOX_SUFFIX then rev name :: splitNames rest []
      else splitNames rest (c :: name)
  end.

(** How a receiver maps the id list back to [boxId] values. *)
Definition decodeBoxIds (boxval : boxId_e -> Z) (U1 U2 : Z) (bytes : list Z) : list (option Z) :=
  List.map (fun pid => option_map boxId (findBoxByPermanentId boxval U1 U2 pid)) bytes.

(** The boxes that need a fixed-wing airframe, and the ones that need a
    multirotor. *)
Definition airplaneBoxes : list boxId_e :=
  [BOXLOITERDIRCHN; BOXNAVCRUISE; BOXNAVCOURSEHOLD; BOXSOARING; BOXNAVLAUNCH;
   BOXAUTOTRIM; BOXAUTOTUNE; BOXAUTOLEVEL].

Definition multirotorBoxes : list boxId_e :=
  [BOXHEADFREE; BOXHEADADJ; BOXSURFACE; BOXFPVANGLEMIX; BOXTURTLE].

(** The boxes inside [#ifdef USE_GPS]. *)
Definition gpsBuildBoxes : list boxId_e :=
  [BOXNAVPOSHOLD; BOXLOITERDIRCHN; BOXNAVRTH; BOXNAVWP; BOXHOMERESET;
   BOXGCSNAV; BOXPLANWPMISSION; BOXNAVCRUISE; BOXNAVCOURSEHOLD; BOXSOARING;
   BOXBRAKING].

(** The boxes that are added together. *)
Definition angleBoxes : list boxId_e := [BOXANGLE; BOXHORIZON; BOXTURNASSIST].

Definition returnHomeBoxes : list boxId_e :=
  [BOXNAVRTH; BOXNAVWP; BOXHOMERESET; BOXGCSNAV; BOXPLANWPMISSION].

(** A fixed-wing aircraft with every sensor and the GPS feature. *)
Definition equippedAirplane : context_t :=
  {| build := Samples.fullBuild;
     sensors := fun _ => true;
     STATE := fun f => match f with AIRPLANE | ALTITUDE_CONTROL | FLAPERON_AVAILABLE => true
                                | _ => false end;
     feature := fun f => match f with FEATURE_GPS | FEATURE_TELEMETRY => true | _ => false end;
     use_gps_no_baro := false; allow_dead_reckoning := false;
     hwCompassPresent := true; platformIsMultirotor := false;
     telemetry_switch := true; isMotorProtocolDshot := false |}.

(** The same aircraft on a build without [USE_GPS]. *)
Definition airplaneWithoutGpsBuild : context_t :=
  {| build :=
       {| USE_GPS := false; USE_MR_BRAKING_MODE := true; USE_AUTOTUNE_FIXED_WING := true;
          USE_LIGHTS := true; MspBox.USE_LED_STRIP := true; USE_TELEMETRY := true;
          USE_BLACKBOX := true; USE_RCDEVICE := true; USE_PINIOBOX := true;
          USE_OSD := true; OSD_LAYOUT_COUNT := Some 4; USE_RX_MSP_RC_OVERRIDE := true;
          MspBox.USE_DSHOT := true; USE_FLM_FLAPERON := true |};
     sensors := sensors equippedAirplane;
     STATE := STATE equippedAirplane;
     feature := feature equippedAirplane;
     use_gps_no_baro := false; allow_dead_reckoning := false;
     hwCompassPresent := true; platformIsMultirotor := false;
     telemetry_switch := true; isMotorProtocolDshot := false |}.

(** Armed, in angle mode, camera stabilisation switched on. *)
Definition armedInAngle : runtime_t :=
  {| FLIGHT_MODE := fun m => match m with ANGLE_MODE => true | _ => false end;
     IS_RC_MODE_ACTIVE := fun b => boxId_eqb b BOXCAMSTAB;
     ARMED := true;
     navigationTerrainFollowingEnabled := false |}.

End MoreAux.

(* ================================================================== *)
(** * Properties of config.c *)
(* ================================================================== *)

Module ConfigTheory.

Import Config ConfigAux.

(** ** Arithmetic of the helpers *)

Lemma uint16_t_id z : is_uint16 z -> uint16_t z = z.
Proof. unfold is_uint16, uint16_t. intros H. apply Z.mod_small. lia. Qed.

Lemma uint16_t_range z : is_uint16 (uint16_t z).
Proof. unfold is_uint16, uint16_t. apply Z.mod_pos_bound. lia. Qed.

Lemma MIN_spec a b : MIN a b = Z.min a b.
Proof. unfold MIN. destruct (Z.ltb_spec a b); lia. Qed.

Lemma constrain_spec amt low high :
  low <= high -> constrain amt low high = Z.max low (Z.min amt high).
Proof.
  intros H. unfold constrain.
  destruct (Z.ltb_spec amt low); [lia |].
  destruct (Z.gtb_spec amt high); lia.
Qed.

Lemma land_lnot_twice f m : Z.land (Z.land f (Z.lnot m)) (Z.lnot m) = Z.land f (Z.lnot m).
Proof. rewrite <- Z.land_assoc. now rewrite Z.land_diag. Qed.

Lemma land_lnot_swap f m n :
  Z.land (Z.land (Z.land f (Z.lnot m)) (Z.lnot n)) (Z.lnot m) = Z.land (Z.land f (Z.lnot m)) (Z.lnot n).
Proof.
  rewrite <- !Z.land_assoc. f_equal.
  rewrite (Z.land_comm (Z.lnot n)), Z.land_assoc, Z.land_diag. reflexivity.
Qed.

Lemma land_lnot_self f m : Z.land (Z.land f (Z.lnot m)) m = 0.
Proof.
  rewrite <- Z.land_assoc, (Z.land_comm (Z.lnot m)), Z.land_lnot_diag.
  apply Z.land_0_r.
Qed.

Lemma lor_twice f m : Z.lor (Z.lor f m) m = Z.lor f m.
Proof. rewrite <- Z.lor_assoc. now rewrite Z.lor_diag. Qed.

(** ** Each rule writes one field *)

Lemma config_eta c :
  c = {| acc_notch_hz := acc_notch_hz c; acc_notch_cutoff := acc_notch_cutoff c;
         enabledFeatures := enabledFeatures c; servo_protocol := servo_protocol c;
         serialConfig := serialConfig c;
         land_slowdown_minalt := land_slowdown_minalt c;
         land_slowdown_maxalt := land_slowdown_maxalt c;
         motorPwmProtocol := motorPwmProtocol c; motorPwmRate := motorPwmRate c;
         mag_align := mag_align c; current_profile_index := current_profile_index c;
         current_battery_profile_index := current_battery_profile_index c;
         rcmap := rcmap c; pgProfiles := pgProfiles c; pgOther := pgOther c |}.
Proof. now destruct c. Qed.

Lemma fixAccNotch_field c : fixAccNotch c = set_acc_notch_hz (accNotchHzFixed c) c.
Proof.
  unfold fixAccNotch, accNotchHzFixed.
  destruct (acc_notch_cutoff c >=? acc_notch_hz c); [reflexivity | now destruct c].
Qed.

Lemma featureClear_field m c :
  featureClear m c = set_enabledFeatures (Z.land (enabledFeatures c) (Z.lnot m)) c.
Proof. reflexivity. Qed.

Lemma fixLedStripTimer_field T c :
  fixLedStripTimer T c =
  set_enabledFeatures
    (if ledStripClash T (enabledFeatures c)
     then Z.land (enabledFeatures c) (Z.lnot (Config.FEATURE_LED_STRIP T))
     else enabledFeatures c) c.
Proof.
  unfold fixLedStripTimer, ledStripClash, featureConfigured, featureClear.
  destruct (USE_LED_STRIP_WITH_SOFTSERIAL T); cbn [andb]; [| now destruct c].
  destruct (negb (Z.land (enabledFeatures c) (FEATURE_SOFTSERIAL T) =? 0));
    cbn [andb]; [| now destruct c].
  destruct (negb (Z.land (enabledFeatures c) (Config.FEATURE_LED_STRIP T) =? 0));
    cbn [andb]; [| now destruct c].
  destruct (ledTimerHardware T) as [led |]; [| now destruct c].
  destruct (sameTimerAs led (USE_SOFTSERIAL1 T) (ss1TimerHardware T)
            || sameTimerAs led (USE_SOFTSERIAL2 T) (ss2TimerHardware T));
    [reflexivity | now destruct c].
Qed.

Lemma fixServoProtocol_field T c :
  fixServoProtocol T c = set_servo_protocol (servoProtocolFixed T (servo_protocol c)) c.
Proof.
  unfold fixServoProtocol, servoProtocolFixed.
  destruct (USE_SERVO_SBUS T); [now destruct c |].
  destruct ((servo_protocol c =? SERVO_TYPE_SBUS T) || (servo_protocol c =? SERVO_TYPE_SBUS_PWM T));
    [reflexivity | now destruct c].
Qed.

Lemma fixSerialConfig_field T X c :
  fixSerialConfig T X c = set_serialConfig (serialConfigFixed T X (serialConfig c)) c.
Proof.
  unfold fixSerialConfig, serialConfigFixed.
  destruct (isSerialConfigValid X (serialConfig c)); [now destruct c | reflexivity].
Qed.

Lemma fixMotorProtocol_field T c :
  fixMotorProtocol T c = set_motorPwmProtocol (motorProtocolFixed T (motorPwmProtocol c)) c.
Proof.
  unfold fixMotorProtocol, motorProtocolFixed.
  destruct (Config.USE_DSHOT T); [now destruct c |].
  destruct (motorPwmProtocol c >? PWM_TYPE_BRUSHED T); [reflexivity | now destruct c].
Qed.

Lemma fixMotorPwmRate_field T c :
  fixMotorPwmRate T c = set_motorPwmRate (motorRateFixed T (motorPwmProtocol c) (motorPwmRate c)) c.
Proof.
  unfold fixMotorPwmRate, motorRateFixed. now destruct (BRUSHED_MOTORS T).
Qed.

Lemma fixMagAlign_field T c :
  fixMagAlign T c = set_mag_align (magAlignFixed T (mag_align c)) c.
Proof.
  unfold fixMagAlign, magAlignFixed.
  destruct (USE_MAG T); [| now destruct c].
  destruct (mag_align c =? ALIGN_DEFAULT T); [reflexivity | now destruct c].
Qed.

(** The validator's pass over the groups, field by field. *)
Lemma validateAndFixGroups_fields T X c :
  validateAndFixGroups T X c =
  {| acc_notch_hz := accNotchHzFixed c;
     acc_notch_cutoff := acc_notch_cutoff c;
     enabledFeatures := featuresFixed T (enabledFeatures c);
     servo_protocol := servoProtocolFixed T (servo_protocol c);
     serialConfig := serialConfigFixed T X (serialConfig c);
     land_slowdown_minalt := minaltFixed (land_slowdown_minalt c) (land_slowdown_maxalt c);
     land_slowdown_maxalt := land_slowdown_maxalt c;
     motorPwmProtocol := motorProtocolFixed T (motorPwmProtocol c);
     motorPwmRate :=
       motorRateFixed T (motorProtocolFixed T (motorPwmProtocol c)) (motorPwmRate c);
     mag_align := magAlignFixed T (mag_align c);
     current_profile_index := current_profile_index c;
     current_battery_profile_index := current_battery_profile_index c;
     rcmap := rcmap c; pgProfiles := pgProfiles c; pgOther := pgOther c |}.
Proof.
  unfold validateAndFixGroups, validateAndFixTargetConfig, validateNavConfig.
  rewrite fixAccNotch_field, featureClear_field, fixLedStripTimer_field,
    fixServoProtocol_field, fixSerialConfig_field, fixMotorProtocol_field,
    fixMotorPwmRate_field, fixMagAlign_field.
  destruct c. reflexivity.
Qed.

(** ** The rules are idempotent, one field at a time *)

Lemma accNotchHzFixed_idem c :
  (if acc_notch_cutoff c >=? accNotchHzFixed c then 0 else accNotchHzFixed c)
  = accNotchHzFixed c.
Proof.
  unfold accNotchHzFixed.
  destruct (acc_notch_cutoff c >=? acc_notch_hz c) eqn:E.
  - now destruct (acc_notch_cutoff c >=? 0).
  - now rewrite E.
Qed.

Lemma ledStripClash_cleared T f :
  ledStripClash T (Z.land f (Z.lnot (Config.FEATURE_LED_STRIP T))) = false.
Proof.
  unfold ledStripClash. rewrite land_lnot_self. cbn.
  now rewrite !andb_false_r.
Qed.

Lemma featuresFixed_idem T f : featuresFixed T (featuresFixed T f) = featuresFixed T f.
Proof.
  unfold featuresFixed. cbv zeta.
  destruct (ledStripClash T (Z.land f (Z.lnot (FEATURE_UNUSED T)))) eqn:E.
  - rewrite land_lnot_swap. now rewrite ledStripClash_cleared.
  - rewrite land_lnot_twice. now rewrite E.
Qed.

Lemma servoProtocolFixed_idem T p :
  servoProtocolFixed T (servoProtocolFixed T p) = servoProtocolFixed T p.
Proof.
  unfold servoProtocolFixed. destruct (USE_SERVO_SBUS T); [reflexivity |].
  destruct ((p =? SERVO_TYPE_SBUS T) || (p =? SERVO_TYPE_SBUS_PWM T)) eqn:E.
  - now destruct ((SERVO_TYPE_PWM T =? SERVO_TYPE_SBUS T)
                  || (SERVO_TYPE_PWM T =? SERVO_TYPE_SBUS_PWM T)).
  - now rewrite E.
Qed.

Lemma serialConfigFixed_idem T X b :
  serialConfigFixed T X (serialConfigFixed T X b) = serialConfigFixed T X b.
Proof.
  unfold serialConfigFixed. destruct (isSerialConfigValid X b) eqn:E.
  - now rewrite E.
  - now destruct (isSerialConfigValid X (serialConfig (resetTemplates T))).
Qed.

Lemma minaltFixed_idem a m :
  is_uint16 a -> minaltFixed (minaltFixed a m) m = minaltFixed a m.
Proof.
  unfold minaltFixed, is_uint16, uint16_t. intros Ha. rewrite !MIN_spec.
  destruct (Z.le_gt_cases a (m - 100)) as [Hle | Hgt].
  - rewrite (Z.min_l a) by lia. rewrite (Z.mod_small a) by lia.
    rewrite Z.min_l by lia. apply Z.mod_small. lia.
  - rewrite (Z.min_r a) by lia.
    pose proof (Z.mod_pos_bound (m - 100) 65536 ltac:(lia)) as Hb.
    destruct (Z.le_gt_cases ((m - 100) mod 65536) (m - 100)).
    + rewrite Z.min_l by lia. now rewrite Z.mod_mod by lia.
    + now rewrite Z.min_r by lia.
Qed.

Lemma motorProtocolFixed_idem T p :
  motorProtocolFixed T (motorProtocolFixed T p) = motorProtocolFixed T p.
Proof.
  unfold motorProtocolFixed. destruct (Config.USE_DSHOT T); [reflexivity |].
  destruct (p >? PWM_TYPE_BRUSHED T) eqn:E.
  - now destruct (PWM_TYPE_MULTISHOT T >? PWM_TYPE_BRUSHED T).
  - now rewrite E.
Qed.

Lemma MIN_uint16_idem r k :
  is_uint16 r -> 0 <= k < 65536 -> uint16_t (MIN (uint16_t (MIN r k)) k) = uint16_t (MIN r k).
Proof.
  unfold is_uint16, uint16_t. intros Hr Hk. rewrite !MIN_spec.
  rewrite (Z.mod_small (Z.min r k)) by lia.
  replace (Z.min (Z.min r k) k) with (Z.min r k) by lia.
  apply Z.mod_small. lia.
Qed.

Lemma constrain_uint16_idem r lo hi :
  0 <= lo <= hi -> hi < 65536 ->
  uint16_t (constrain (uint16_t (constrain r lo hi)) lo hi) = uint16_t (constrain r lo hi).
Proof.
  unfold uint16_t. intros Hlo Hhi. rewrite !constrain_spec by lia.
  rewrite (Z.mod_small (Z.max lo (Z.min r hi))) by lia.
  replace (Z.max lo (Z.min (Z.max lo (Z.min r hi)) hi))
    with (Z.max lo (Z.min r hi)) by lia.
  apply Z.mod_small. lia.
Qed.

Lemma motorRateFixed_idem T p r :
  is_uint16 r -> motorRateFixed T p (motorRateFixed T p r) = motorRateFixed T p r.
Proof.
  intros Hr. unfold motorRateFixed, motorPwmRateLimit.
  destruct (BRUSHED_MOTORS T); [apply constrain_uint16_idem; lia |].
  repeat match goal with
         | |- context [if ?b then _ else _] => destruct b
         end;
    solve [apply MIN_uint16_idem; [assumption | lia]
          | apply constrain_uint16_idem; lia].
Qed.

Lemma magAlignFixed_idem T a : magAlignFixed T (magAlignFixed T a) = magAlignFixed T a.
Proof.
  unfold magAlignFixed. destruct (USE_MAG T); [| reflexivity].
  destruct (a =? ALIGN_DEFAULT T) eqn:E.
  - now destruct (CW270_DEG_FLIP T =? ALIGN_DEFAULT T).
  - now rewrite E.
Qed.

Lemma validateAndFixGroups_idempotent T X c :
  config_wf c ->
  validateAndFixGroups T X (validateAndFixGroups T X c) = validateAndFixGroups T X c.
Proof.
  intros Hwf.
  rewrite (validateAndFixGroups_fields T X (validateAndFixGroups T X c)).
  rewrite !(validateAndFixGroups_fields T X c).
  cbn [acc_notch_hz acc_notch_cutoff enabledFeatures servo_protocol serialConfig
       land_slowdown_minalt land_slowdown_maxalt motorPwmProtocol motorPwmRate
       mag_align current_profile_index current_battery_profile_index rcmap
       pgProfiles pgOther].
  rewrite featuresFixed_idem, servoProtocolFixed_idem, serialConfigFixed_idem,
    motorProtocolFixed_idem, magAlignFixed_idem.
  rewrite minaltFixed_idem by apply (wf_minalt _ Hwf).
  rewrite motorRateFixed_idem by apply (wf_rate _ Hwf).
  f_equal.
  unfold accNotchHzFixed at 1.
  cbn [acc_notch_hz acc_notch_cutoff].
  apply accNotchHzFixed_idem.
Qed.

(** C2.  For every snapshot whose fields are within the range of their C
    types, the validator run on its own output changes nothing:
    [validateAndFixConfig] is idempotent, over all of its rules (acc-notch
    clearing, feature clearing, servo-protocol fallback, serial reset,
    nav-altitude correction, motor protocol and rate clamping, compass
    alignment, arming-flag update). *)
Theorem validateAndFixConfig_idempotent T X s :
  config_wf (config s) ->
  validateAndFixConfig T X (validateAndFixConfig T X s) = validateAndFixConfig T X s.
Proof.
  intros Hwf. destruct s as [c pg cr bp af img ev].
  cbn [config] in Hwf.
  unfold validateAndFixConfig, with_config, set_armingFlags.
  cbn [config pgActiveProfile controlRateProfile batteryProfile armingFlags eeprom events].
  destruct (settingsValidate X (validateAndFixGroups T X c) pg) eqn:E;
    cbn [config pgActiveProfile controlRateProfile batteryProfile armingFlags eeprom events];
    rewrite (validateAndFixGroups_idempotent T X c Hwf), E;
    unfold DISABLE_ARMING_FLAG, ENABLE_ARMING_FLAG;
    [rewrite land_lnot_twice | rewrite lor_twice]; reflexivity.
Qed.

Lemma sampleConfig_wf : config_wf Samples.sampleConfig.
Proof. split; cbn; unfold is_uint8, is_uint16; lia. Qed.

Lemma validateAndFixConfig_idempotent_witness :
  validateAndFixConfig Samples.sampleTarget Samples.sampleExtern
    (validateAndFixConfig Samples.sampleTarget Samples.sampleExtern
       (Samples.sampleState Samples.sampleConfig true))
  = validateAndFixConfig Samples.sampleTarget Samples.sampleExtern
      (Samples.sampleState Samples.sampleConfig true).
Proof.
  apply (validateAndFixConfig_idempotent Samples.sampleTarget Samples.sampleExtern
           (Samples.sampleState Samples.sampleConfig true)).
  split; cbn; unfold is_uint8, is_uint16; lia.
Defined.

(** ** What the validator leaves alone *)

Lemma validateAndFixConfig_config T X s :
  config (validateAndFixConfig T X s) = validateAndFixGroups T X (config s).
Proof.
  unfold validateAndFixConfig.
  destruct (settingsValidate X _ _); reflexivity.
Qed.

Lemma validateAndFixConfig_pgActiveProfile T X s :
  pgActiveProfile (validateAndFixConfig T X s) = pgActiveProfile s.
Proof.
  unfold validateAndFixConfig.
  destruct (settingsValidate X _ _); reflexivity.
Qed.

Lemma validateAndFixGroups_profile_index T X c :
  current_profile_index (validateAndFixGroups T X c) = current_profile_index c.
Proof. now rewrite validateAndFixGroups_fields. Qed.

Lemma validateAndFixGroups_maxalt T X c :
  land_slowdown_maxalt (validateAndFixGroups T X c) = land_slowdown_maxalt c.
Proof. now rewrite validateAndFixGroups_fields. Qed.

Lemma validateAndFixGroups_minalt T X c :
  land_slowdown_minalt (validateAndFixGroups T X c)
  = minaltFixed (land_slowdown_minalt c) (land_slowdown_maxalt c).
Proof. now rewrite validateAndFixGroups_fields. Qed.

(** ** The landing thresholds *)

(** C5, as the code has it.  The validator never changes
    [land_slowdown_maxalt], whatever the snapshot.  For a snapshot whose
    [land_slowdown_maxalt] is at least the margin of 100 (the settings
    bound it below by 500) and whose [land_slowdown_minalt] is a
    [uint16_t] value, the validator leaves [land_slowdown_minalt] at
    most [land_slowdown_maxalt - 100] and never above its input value:
    it is the smaller of the input value and
    [land_slowdown_maxalt - 100]. *)
Theorem validator_landing_thresholds T X s :
  land_slowdown_maxalt (config (validateAndFixConfig T X s)) = land_slowdown_maxalt (config s)
  /\ (is_uint16 (land_slowdown_minalt (config s)) ->
      100 <= land_slowdown_maxalt (config s) ->
      land_slowdown_minalt (config (validateAndFixConfig T X s))
      <= land_slowdown_maxalt (config (validateAndFixConfig T X s)) - 100
      /\ land_slowdown_minalt (config (validateAndFixConfig T X s))
         <= land_slowdown_minalt (config s)
      /\ land_slowdown_minalt (config (validateAndFixConfig T X s))
         = Z.min (land_slowdown_minalt (config s)) (land_slowdown_maxalt (config s) - 100)).
Proof.
  rewrite validateAndFixConfig_config, validateAndFixGroups_maxalt,
    validateAndFixGroups_minalt.
  split; [reflexivity |].
  intros Hmin Hmax.
  unfold minaltFixed, is_uint16 in *. rewrite MIN_spec.
  unfold uint16_t. rewrite Z.mod_small by lia. lia.
Qed.

Lemma validator_landing_thresholds_witness :
  land_slowdown_maxalt (config (validateAndFixConfig Samples.sampleTarget Samples.sampleExtern
                                  (Samples.sampleState Samples.sampleConfig true))) = 2000
  /\ land_slowdown_minalt (config (validateAndFixConfig Samples.sampleTarget Samples.sampleExtern
                                     (Samples.sampleState Samples.sampleConfig true)))
     <= land_slowdown_maxalt (config (validateAndFixConfig Samples.sampleTarget Samples.sampleExtern
                                        (Samples.sampleState Samples.sampleConfig true))) - 100
  /\ land_slowdown_minalt (config (validateAndFixConfig Samples.sampleTarget Samples.sampleExtern
                                     (Samples.sampleState Samples.sampleConfig true)))
     <= 500.
Proof.
  destruct (validator_landing_thresholds Samples.sampleTarget Samples.sampleExtern
              (Samples.sampleState Samples.sampleConfig true)) as [Hmax H].
  destruct H as (Hle & Hlow & _).
  - unfold is_uint16. cbn. lia.
  - cbn. lia.
  - split; [exact Hmax | split; [exact Hle | exact Hlow]].
Defined.

(** C5, as stated, fails: a stored [land_slowdown_maxalt] of 50 with
    [land_slowdown_minalt] at 10 comes out with the lower threshold at
    65486, above the upper one and above its own input. *)
Lemma validator_low_maxalt_raises_minalt :
  config_wf Samples.lowMaxaltConfig
  /\ land_slowdown_minalt (config (validateAndFixConfig Samples.sampleTarget Samples.sampleExtern
                                     (Samples.sampleState Samples.lowMaxaltConfig true))) = 65486
  /\ ~ (land_slowdown_minalt (config (validateAndFixConfig Samples.sampleTarget Samples.sampleExtern
                                        (Samples.sampleState Samples.lowMaxaltConfig true)))
        <= land_slowdown_maxalt (config (validateAndFixConfig Samples.sampleTarget Samples.sampleExtern
                                           (Samples.sampleState Samples.lowMaxaltConfig true))) - 100)
  /\ ~ (land_slowdown_minalt (config (validateAndFixConfig Samples.sampleTarget Samples.sampleExtern
                                        (Samples.sampleState Samples.lowMaxaltConfig true)))
        <= land_slowdown_minalt Samples.lowMaxaltConfig).
Proof.
  split; [split; cbn; unfold is_uint8, is_uint16; lia |].
  rewrite validateAndFixConfig_config, validateAndFixGroups_maxalt,
    validateAndFixGroups_minalt.
  assert (E : minaltFixed (land_slowdown_minalt Samples.lowMaxaltConfig)
                (land_slowdown_maxalt Samples.lowMaxaltConfig) = 65486)
    by (vm_compute; reflexivity).
  unfold Samples.sampleState. cbn [config]. rewrite E. cbn. lia.
Qed.

(** ** The motor output rate *)

Lemma validateAndFixGroups_motor T X c :
  motorPwmProtocol (validateAndFixGroups T X c) = motorProtocolFixed T (motorPwmProtocol c)
  /\ motorPwmRate (validateAndFixGroups T X c)
     = motorRateFixed T (motorProtocolFixed T (motorPwmProtocol c)) (motorPwmRate c).
Proof. now rewrite validateAndFixGroups_fields. Qed.

Lemma pwmCaseLabels_distinct T :
  NoDup (pwmCaseLabels T) ->
  forall i j a b, pwmCaseLabels T !! i = Some a -> pwmCaseLabels T !! j = Some b ->
    i <> j -> (a =? b) = false.
Proof.
  intros Hnd i j a b Hi Hj Hij. apply Z.eqb_neq. intros ->.
  apply Hij. eapply NoDup_lookup; eauto.
Qed.

Ltac label_neq H i j :=
  rewrite (pwmCaseLabels_distinct _ H i j _ _ eq_refl eq_refl ltac:(discriminate)).

(** C6, as the code has it.  The protocol that the validator leaves
    selected is the stored one, in a build with [USE_DSHOT] and, in a
    build without it, for a stored value up to BRUSHED; in a build
    without [USE_DSHOT] a stored value above BRUSHED is replaced by
    MULTISHOT.  In a build without [BRUSHED_MOTORS] the rate is clamped
    into the band of the protocol left selected, both ends included: at
    most 490 for STANDARD and 3900 for ONESHOT125, [2000, 16000] for
    MULTISHOT and [500, 32000] for BRUSHED, and, in a build with
    [USE_DSHOT], at most 4000, 8000 and 16000 for DSHOT150, DSHOT300 and
    DSHOT600.  In a [BRUSHED_MOTORS] build the rate is clamped into
    [500, 32000] whatever the protocol. *)
Theorem validator_motor_rate_band T X s :
  config_wf (config s) ->
  NoDup (pwmCaseLabels T) ->
  (Config.USE_DSHOT T = true \/ motorPwmProtocol (config s) <= PWM_TYPE_BRUSHED T ->
     motorPwmProtocol (config (validateAndFixConfig T X s)) = motorPwmProtocol (config s))
  /\ (Config.USE_DSHOT T = false -> PWM_TYPE_BRUSHED T < motorPwmProtocol (config s) ->
      motorPwmProtocol (config (validateAndFixConfig T X s)) = PWM_TYPE_MULTISHOT T)
  /\ (BRUSHED_MOTORS T = false ->
      (motorPwmProtocol (config (validateAndFixConfig T X s)) = PWM_TYPE_STANDARD T ->
       motorPwmRate (config (validateAndFixConfig T X s)) = Z.min (motorPwmRate (config s)) 490)
      /\ (motorPwmProtocol (config (validateAndFixConfig T X s)) = PWM_TYPE_ONESHOT125 T ->
          motorPwmRate (config (validateAndFixConfig T X s))
          = Z.min (motorPwmRate (config s)) 3900)
      /\ (motorPwmProtocol (config (validateAndFixConfig T X s)) = PWM_TYPE_MULTISHOT T ->
          motorPwmRate (config (validateAndFixConfig T X s))
          = Z.max 2000 (Z.min (motorPwmRate (config s)) 16000))
      /\ (motorPwmProtocol (config (validateAndFixConfig T X s)) = PWM_TYPE_BRUSHED T ->
          motorPwmRate (config (validateAndFixConfig T X s))
          = Z.max 500 (Z.min (motorPwmRate (config s)) 32000))
      /\ (Config.USE_DSHOT T = true ->
          (motorPwmProtocol (config (validateAndFixConfig T X s)) = PWM_TYPE_DSHOT150 T ->
           motorPwmRate (config (validateAndFixConfig T X s))
           = Z.min (motorPwmRate (config s)) 4000)
          /\ (motorPwmProtocol (config (validateAndFixConfig T X s)) = PWM_TYPE_DSHOT300 T ->
              motorPwmRate (config (validateAndFixConfig T X s))
              = Z.min (motorPwmRate (config s)) 8000)
          /\ (motorPwmProtocol (config (validateAndFixConfig T X s)) = PWM_TYPE_DSHOT600 T ->
              motorPwmRate (config (validateAndFixConfig T X s))
              = Z.min (motorPwmRate (config s)) 16000)))
  /\ (BRUSHED_MOTORS T = true ->
      motorPwmRate (config (validateAndFixConfig T X s))
      = Z.max 500 (Z.min (motorPwmRate (config s)) 32000)).
Proof.
  intros Hwf Hnd.
  pose proof (wf_rate _ Hwf) as Hr. unfold is_uint16 in Hr.
  rewrite validateAndFixConfig_config.
  destruct (validateAndFixGroups_motor T X (config s)) as [-> ->].
  split; [| split; [| split]].
  - unfold motorProtocolFixed. intros [-> | Hle]; [reflexivity |].
    destruct (Config.USE_DSHOT T); [reflexivity |].
    destruct (Z.gtb_spec (motorPwmProtocol (config s)) (PWM_TYPE_BRUSHED T));
      [lia | reflexivity].
  - unfold motorProtocolFixed. intros -> Hgt.
    destruct (Z.gtb_spec (motorPwmProtocol (config s)) (PWM_TYPE_BRUSHED T));
      [reflexivity | lia].
  - intros HB. unfold motorRateFixed. rewrite HB.
    generalize (motorProtocolFixed T (motorPwmProtocol (config s))). intros p.
    unfold motorPwmRateLimit, uint16_t.
    split; [| split; [| split; [| split; [| intros HD; rewrite HD; cbn [andb];
                                            split; [| split]]]]];
      intros ->; rewrite ?Z.eqb_refl;
      repeat (first [ label_neq Hnd 0%nat 1%nat | label_neq Hnd 0%nat 2%nat
                    | label_neq Hnd 0%nat 3%nat | label_neq Hnd 0%nat 4%nat
                    | label_neq Hnd 0%nat 5%nat | label_neq Hnd 0%nat 6%nat
                    | label_neq Hnd 1%nat 0%nat | label_neq Hnd 1%nat 2%nat
                    | label_neq Hnd 1%nat 3%nat | label_neq Hnd 1%nat 4%nat
                    | label_neq Hnd 1%nat 5%nat | label_neq Hnd 1%nat 6%nat
                    | label_neq Hnd 2%nat 0%nat | label_neq Hnd 2%nat 1%nat
                    | label_neq Hnd 2%nat 3%nat | label_neq Hnd 2%nat 4%nat
                    | label_neq Hnd 2%nat 5%nat | label_neq Hnd 2%nat 6%nat
                    | label_neq Hnd 3%nat 0%nat | label_neq Hnd 3%nat 1%nat
                    | label_neq Hnd 3%nat 2%nat | label_neq Hnd 3%nat 4%nat
                    | label_neq Hnd 3%nat 5%nat | label_neq Hnd 3%nat 6%nat
                    | label_neq Hnd 4%nat 0%nat | label_neq Hnd 4%nat 1%nat
                    | label_neq Hnd 4%nat 2%nat | label_neq Hnd 4%nat 3%nat
                    | label_neq Hnd 4%nat 5%nat | label_neq Hnd 4%nat 6%nat
                    | label_neq Hnd 5%nat 0%nat | label_neq Hnd 5%nat 1%nat
                    | label_neq Hnd 5%nat 2%nat | label_neq Hnd 5%nat 3%nat
                    | label_neq Hnd 5%nat 4%nat | label_neq Hnd 5%nat 6%nat
                    | label_neq Hnd 6%nat 0%nat | label_neq Hnd 6%nat 1%nat
                    | label_neq Hnd 6%nat 2%nat | label_neq Hnd 6%nat 3%nat
                    | label_neq Hnd 6%nat 4%nat | label_neq Hnd 6%nat 5%nat ]);
      cbn [andb];
      rewrite ?MIN_spec, ?constrain_spec by lia; apply Z.mod_small; lia.
  - intros HB. unfold motorRateFixed, uint16_t. rewrite HB.
    rewrite constrain_spec by lia. apply Z.mod_small; lia.
Qed.

Lemma validator_motor_rate_band_witness :
  motorPwmRate (config (validateAndFixConfig Samples.sampleTarget Samples.sampleExtern
                          (Samples.sampleState Samples.dshot150Config true))) = 4000.
Proof.
  destruct (validator_motor_rate_band Samples.sampleTarget Samples.sampleExtern
              (Samples.sampleState Samples.dshot150Config true)) as (Hp & _ & H & _).
  - split; cbn; unfold is_uint8, is_uint16; lia.
  - apply (bool_decide_unpack _). vm_compute. reflexivity.
  - destruct (H eq_refl) as (_ & _ & _ & _ & HD).
    destruct (HD eq_refl) as (H150 & _).
    apply H150. rewrite (Hp (or_introl eq_refl)). reflexivity.
Defined.

(** The same sample in the build without [USE_DSHOT], ONESHOT125 stored:
    the protocol is kept and the rate comes out at its ceiling. *)
Example oneshot125_without_dshot_build :
  motorPwmProtocol (config (validateAndFixConfig Samples.sampleTargetNoDshot Samples.sampleExtern
                              (Samples.sampleState
                                 (set_motorPwmProtocol 1 Samples.dshot150Config) true))) = 1
  /\ motorPwmRate (config (validateAndFixConfig Samples.sampleTargetNoDshot Samples.sampleExtern
                             (Samples.sampleState
                                (set_motorPwmProtocol 1 Samples.dshot150Config) true))) = 3900.
Proof. split; vm_compute; reflexivity. Qed.

(** In the [BRUSHED_MOTORS] build the same DSHOT150 selection at 50000
    comes out at 32000: the protocol is not looked at. *)
Example dshot150_in_brushed_motors_build :
  motorPwmProtocol (config (validateAndFixConfig Samples.sampleTargetBrushed Samples.sampleExtern
                              (Samples.sampleState Samples.dshot150Config true))) = 4
  /\ motorPwmRate (config (validateAndFixConfig Samples.sampleTargetBrushed Samples.sampleExtern
                             (Samples.sampleState Samples.dshot150Config true))) = 32000.
Proof. split; vm_compute; reflexivity. Qed.

(** C6, as stated, fails: in a build without [USE_DSHOT] a stored
    DSHOT150 selection at 50000 comes out as MULTISHOT at 16000, not at
    the DSHOT150 ceiling of 4000. *)
Lemma validator_dshot150_without_dshot_build :
  Config.USE_DSHOT Samples.sampleTargetNoDshot = false
  /\ motorPwmProtocol Samples.dshot150Config = PWM_TYPE_DSHOT150 Samples.sampleTargetNoDshot
  /\ motorPwmRate Samples.dshot150Config = 50000
  /\ motorPwmProtocol (config (validateAndFixConfig Samples.sampleTargetNoDshot Samples.sampleExtern
                                 (Samples.sampleState Samples.dshot150Config true)))
     = PWM_TYPE_MULTISHOT Samples.sampleTargetNoDshot
  /\ motorPwmRate (config (validateAndFixConfig Samples.sampleTargetNoDshot Samples.sampleExtern
                             (Samples.sampleState Samples.dshot150Config true))) = 16000
  /\ motorPwmRate (config (validateAndFixConfig Samples.sampleTargetNoDshot Samples.sampleExtern
                             (Samples.sampleState Samples.dshot150Config true))) <> 4000.
Proof. vm_compute. repeat split; intros H; discriminate H. Qed.

(** ** Switching the profile *)

Lemma setConfigProfile_clamps T idx s :
  MAX_PROFILE_COUNT T <= idx ->
  snd (setConfigProfile T idx s) = snd (setConfigProfile T 0 s).
Proof.
  intros H. unfold setConfigProfile. cbn [snd].
  destruct (Z.geb_spec idx (MAX_PROFILE_COUNT T)); [| lia].
  now destruct (0 >=? MAX_PROFILE_COUNT T).
Qed.

Lemma setConfigProfile_index T idx s :
  getConfigProfile (snd (setConfigProfile T idx s))
  = (if idx >=? MAX_PROFILE_COUNT T then 0 else idx)
  /\ pgActiveProfile (snd (setConfigProfile T idx s))
     = (if idx >=? MAX_PROFILE_COUNT T then 0 else idx).
Proof. split; reflexivity. Qed.

(** C1, evaluated where the code departs from it.  With profile 0
    current and at least one profile slot, a request for an index at or
    above [MAX_PROFILE_COUNT] ends in the same state as a request for 0,
    but [setConfigProfile] returns [true] where the request for 0 returns
    [false], and [setConfigProfileAndWriteEEPROM] then runs the save and
    reload that the request for 0 does not run. *)
Theorem setConfigProfile_out_of_range_at_profile_0 T X idx s :
  0 < MAX_PROFILE_COUNT T ->
  MAX_PROFILE_COUNT T <= idx ->
  current_profile_index (config s) = 0 ->
  setConfigProfile T 0 s = (false, snd (setConfigProfile T 0 s))
  /\ setConfigProfile T idx s = (true, snd (setConfigProfile T 0 s))
  /\ setConfigProfileAndWriteEEPROM T X 0 s
     = Some (beeperConfirmationBeeps 1 (snd (setConfigProfile T 0 s)))
  /\ setConfigProfileAndWriteEEPROM T X idx s
     = option_map (beeperConfirmationBeeps (idx + 1))
         (readEEPROM T X (writeEEPROM (snd (setConfigProfile T 0 s)))).
Proof.
  intros Hmax Hidx Hcur.
  assert (E0 : setConfigProfile T 0 s = (false, snd (setConfigProfile T 0 s))).
  { unfold setConfigProfile. rewrite Hcur. reflexivity. }
  assert (E1 : setConfigProfile T idx s = (true, snd (setConfigProfile T 0 s))).
  { rewrite <- (setConfigProfile_clamps T idx s Hidx).
    unfold setConfigProfile. rewrite Hcur. cbn [snd].
    destruct (Z.eqb_spec 0 idx); [lia | reflexivity]. }
  repeat split; try assumption.
  - unfold setConfigProfileAndWriteEEPROM. rewrite E0. reflexivity.
  - unfold setConfigProfileAndWriteEEPROM. rewrite E1.
    now destruct (readEEPROM T X (writeEEPROM (snd (setConfigProfile T 0 s)))).
Qed.

Lemma setConfigProfile_out_of_range_at_profile_0_witness :
  setConfigProfile Samples.sampleTarget 0 (Samples.sampleState Samples.sampleConfig true)
  = (false, snd (setConfigProfile Samples.sampleTarget 0 (Samples.sampleState Samples.sampleConfig true)))
  /\ setConfigProfile Samples.sampleTarget 3 (Samples.sampleState Samples.sampleConfig true)
     = (true, snd (setConfigProfile Samples.sampleTarget 0 (Samples.sampleState Samples.sampleConfig true)))
  /\ setConfigProfileAndWriteEEPROM Samples.sampleTarget Samples.sampleExtern 0
       (Samples.sampleState Samples.sampleConfig true)
     = Some (beeperConfirmationBeeps 1
               (snd (setConfigProfile Samples.sampleTarget 0 (Samples.sampleState Samples.sampleConfig true))))
  /\ setConfigProfileAndWriteEEPROM Samples.sampleTarget Samples.sampleExtern 3
       (Samples.sampleState Samples.sampleConfig true)
     = option_map (beeperConfirmationBeeps (3 + 1))
         (readEEPROM Samples.sampleTarget Samples.sampleExtern
            (writeEEPROM (snd (setConfigProfile Samples.sampleTarget 0
                                 (Samples.sampleState Samples.sampleConfig true))))).
Proof.
  apply (setConfigProfile_out_of_range_at_profile_0 Samples.sampleTarget Samples.sampleExtern 3
           (Samples.sampleState Samples.sampleConfig true)).
  - cbn. lia.
  - cbn. lia.
  - reflexivity.
Defined.

(** The same request, run: the EEPROM is written and read back for index
    3 and left alone for index 0. *)
Example switch_to_3_from_0_accesses_eeprom :
  option_map eepromAccesses
    (setConfigProfileAndWriteEEPROM Samples.sampleTarget Samples.sampleExtern 3
       (Samples.sampleState Samples.sampleConfig true))
  = Some [EvLoadEEPROM; EvWriteConfigToEEPROM]
  /\ option_map eepromAccesses
       (setConfigProfileAndWriteEEPROM Samples.sampleTarget Samples.sampleExtern 0
          (Samples.sampleState Samples.sampleConfig true))
     = Some [].
Proof. split; vm_compute; reflexivity. Qed.

(** ** Reset to defaults *)

Lemma createDefaultConfig_profile_index T X c :
  current_profile_index (createDefaultConfig T X c) = current_profile_index c.
Proof.
  unfold createDefaultConfig, targetConfiguration.
  now destruct (BLACKBOX_ON_SPIFLASH_BY_DEFAULT T).
Qed.

Lemma createDefaultConfig_battery_index T X c :
  current_battery_profile_index (createDefaultConfig T X c) = current_battery_profile_index c.
Proof.
  unfold createDefaultConfig, targetConfiguration.
  now destruct (BLACKBOX_ON_SPIFLASH_BY_DEFAULT T).
Qed.

Lemma createDefaultConfig_pgProfiles T X c :
  pgProfiles (createDefaultConfig T X c) = pgProfiles c.
Proof.
  unfold createDefaultConfig, targetConfiguration.
  now destruct (BLACKBOX_ON_SPIFLASH_BY_DEFAULT T).
Qed.

Lemma set_current_profile_index_same c :
  set_current_profile_index (current_profile_index c) c = c.
Proof. now destruct c. Qed.

Lemma set_current_battery_profile_index_same c :
  set_current_battery_profile_index (current_battery_profile_index c) c = c.
Proof. now destruct c. Qed.

Lemma factoryDefaults_profile_index T X :
  current_profile_index (factoryDefaults T X) = 0.
Proof. unfold factoryDefaults. now rewrite createDefaultConfig_profile_index. Qed.

Lemma factoryDefaults_battery_index T X :
  current_battery_profile_index (factoryDefaults T X) = 0.
Proof. unfold factoryDefaults. now rewrite createDefaultConfig_battery_index. Qed.

Lemma resetConfigs_state T X s :
  config (resetConfigs T X s) = factoryDefaults T X
  /\ pgActiveProfile (resetConfigs T X s) = 0
  /\ controlRateProfile (resetConfigs T X s) = 0
  /\ eeprom (resetConfigs T X s) = eeprom s.
Proof.
  unfold resetConfigs, setConfigProfile, getConfigProfile, with_config,
    pgActivateProfile, setControlRateProfile, emit.
  cbn [config snd pgActiveProfile controlRateProfile batteryProfile armingFlags eeprom events].
  fold (factoryDefaults T X). rewrite factoryDefaults_profile_index.
  assert (E : set_current_profile_index 0 (factoryDefaults T X) = factoryDefaults T X).
  { rewrite <- (factoryDefaults_profile_index T X) at 1.
    apply set_current_profile_index_same. }
  destruct (0 >=? MAX_PROFILE_COUNT T), (Config.USE_LED_STRIP T);
    cbn [config snd pgActiveProfile controlRateProfile batteryProfile armingFlags eeprom events];
    rewrite E; repeat split.
Qed.

(** What [resetConfigs] leaves in the groups, field by field: the reset
    templates, the two features that [createDefaultConfig] sets and the
    channel map that it parses. *)
Lemma factoryDefaults_fields T X :
  factoryDefaults T X
  = {| acc_notch_hz := acc_notch_hz (resetTemplates T);
       acc_notch_cutoff := acc_notch_cutoff (resetTemplates T);
       enabledFeatures :=
         Z.lor (if BLACKBOX_ON_SPIFLASH_BY_DEFAULT T
                then Z.lor (Z.lor (DEFAULT_FEATURES T) (COMMON_DEFAULT_FEATURES T))
                       (Config.FEATURE_BLACKBOX T)
                else Z.lor (DEFAULT_FEATURES T) (COMMON_DEFAULT_FEATURES T))
           (Config.FEATURE_AIRMODE T);
       servo_protocol := servo_protocol (resetTemplates T);
       serialConfig := serialConfig (resetTemplates T);
       land_slowdown_minalt := land_slowdown_minalt (resetTemplates T);
       land_slowdown_maxalt := land_slowdown_maxalt (resetTemplates T);
       motorPwmProtocol := motorPwmProtocol (resetTemplates T);
       motorPwmRate := motorPwmRate (resetTemplates T);
       mag_align := mag_align (resetTemplates T);
       current_profile_index := 0;
       current_battery_profile_index := 0;
       rcmap := parseRcChannels X
                  (if RX_CHANNELS_TAER T then "TAER1234" else "AETR1234")%string;
       pgProfiles := replicate (Z.to_nat (MAX_PROFILE_COUNT T)) (profileSlotTemplate T);
       pgOther := pgOther (resetTemplates T) |}.
Proof.
  unfold factoryDefaults, createDefaultConfig, targetConfiguration, featureSet,
    set_enabledFeatures, set_rcmap, pgResetAll.
  destruct (BLACKBOX_ON_SPIFLASH_BY_DEFAULT T); reflexivity.
Qed.

Lemma resetConfigs_log T X s :
  events (resetConfigs T X s)
  = (if Config.USE_LED_STRIP T then [EvReevaluateLedConfig] else []) ++ events s.
Proof. unfold resetConfigs. destruct (Config.USE_LED_STRIP T); reflexivity. Qed.

(** C7.  An image that passes the integrity check is left alone together
    with everything else.  For one that fails, nothing of the groups
    survives: every group is at its reset template and every profile
    slot at the slot template, both profile indices are 0, and on top of
    that the defaults are created, which is the channel map parsed from
    ["AETR1234"] (["TAER1234"] with [RX_CHANNELS_TAER]) and the features
    AIRMODE and, where logging to SPI flash is on by default, BLACKBOX,
    added to the default feature word.  One write, made with the RX
    signal suspended, stores a valid image of exactly these groups;
    profile 0 is the current and the activated profile, and the
    [readEEPROM] of the boot sequence that follows keeps profile 0
    active (it only fails to return when the store cannot be read). *)
Theorem ensureEEPROMContainsValidData_resets_invalid_image T X s :
  if isEEPROMContentValid s
  then ensureEEPROMContainsValidData T X s = s
  else config (ensureEEPROMContainsValidData T X s)
         = {| acc_notch_hz := acc_notch_hz (resetTemplates T);
              acc_notch_cutoff := acc_notch_cutoff (resetTemplates T);
              enabledFeatures :=
                Z.lor (if BLACKBOX_ON_SPIFLASH_BY_DEFAULT T
                       then Z.lor (Z.lor (DEFAULT_FEATURES T) (COMMON_DEFAULT_FEATURES T))
                              (Config.FEATURE_BLACKBOX T)
                       else Z.lor (DEFAULT_FEATURES T) (COMMON_DEFAULT_FEATURES T))
                  (Config.FEATURE_AIRMODE T);
              servo_protocol := servo_protocol (resetTemplates T);
              serialConfig := serialConfig (resetTemplates T);
              land_slowdown_minalt := land_slowdown_minalt (resetTemplates T);
              land_slowdown_maxalt := land_slowdown_maxalt (resetTemplates T);
              motorPwmProtocol := motorPwmProtocol (resetTemplates T);
              motorPwmRate := motorPwmRate (resetTemplates T);
              mag_align := mag_align (resetTemplates T);
              current_profile_index := 0;
              current_battery_profile_index := 0;
              rcmap := parseRcChannels X
                         (if RX_CHANNELS_TAER T then "TAER1234" else "AETR1234")%string;
              pgProfiles :=
                replicate (Z.to_nat (MAX_PROFILE_COUNT T)) (profileSlotTemplate T);
              pgOther := pgOther (resetTemplates T) |}
       /\ eeprom (ensureEEPROMContainsValidData T X s)
          = {| img_readable := img_readable (eeprom s);
               img_valid := true;
               img_config := config (ensureEEPROMContainsValidData T X s) |}
       /\ isEEPROMContentValid (ensureEEPROMContainsValidData T X s) = true
       /\ events (ensureEEPROMContainsValidData T X s)
          = [EvResumeRx; EvWriteConfigToEEPROM; EvSuspendRx]
            ++ (if Config.USE_LED_STRIP T then [EvReevaluateLedConfig] else [])
            ++ events s
       /\ getConfigProfile (ensureEEPROMContainsValidData T X s) = 0
       /\ pgActiveProfile (ensureEEPROMContainsValidData T X s) = 0
       /\ controlRateProfile (ensureEEPROMContainsValidData T X s) = 0
       /\ match readEEPROM T X (ensureEEPROMContainsValidData T X s) with
          | Some booted => getConfigProfile booted = 0 /\ pgActiveProfile booted = 0
          | None => img_readable (eeprom s) = false
          end.
Proof.
  unfold ensureEEPROMContainsValidData.
  destruct (isEEPROMContentValid s) eqn:Ev; [reflexivity |].
  destruct (resetConfigs_state T X s) as (Hc & Hp & Hr & He).
  pose proof (resetConfigs_log T X s) as Hlog.
  unfold resetEEPROM, writeEEPROM, writeConfigToEEPROM, emit, set_eeprom, isEEPROMContentValid.
  cbn [config pgActiveProfile controlRateProfile batteryProfile armingFlags eeprom events
       img_readable img_valid img_config].
  rewrite Hc, Hp, Hr, He, Hlog.
  split; [apply factoryDefaults_fields |].
  split; [reflexivity |]. split; [reflexivity |]. split; [reflexivity |].
  split; [apply factoryDefaults_profile_index |].
  split; [reflexivity |]. split; [reflexivity |].
  unfold readEEPROM, loadEEPROM, emit, with_config.
  cbn [config pgActiveProfile controlRateProfile batteryProfile armingFlags eeprom events
       img_readable img_valid img_config].
  destruct (img_readable (eeprom s)); [| reflexivity].
  unfold activateConfig, emit.
  cbn [config pgActiveProfile controlRateProfile batteryProfile armingFlags eeprom events].
  rewrite validateAndFixConfig_config, validateAndFixConfig_pgActiveProfile.
  unfold getConfigProfile at 1. cbn [config].
  rewrite validateAndFixGroups_profile_index.
  unfold setConfigBatteryProfile, setConfigProfile, getConfigBatteryProfile, getConfigProfile,
    with_config, pgActivateProfile, setControlRateProfile, setBatteryProfile.
  cbn [config snd pgActiveProfile controlRateProfile batteryProfile armingFlags eeprom events].
  rewrite factoryDefaults_profile_index.
  destruct (0 >=? MAX_PROFILE_COUNT T); cbn; split; reflexivity.
Qed.

Lemma ensureEEPROMContainsValidData_witness :
  getConfigProfile (ensureEEPROMContainsValidData Samples.sampleTarget Samples.sampleExtern
                      (Samples.sampleState Samples.lowMaxaltConfig false)) = 0
  /\ isEEPROMContentValid (ensureEEPROMContainsValidData Samples.sampleTarget Samples.sampleExtern
                             (Samples.sampleState Samples.lowMaxaltConfig false)) = true.
Proof.
  pose proof (ensureEEPROMContainsValidData_resets_invalid_image Samples.sampleTarget
                Samples.sampleExtern (Samples.sampleState Samples.lowMaxaltConfig false)) as H.
  change (isEEPROMContentValid (Samples.sampleState Samples.lowMaxaltConfig false))
    with false in H.
  cbv iota in H.
  destruct H as (_ & _ & Hv & _ & Hp & _). split; assumption.
Defined.

(** The reset at the sample: the stored thresholds (10 and 50) are gone,
    AIRMODE is enabled and the channel map is the one parsed from
    ["AETR1234"]. *)
Example ensureEEPROMContainsValidData_sample :
  config (ensureEEPROMContainsValidData Samples.sampleTarget Samples.sampleExtern
            (Samples.sampleState Samples.lowMaxaltConfig false))
  = {| acc_notch_hz := 0; acc_notch_cutoff := 1;
       enabledFeatures := 4194304;
       servo_protocol := 0; serialConfig := [];
       land_slowdown_minalt := 500; land_slowdown_maxalt := 2000;
       motorPwmProtocol := 0; motorPwmRate := 400;
       mag_align := 0; current_profile_index := 0;
       current_battery_profile_index := 0;
       rcmap := [65; 69; 84; 82; 49; 50; 51; 52];
       pgProfiles := [[]; []; []]; pgOther := [] |}.
Proof. vm_compute. reflexivity. Qed.

End ConfigTheory.

(* ================================================================== *)
(** * Properties of fc_msp_box.c *)
(* ================================================================== *)

Module MspBoxTheory.

Import MspBox MspBoxAux.

Lemma boxOrdinal_inj a b : boxOrdinal a = boxOrdinal b -> a = b.
Proof. destruct a; destruct b; intros H; solve [reflexivity | discriminate H]. Qed.

Lemma boxId_eqb_eq a b : boxId_eqb a b = true <-> a = b.
Proof.
  unfold boxId_eqb. rewrite Z.eqb_eq. split; [apply boxOrdinal_inj | now intros ->].
Qed.

Lemma boxId_eqb_refl a : boxId_eqb a a = true.
Proof. now apply boxId_eqb_eq. Qed.

Lemma boxOrdinal_range b : 0 <= boxOrdinal b < CHECKBOX_ITEM_COUNT.
Proof. unfold CHECKBOX_ITEM_COUNT. destruct b; cbn; lia. Qed.

Lemma boxRowOf_row U1 U2 b :
  boxRowOf U1 U2 b = Some (b, boxNameOf b, boxPermanentIdOf U1 U2 b).
Proof. destruct b; reflexivity. Qed.

Lemma chars_length s : Z.of_nat (length (chars s)) = strlen s.
Proof.
  unfold chars, strlen. rewrite length_map. f_equal.
  induction s as [| c s IH]; cbn; [reflexivity | now rewrite IH].
Qed.

(** ** The shape of [initActiveBoxIds] *)

Lemma added_sublist p : added p `sublist_of` mentioned p.
Proof.
  induction p as [b | p IHp q IHq | c p IH]; cbn.
  - reflexivity.
  - now apply sublist_app.
  - destruct c; [assumption | apply sublist_nil_l].
Qed.

Lemma guards_spec b p : b ∈ added p <-> guardsHold (guards b p) = true.
Proof.
  unfold guardsHold.
  induction p as [b' | p IHp q IHq | c p IH]; cbn [added guards].
  - destruct (boxId_eqb b' b) eqn:E; cbn.
    + apply boxId_eqb_eq in E as ->. split; [reflexivity | intros _; apply list_elem_of_here].
    + split; [| discriminate]. intros H%list_elem_of_singleton. subst b'.
      now rewrite boxId_eqb_refl in E.
  - rewrite elem_of_app, existsb_app, orb_true_iff. now rewrite IHp, IHq.
  - destruct c.
    + rewrite IH. clear IH. induction (guards b p) as [| g gs IHg]; cbn; [reflexivity |].
      rewrite !orb_true_iff. now rewrite IHg.
    + split; [intros H%elem_of_nil; contradiction |].
      intros H. exfalso. clear IH. induction (guards b p) as [| g gs IHg]; cbn in H;
        [discriminate | auto].
Qed.

Lemma mentioned_initAdditions C : mentioned (initAdditions C) = initOrder.
Proof. reflexivity. Qed.

Lemma initOrder_NoDup : NoDup initOrder.
Proof.
  apply (NoDup_fmap_1 boxOrdinal). apply (bool_decide_unpack _). vm_compute. reflexivity.
Qed.

Lemma initOrder_length : length initOrder = Z.to_nat CHECKBOX_ITEM_COUNT.
Proof. reflexivity. Qed.

Lemma added_initAdditions_NoDup C : NoDup (added (initAdditions C)).
Proof.
  apply (sublist_NoDup _ (mentioned (initAdditions C))); [| apply added_sublist].
  rewrite mentioned_initAdditions. apply initOrder_NoDup.
Qed.

Lemma added_initAdditions_length C :
  Z.of_nat (length (added (initAdditions C))) <= CHECKBOX_ITEM_COUNT.
Proof.
  pose proof (sublist_length _ _ (added_sublist (initAdditions C))) as H.
  rewrite mentioned_initAdditions, initOrder_length in H.
  unfold CHECKBOX_ITEM_COUNT in *. lia.
Qed.

(** ** Bit arrays *)

Lemma bitArrayGet_empty j : bitArrayGet emptyBitmask j = false.
Proof.
  unfold bitArrayGet, emptyBitmask. rewrite nth_lookup.
  destruct (replicate _ 0 !! Z.to_nat (j / 32)) as [w |] eqn:E; cbn.
  - apply lookup_replicate in E as [-> _]. apply Z.testbit_0_l.
  - apply Z.testbit_0_l.
Qed.

Lemma bitArrayGet_set bits i j :
  0 <= i < 32 * Z.of_nat (length bits) -> 0 <= j ->
  bitArrayGet (bitArraySet bits i) j = (i =? j) || bitArrayGet bits j.
Proof.
  intros Hi Hj. unfold bitArrayGet, bitArraySet.
  assert (Hw : (Z.to_nat (i / 32) < length bits)%nat).
  { apply Nat2Z.inj_lt. rewrite Z2Nat.id by (apply Z.div_pos; lia).
    apply Z.div_lt_upper_bound; lia. }
  rewrite !nth_lookup.
  destruct (decide (Z.to_nat (i / 32) = Z.to_nat (j / 32))) as [E | E].
  - rewrite <- E, list_lookup_insert_eq by assumption. cbn [default from_option id].
    rewrite Z.lor_spec, Z.shiftl_1_l, orb_comm.
    rewrite Z.pow2_bits_eqb by (apply Z.mod_pos_bound; lia).
    f_equal.
    assert (Ed : i / 32 = j / 32).
    { apply Z2Nat.inj; [apply Z.div_pos; lia | apply Z.div_pos; lia | assumption]. }
    pose proof (Z.div_mod i 32 ltac:(lia)). pose proof (Z.div_mod j 32 ltac:(lia)).
    destruct (Z.eqb_spec (i mod 32) (j mod 32)), (Z.eqb_spec i j); try reflexivity; lia.
  - rewrite list_lookup_insert_ne by assumption.
    destruct (Z.eqb_spec i j); [subst; contradiction | reflexivity].
Qed.

Section Numbering.

(** Any numbering of [boxId_e] by distinct values below
    [CHECKBOX_ITEM_COUNT], any value of the two permanent-id macros. *)
Variable boxval : boxId_e -> Z.
Variables U1 U2 : Z.
Hypothesis boxval_inj : forall a b, boxval a = boxval b -> a = b.
Hypothesis boxval_range : forall b, 0 <= boxval b < CHECKBOX_ITEM_COUNT.

Lemma boxval_eqb a b : (boxval a =? boxval b) = boxId_eqb a b.
Proof using boxval_inj.
  destruct (boxId_eqb a b) eqn:E.
  - apply boxId_eqb_eq in E as ->. apply Z.eqb_refl.
  - apply Z.eqb_neq. intros H. apply boxval_inj in H as ->.
    now rewrite boxId_eqb_refl in E.
Qed.

(** ** The lookups *)



Lemma scanBoxes_rows b rows rest :
  scanBoxes (fun candidate => boxId candidate =? boxval b)
    (List.map (boxOfRow boxval) rows ++ rest)
  = match List.find (fun r => boxId_eqb (fst (fst r)) b) rows with
    | Some r => Some (boxOfRow boxval r)
    | None => scanBoxes (fun candidate => boxId candidate =? boxval b) rest
    end.
Proof using boxval_inj.
  induction rows as [| [[b' name] pid] rows IH]; cbn; [reflexivity |].
  rewrite boxval_eqb. now destruct (boxId_eqb b' b).
Qed.

Lemma findBoxByActiveBoxId_member b :
  findBoxByActiveBoxId boxval U1 U2 (boxval b) = Some (boxDescriptor boxval U1 U2 b).
Proof using boxval_inj.
  unfold findBoxByActiveBoxId, boxes. rewrite scanBoxes_rows.
  fold (boxRowOf U1 U2 b). now rewrite boxRowOf_row.
Qed.




(** ** The name list *)

Lemma replyLength_members l acc :
  replyLength boxval U1 U2 (List.map boxval l) acc
  = Some (acc + Z.of_nat (length (boxNamesPayload l))).
Proof using boxval_inj.
  revert acc. induction l as [| b l IH]; intros acc; cbn [List.map replyLength].
  - cbn. f_equal. lia.
  - rewrite findBoxByActiveBoxId_member. cbn [boxName boxDescriptor].
    rewrite IH. f_equal. unfold boxNamesPayload. cbn [List.map concat].
    rewrite !length_app, <- chars_length. unfold BOX_SUFFIX_LEN. cbn [length]. lia.
Qed.

Lemma writeBoxNames_members l dst :
  writeBoxNames boxval U1 U2 (List.map boxval l) dst
  = Some {| sbuf_written := sbuf_written dst ++ boxNamesPayload l;
            sbuf_remaining := sbuf_remaining dst - Z.of_nat (length (boxNamesPayload l)) |}.
Proof using boxval_inj.
  revert dst. induction l as [| b l IH]; intros dst; cbn [List.map writeBoxNames].
  - cbn. rewrite app_nil_r, Z.sub_0_r. now destruct dst.
  - rewrite findBoxByActiveBoxId_member. cbn [boxName boxDescriptor].
    rewrite IH. unfold sbufWriteU8, sbufWriteData.
    cbn [sbuf_written sbuf_remaining].
    rewrite take_ge by (pose proof (chars_length (boxNameOf b)); lia).
    unfold boxNamesPayload. cbn [List.map concat].
    rewrite !length_app, <- chars_length, <- !app_assoc. cbn [length].
    do 2 f_equal. lia.
Qed.

(** C3.  For an active-box list [l] and a destination [dst]: if fewer
    bytes remain in [dst] than the full name list takes (each name
    followed by [';']), [serializeBoxNamesReply] returns [false] and
    leaves [dst] as it was; otherwise it returns [true] and has
    appended exactly the full name list, in list order.  Nothing in
    between is ever written. *)
Theorem serializeBoxNamesReply_all_or_nothing l st dst :
  activeList st = List.map boxval l ->
  serializeBoxNamesReply boxval U1 U2 st dst
  = Some (if sbufBytesRemaining dst <? Z.of_nat (length (boxNamesPayload l))
          then (false, dst)
          else (true,
                {| sbuf_written := sbuf_written dst ++ boxNamesPayload l;
                   sbuf_remaining :=
                     sbuf_remaining dst - Z.of_nat (length (boxNamesPayload l)) |})).
Proof using boxval_inj.
  intros Hl. unfold serializeBoxNamesReply. rewrite Hl, replyLength_members.
  rewrite Z.add_0_l.
  destruct (sbufBytesRemaining dst <? Z.of_nat (length (boxNamesPayload l)));
    [reflexivity |].
  now rewrite writeBoxNames_members.
Qed.

(** ** The id list *)

Lemma writeBoxIds_members l dst :
  writeBoxIds boxval U1 U2 (List.map boxval l) dst
  = {| sbuf_written := sbuf_written dst ++ boxIdsPayload U1 U2 l;
       sbuf_remaining := sbuf_remaining dst - Z.of_nat (length l) |}.
Proof using boxval_inj.
  revert dst. induction l as [| b l IH]; intros dst; cbn [List.map writeBoxIds].
  - cbn. rewrite app_nil_r, Z.sub_0_r. now destruct dst.
  - rewrite findBoxByActiveBoxId_member, IH. unfold sbufWriteU8.
    cbn [sbuf_written sbuf_remaining permanentId boxDescriptor boxIdsPayload List.map].
    rewrite <- app_assoc. cbn [app length]. f_equal. lia.
Qed.

(** [serializeBoxReply] writes one permanent-id byte per active box, in
    list order. *)
Lemma serializeBoxReply_members l st dst :
  activeList st = List.map boxval l ->
  serializeBoxReply boxval U1 U2 st dst
  = {| sbuf_written := sbuf_written dst ++ boxIdsPayload U1 U2 l;
       sbuf_remaining := sbuf_remaining dst - Z.of_nat (length l) |}
  /\ length (boxIdsPayload U1 U2 l) = length (activeList st).
Proof using boxval_inj.
  intros Hl. unfold serializeBoxReply. rewrite Hl, writeBoxIds_members.
  split; [reflexivity |]. unfold boxIdsPayload. now rewrite !length_map.
Qed.

(** ** initActiveBoxIds *)

Lemma run_added p st :
  length (activeBoxIds st) = Z.to_nat CHECKBOX_ITEM_COUNT ->
  0 <= activeBoxIdCount st ->
  activeBoxIdCount st + Z.of_nat (length (added p)) <= CHECKBOX_ITEM_COUNT ->
  exists st',
    run boxval p st = Some st'
    /\ length (activeBoxIds st') = Z.to_nat CHECKBOX_ITEM_COUNT
    /\ activeBoxIdCount st' = activeBoxIdCount st + Z.of_nat (length (added p))
    /\ activeList st' = activeList st ++ List.map boxval (added p).
Proof using Type.
  revert st. induction p as [b | p IHp q IHq | c p IH]; intros st Hlen Hlo Hhi.
  - cbn [run added length List.map] in Hhi |- *. unfold ADD_ACTIVE_BOX.
    destruct st as [arr n]. cbn [activeBoxIds activeBoxIdCount] in Hlen, Hlo, Hhi |- *.
    unfold CHECKBOX_ITEM_COUNT in Hlen, Hhi |- *.
    destruct (Z.leb_spec 0 n); [| lia]. destruct (Z.ltb_spec n 48); [| lia].
    cbn [andb]. eexists. split; [reflexivity |].
    unfold activeList. cbn [activeBoxIds activeBoxIdCount].
    assert (Eu : uint8_t (n + 1) = n + 1) by (unfold uint8_t; apply Z.mod_small; lia).
    rewrite Eu, length_insert.
    split; [assumption | split; [lia |]].
    replace (Z.to_nat (n + 1)) with (S (Z.to_nat n)) by lia.
    rewrite (take_S_r _ _ (boxval b)) by (apply list_lookup_insert_eq; lia).
    now rewrite take_insert_ge by lia.
  - cbn [run added] in Hhi |- *. rewrite length_app, Nat2Z.inj_add in Hhi.
    destruct (IHp st Hlen Hlo ltac:(lia)) as (st1 & E1 & Hlen1 & Hn1 & Hl1).
    destruct (IHq st1 Hlen1 ltac:(lia) ltac:(lia)) as (st2 & E2 & Hlen2 & Hn2 & Hl2).
    exists st2. unfold seq. rewrite E1, E2.
    rewrite length_app, Nat2Z.inj_add, map_app, app_assoc, <- Hl1, <- Hl2.
    repeat split; [assumption | lia].
  - cbn [run added] in Hhi |- *. destruct c; cbn [when].
    + now apply IH.
    + exists st. cbn. rewrite app_nil_r, Z.add_0_r. repeat split; assumption.
Qed.

Lemma initActiveBoxIds_result C st :
  exists st',
    initActiveBoxIds boxval C st = Some st'
    /\ length (activeBoxIds st') = Z.to_nat CHECKBOX_ITEM_COUNT
    /\ activeBoxIdCount st' = Z.of_nat (length (added (initAdditions C)))
    /\ activeList st' = List.map boxval (added (initAdditions C)).
Proof using Type.
  change (initActiveBoxIds boxval C)
    with (seq memsetActiveBoxIds (seq RESET_BOX_ID_COUNT (run boxval (initAdditions C)))).
  unfold seq at 1 2. cbn [memsetActiveBoxIds RESET_BOX_ID_COUNT activeBoxIds activeBoxIdCount].
  pose proof (added_initAdditions_length C) as Hl.
  destruct (run_added (initAdditions C)
              {| activeBoxIds := replicate (Z.to_nat CHECKBOX_ITEM_COUNT) 255;
                 activeBoxIdCount := 0 |})
    as (st' & E & Hlen & Hn & Hact).
  - cbn [activeBoxIds]. apply length_replicate.
  - cbn. lia.
  - cbn [activeBoxIdCount]. lia.
  - exists st'. cbn [activeBoxIdCount] in Hn. unfold activeList at 2 in Hact.
    cbn [activeBoxIdCount] in Hact. rewrite take_0 in Hact. cbn [app] in Hact.
    rewrite Z.add_0_l in Hn. repeat split; assumption.
Qed.

Lemma boxval_member b l : boxval b ∈ List.map boxval l <-> b ∈ l.
Proof using boxval_inj.
  rewrite !list_elem_of_In, in_map_iff. split.
  - intros (b' & E & Hb'). now apply boxval_inj in E as ->.
  - intros H. now exists b.
Qed.

(** C9.  In every context (sensors, features, state flags, build
    switches) and from every prior state, [initActiveBoxIds] runs
    without a write outside [activeBoxIds], the filled part of the array
    holds no id twice, and [activeBoxIdCount] is its length and at most
    [CHECKBOX_ITEM_COUNT]. *)
Theorem initActiveBoxIds_adds_each_box_once C st :
  exists st',
    initActiveBoxIds boxval C st = Some st'
    /\ NoDup (activeList st')
    /\ Z.of_nat (length (activeList st')) = activeBoxIdCount st'
    /\ 0 <= activeBoxIdCount st' <= CHECKBOX_ITEM_COUNT
    /\ length (activeBoxIds st') = Z.to_nat CHECKBOX_ITEM_COUNT.
Proof using boxval_inj.
  destruct (initActiveBoxIds_result C st) as (st' & E & Hlen & Hn & Hact).
  exists st'. rewrite Hact, Hn, length_map.
  pose proof (added_initAdditions_length C).
  repeat split; try assumption; try lia.
  apply (NoDup_fmap_2_strong boxval).
  - intros a b _ _. apply boxval_inj.
  - apply added_initAdditions_NoDup.
Qed.

Lemma initActiveBoxIds_member C st st' b :
  initActiveBoxIds boxval C st = Some st' ->
  boxval b ∈ activeList st' <-> guardsHold (guards b (initAdditions C)) = true.
Proof using boxval_inj.
  intros E. destruct (initActiveBoxIds_result C st) as (st'' & E' & _ & _ & Hact).
  rewrite E in E'. injection E' as <-.
  now rewrite Hact, boxval_member, guards_spec.
Qed.

(** C8, as the code has it.  On a multirotor without any sensor the
    active-box list holds BOXARM, BOXPREARM, BOXHEADINGHOLD, BOXCAMSTAB,
    BOXBEEPERON, BOXOSD, BOXKILLSWITCH and BOXFAILSAFE, and none of
    BOXNAVPOSHOLD, BOXNAVRTH, BOXNAVWP, BOXNAVCRUISE, BOXNAVCOURSEHOLD,
    BOXNAVLAUNCH, BOXHOMERESET, BOXGCSNAV, BOXPLANWPMISSION,
    BOXLOITERDIRCHN, BOXSURFACE, BOXSOARING.  BOXNAVALTHOLD is in the
    list exactly when the build has [USE_GPS], the vehicle is under
    altitude control, the GPS feature is enabled and [use_gps_no_baro]
    is set. *)
Theorem initActiveBoxIds_multirotor_without_sensors C st :
  noSensors C -> multirotorVehicle C ->
  exists st',
    initActiveBoxIds boxval C st = Some st'
    /\ Forall (fun b => boxval b ∈ activeList st') alwaysOffered
    /\ Forall (fun b => boxval b ∉ activeList st') positionBoxes
    /\ (boxval BOXNAVALTHOLD ∈ activeList st'
        <-> USE_GPS (build C) = true /\ STATE C ALTITUDE_CONTROL = true
            /\ feature C FEATURE_GPS = true /\ use_gps_no_baro C = true).
Proof using boxval_inj.
  intros Hs (Hm & Ha & Hr & Hb). unfold noSensors in Hs.
  destruct (initActiveBoxIds_result C st) as (st' & E & _).
  exists st'. split; [exact E |].
  split; [| split].
  - unfold alwaysOffered.
    repeat (apply Forall_cons; split;
            [apply (initActiveBoxIds_member C st st' _ E); reflexivity |]).
    apply Forall_nil_2.
  - unfold positionBoxes.
    repeat (apply Forall_cons; split;
            [rewrite (initActiveBoxIds_member C st st' _ E);
             unfold guardsHold, initAdditions; cbn; rewrite ?Hs, ?Hm, ?Ha;
             destruct (USE_GPS (build C)), (STATE C ALTITUDE_CONTROL),
               (feature C FEATURE_GPS), (use_gps_no_baro C),
               (feature C FEATURE_FW_LAUNCH); discriminate |]).
    apply Forall_nil_2.
  - rewrite (initActiveBoxIds_member C st st' _ E).
    unfold guardsHold, initAdditions. cbn. rewrite ?Hs, ?Ha.
    destruct (USE_GPS (build C)), (STATE C ALTITUDE_CONTROL),
      (feature C FEATURE_GPS), (use_gps_no_baro C); cbn;
      split; solve [ discriminate | reflexivity | intros (? & ? & ? & ?); discriminate
                   | intros _; repeat split ].
Qed.

(** ** packBoxModeFlags *)

Lemma CHECK_ACTIVE_BOX_lookup activeBoxes line b :
  length activeBoxes = Z.to_nat CHECKBOX_ITEM_COUNT ->
  CHECK_ACTIVE_BOX boxval activeBoxes line !! Z.to_nat (boxval b)
  = if boxId_eqb (snd line) b && fst line then Some 1
    else activeBoxes !! Z.to_nat (boxval b).
Proof using boxval_inj boxval_range.
  intros Hlen. unfold CHECK_ACTIVE_BOX. destruct line as [c b']. cbn [fst snd].
  destruct c; [| now rewrite andb_false_r]. rewrite andb_true_r.
  destruct (boxId_eqb b' b) eqn:E.
  - apply boxId_eqb_eq in E as ->. apply list_lookup_insert_eq.
    pose proof (boxval_range b). lia.
  - apply list_lookup_insert_ne. intros H.
    apply Z2Nat.inj in H; [| apply boxval_range | apply boxval_range].
    apply boxval_inj in H as ->. now rewrite boxId_eqb_refl in E.
Qed.

Lemma CHECK_ACTIVE_BOX_length activeBoxes line :
  length (CHECK_ACTIVE_BOX boxval activeBoxes line) = length activeBoxes.
Proof using Type.
  unfold CHECK_ACTIVE_BOX. destruct (fst line); [apply length_insert | reflexivity].
Qed.

Lemma fold_CHECK_ACTIVE_BOX_lookup lines activeBoxes b :
  length activeBoxes = Z.to_nat CHECKBOX_ITEM_COUNT ->
  fold_left (CHECK_ACTIVE_BOX boxval) lines activeBoxes !! Z.to_nat (boxval b)
  = if boxChecked lines b then Some 1 else activeBoxes !! Z.to_nat (boxval b).
Proof using boxval_inj boxval_range.
  revert activeBoxes. induction lines as [| line lines IH]; intros activeBoxes Hlen;
    cbn [fold_left boxChecked existsb]; [reflexivity |].
  rewrite IH by now rewrite CHECK_ACTIVE_BOX_length.
  fold (boxChecked lines b). rewrite CHECK_ACTIVE_BOX_lookup by assumption.
  destruct (boxId_eqb (snd line) b && fst line); cbn [orb]; [| reflexivity].
  now destruct (boxChecked lines b).
Qed.

Lemma checkActiveBoxes_lookup B R b :
  checkActiveBoxes boxval B R !! Z.to_nat (boxval b)
  = Some (if boxChecked (checkedBoxes B R) b then 1 else 0).
Proof using boxval_inj boxval_range.
  unfold checkActiveBoxes. rewrite fold_CHECK_ACTIVE_BOX_lookup by apply length_replicate.
  destruct (boxChecked (checkedBoxes B R) b); [reflexivity |].
  apply lookup_replicate_2. pose proof (boxval_range b). lia.
Qed.

Lemma packLoop_members activeBoxes (flagged : boxId_e -> bool) l :
  (forall b, activeBoxes !! Z.to_nat (boxval b) = Some (if flagged b then 1 else 0)) ->
  forall i bits,
    0 <= i -> i + Z.of_nat (length l) <= 32 * Z.of_nat (length bits) ->
    exists bits',
      packLoop activeBoxes (List.map boxval l) i bits = Some bits'
      /\ length bits' = length bits
      /\ forall j, 0 <= j ->
           bitArrayGet bits' j
           = match l !! Z.to_nat (j - i) with
             | Some b => (i <=? j) && flagged b
             | None => false
             end || bitArrayGet bits j.
Proof using Type.
  intros Harr. induction l as [| b l IH]; intros i bits Hi Hlen.
  - exists bits. cbn. repeat split; try reflexivity.
  - cbn [List.map packLoop length] in Hlen |- *. rewrite Harr.
    set (bits1 := if (if flagged b then 1 else 0) =? 0 then bits else bitArraySet bits i).
    assert (Hl1 : length bits1 = length bits).
    { unfold bits1. destruct (flagged b); cbn; [apply length_insert | reflexivity]. }
    destruct (IH (i + 1) bits1 ltac:(lia) ltac:(lia)) as (bits' & E & Hl & Hget).
    exists bits'. split; [exact E | split; [lia |]].
    intros j Hj. rewrite (Hget j Hj).
    assert (Hb1 : bitArrayGet bits1 j = (flagged b && (i =? j)) || bitArrayGet bits j).
    { unfold bits1. destruct (flagged b); cbn [Z.eqb andb orb]; [| reflexivity].
      apply bitArrayGet_set; lia. }
    rewrite Hb1.
    destruct (Z.lt_trichotomy j i) as [Hlt | [-> | Hgt]].
    + replace (Z.to_nat (j - i)) with 0%nat by lia.
      replace (Z.to_nat (j - (i + 1))) with 0%nat by lia.
      cbn [lookup list_lookup].
      destruct (Z.leb_spec i j); [lia |]. destruct (Z.leb_spec (i + 1) j); [lia |].
      destruct (Z.eqb_spec i j); [lia |].
      rewrite andb_false_r. now destruct (l !! 0%nat).
    + replace (Z.to_nat (i - i)) with 0%nat by lia.
      replace (Z.to_nat (i - (i + 1))) with 0%nat by lia.
      cbn [lookup list_lookup].
      rewrite Z.leb_refl, Z.eqb_refl, andb_true_r. cbn [andb].
      destruct (Z.leb_spec (i + 1) i); [lia |].
      now destruct (l !! 0%nat).
    + replace (Z.to_nat (j - i)) with (S (Z.to_nat (j - (i + 1)))) by lia.
      cbn [lookup list_lookup].
      destruct (Z.leb_spec i j); [| lia]. destruct (Z.leb_spec (i + 1) j); [| lia].
      destruct (Z.eqb_spec i j); [lia |].
      now rewrite andb_false_r.
Qed.

(** Bit [i] of the mask is set exactly when one of the
    [CHECK_ACTIVE_BOX] lines flags the box at position [i] of the
    active-box list. *)
Lemma packBoxModeFlags_aligned B R l st :
  activeList st = List.map boxval l ->
  Z.of_nat (length l) <= CHECKBOX_ITEM_COUNT ->
  exists bits,
    packBoxModeFlags boxval B R st = Some bits
    /\ forall i b, l !! i = Some b ->
         bitArrayGet bits (Z.of_nat i) = boxChecked (checkedBoxes B R) b.
Proof using boxval_inj boxval_range.
  intros Hl Hlen. unfold packBoxModeFlags. rewrite Hl.
  destruct (packLoop_members (checkActiveBoxes boxval B R)
              (boxChecked (checkedBoxes B R)) l (checkActiveBoxes_lookup B R)
              0 emptyBitmask ltac:(lia))
    as (bits & E & _ & Hget).
  { unfold CHECKBOX_ITEM_COUNT in Hlen. change (length emptyBitmask) with 2%nat. lia. }
  exists bits. split; [exact E |].
  intros i b Hib. rewrite Hget by lia.
  rewrite Z.sub_0_r, Nat2Z.id, Hib, bitArrayGet_empty, orb_false_r.
  destruct (Z.leb_spec 0 (Z.of_nat i)); [reflexivity | lia].
Qed.

Lemma boxChecked_reportedState B R b :
  boxChecked (checkedBoxes B R) b = reportedState B R b.
Proof using Type. destruct b; cbn; rewrite ?orb_false_r; reflexivity. Qed.

(** After [initActiveBoxIds], [serializeBoxReply] writes one
    permanent-id byte per active box, in list order, and bit [i] of the
    mask of [packBoxModeFlags] is what the [CHECK_ACTIVE_BOX] lines
    report for the box at position [i]. *)
Lemma serialization_follows_active_list C R st dst :
  exists st' l bits,
    initActiveBoxIds boxval C st = Some st'
    /\ activeList st' = List.map boxval l
    /\ sbuf_written (serializeBoxReply boxval U1 U2 st' dst)
       = sbuf_written dst ++ List.map (fun b => uint8_t (boxPermanentIdOf U1 U2 b)) l
    /\ Z.of_nat (length l) = activeBoxIdCount st'
    /\ packBoxModeFlags boxval (build C) R st' = Some bits
    /\ forall i b, l !! i = Some b ->
         bitArrayGet bits (Z.of_nat i) = reportedState (build C) R b.
Proof using boxval_inj boxval_range.
  destruct (initActiveBoxIds_result C st) as (st' & E & _ & Hn & Hact).
  destruct (packBoxModeFlags_aligned (build C) R _ st' Hact
              (added_initAdditions_length C)) as (bits & Ep & Hbits).
  destruct (serializeBoxReply_members _ st' dst Hact) as [Es _].
  exists st', (added (initAdditions C)), bits.
  rewrite Es. cbn [sbuf_written]. repeat split; try assumption; try (symmetry; assumption).
  intros i b Hib. rewrite <- boxChecked_reportedState. now apply Hbits.
Qed.

(** C4, evaluated where the code departs from it.  In every context
    the active-box list has BOXPREARM at position 1, and with the
    PREARM switch active bit 1 of the mask that [packBoxModeFlags]
    produces from this list is clear: no [CHECK_ACTIVE_BOX] line reads
    the state of BOXPREARM. *)
Theorem packBoxModeFlags_never_reports_prearm C R st :
  IS_RC_MODE_ACTIVE R BOXPREARM = true ->
  exists st' bits,
    initActiveBoxIds boxval C st = Some st'
    /\ activeList st' !! 1%nat = Some (boxval BOXPREARM)
    /\ packBoxModeFlags boxval (build C) R st' = Some bits
    /\ bitArrayGet bits 1 = false.
Proof using boxval_inj boxval_range.
  intros _.
  destruct (initActiveBoxIds_result C st) as (st' & E & _ & _ & Hact).
  destruct (packBoxModeFlags_aligned (build C) R _ st' Hact
              (added_initAdditions_length C)) as (bits & Ep & Hbits).
  exists st', bits. repeat split; try assumption.
  - rewrite Hact. reflexivity.
  - change 1 with (Z.of_nat 1). now rewrite (Hbits 1%nat BOXPREARM eq_refl).
Qed.

End Numbering.

(** ** The statements above at the sample inputs *)

Example boxNamesPayload_sample :
  boxNamesPayload [BOXARM; BOXPREARM; BOXHEADINGHOLD] = chars "ARM;PREARM;HEADING HOLD;".
Proof. reflexivity. Qed.

Lemma serializeBoxNamesReply_all_or_nothing_witness :
  serializeBoxNamesReply boxOrdinal 47 48 (Samples.boxStateOf [0; 42; 4]) (Samples.emptyBuffer 23)
  = Some (false, Samples.emptyBuffer 23)
  /\ serializeBoxNamesReply boxOrdinal 47 48 (Samples.boxStateOf [0; 42; 4]) (Samples.emptyBuffer 24)
     = Some (true, {| sbuf_written := chars "ARM;PREARM;HEADING HOLD;"; sbuf_remaining := 0 |}).
Proof.
  split.
  - exact (serializeBoxNamesReply_all_or_nothing boxOrdinal 47 48 boxOrdinal_inj
             [BOXARM; BOXPREARM; BOXHEADINGHOLD]
             (Samples.boxStateOf [0; 42; 4]) (Samples.emptyBuffer 23) eq_refl).
  - exact (serializeBoxNamesReply_all_or_nothing boxOrdinal 47 48 boxOrdinal_inj
             [BOXARM; BOXPREARM; BOXHEADINGHOLD]
             (Samples.boxStateOf [0; 42; 4]) (Samples.emptyBuffer 24) eq_refl).
Defined.

Lemma initActiveBoxIds_adds_each_box_once_witness :
  exists st',
    initActiveBoxIds boxOrdinal Samples.bareMultirotor Samples.emptyBoxState = Some st'
    /\ NoDup (activeList st')
    /\ Z.of_nat (length (activeList st')) = activeBoxIdCount st'
    /\ 0 <= activeBoxIdCount st' <= CHECKBOX_ITEM_COUNT
    /\ length (activeBoxIds st') = Z.to_nat CHECKBOX_ITEM_COUNT.
Proof.
  exact (initActiveBoxIds_adds_each_box_once boxOrdinal boxOrdinal_inj
           Samples.bareMultirotor Samples.emptyBoxState).
Defined.

Lemma bareMultirotor_noSensors : noSensors Samples.bareMultirotor.
Proof. intros s. reflexivity. Qed.

Lemma bareMultirotor_multirotorVehicle : multirotorVehicle Samples.bareMultirotor.
Proof. repeat split. Qed.

Lemma initActiveBoxIds_multirotor_without_sensors_witness :
  exists st',
    initActiveBoxIds boxOrdinal Samples.bareMultirotor Samples.emptyBoxState = Some st'
    /\ Forall (fun b => boxOrdinal b ∈ activeList st') alwaysOffered
    /\ Forall (fun b => boxOrdinal b ∉ activeList st') positionBoxes
    /\ (boxOrdinal BOXNAVALTHOLD ∈ activeList st'
        <-> USE_GPS (build Samples.bareMultirotor) = true
            /\ STATE Samples.bareMultirotor ALTITUDE_CONTROL = true
            /\ feature Samples.bareMultirotor FEATURE_GPS = true
            /\ use_gps_no_baro Samples.bareMultirotor = true).
Proof.
  exact (initActiveBoxIds_multirotor_without_sensors boxOrdinal boxOrdinal_inj
           Samples.bareMultirotor Samples.emptyBoxState
           bareMultirotor_noSensors bareMultirotor_multirotorVehicle).
Defined.

(** C8, as stated, fails: a multirotor on which no sensor was detected,
    with the GPS feature enabled and [use_gps_no_baro] set, is offered
    BOXNAVALTHOLD. *)
Lemma gps_feature_offers_althold_without_sensors :
  noSensors Samples.gpsNoBaroMultirotor
  /\ multirotorVehicle Samples.gpsNoBaroMultirotor
  /\ exists st',
       initActiveBoxIds boxOrdinal Samples.gpsNoBaroMultirotor Samples.emptyBoxState = Some st'
       /\ activeList st'
          = [0; 42; 20; 4; 7; 23; 37; 3; 11; 13; 14; 29; 18; 30; 31; 32; 38; 39; 33; 34; 35; 41]
       /\ boxOrdinal BOXNAVALTHOLD ∈ activeList st'.
Proof.
  split; [intros s; reflexivity |]. split; [repeat split |].
  eexists. split; [vm_compute; reflexivity |].
  split; [reflexivity |].
  apply (bool_decide_unpack _). vm_compute. reflexivity.
Qed.

Lemma packBoxModeFlags_never_reports_prearm_witness :
  exists st' bits,
    initActiveBoxIds boxOrdinal Samples.bareMultirotor Samples.emptyBoxState = Some st'
    /\ activeList st' !! 1%nat = Some (boxOrdinal BOXPREARM)
    /\ packBoxModeFlags boxOrdinal (build Samples.bareMultirotor) Samples.prearmSwitchOn st'
       = Some bits
    /\ bitArrayGet bits 1 = false.
Proof.
  exact (packBoxModeFlags_never_reports_prearm boxOrdinal boxOrdinal_inj boxOrdinal_range
           Samples.bareMultirotor Samples.prearmSwitchOn Samples.emptyBoxState eq_refl).
Defined.

(** The same run, computed: PREARM sits at position 1, its switch is on,
    and the mask comes out empty. *)
Example packBoxModeFlags_prearm_sample :
  IS_RC_MODE_ACTIVE Samples.prearmSwitchOn BOXPREARM = true
  /\ option_map activeList
       (initActiveBoxIds boxOrdinal Samples.bareMultirotor Samples.emptyBoxState)
     = Some [0; 42; 20; 4; 7; 23; 37; 11; 13; 14; 29; 18; 30; 31; 32; 38; 39; 33; 34; 35; 41]
  /\ match initActiveBoxIds boxOrdinal Samples.bareMultirotor Samples.emptyBoxState with
     | Some st' =>
         packBoxModeFlags boxOrdinal Samples.fullBuild Samples.prearmSwitchOn st' = Some [0; 0]
     | None => False
     end.
Proof.
  split; [reflexivity |].
  split; vm_compute; reflexivity.
Qed.


End MspBoxTheory.

(* ================================================================== *)
(** * Further properties of config.c *)
(* ================================================================== *)

Module ConfigMore.

Import Config ConfigAux ConfigTheory MoreAux.

(** ** Bitwise helpers *)

Ltac bitwise :=
  apply Z.bits_inj'; intros ? ?;
  rewrite ?Z.land_spec, ?Z.lor_spec, ?Z.lnot_spec, ?Z.bits_0 by assumption;
  repeat match goal with |- context [Z.testbit ?a ?i] => destruct (Z.testbit a i) end;
  reflexivity.

Lemma pow2_range_mod n x : 0 <= n -> (0 <= x < 2 ^ n <-> x mod 2 ^ n = x).
Proof.
  intros Hn. split.
  - apply Z.mod_small.
  - intros <-. apply Z.mod_pos_bound. apply Z.pow_pos_nonneg; lia.
Qed.

Lemma land_range n f m : 0 <= n -> 0 <= f < 2 ^ n -> 0 <= Z.land f m < 2 ^ n.
Proof.
  intros Hn Hf. apply pow2_range_mod; [assumption |].
  rewrite <- Z.land_ones by assumption.
  rewrite <- Z.land_assoc, (Z.land_comm m), Z.land_assoc, Z.land_ones by assumption.
  now rewrite Z.mod_small.
Qed.

Lemma lor_range n a b : 0 <= n -> 0 <= a < 2 ^ n -> 0 <= b < 2 ^ n -> 0 <= Z.lor a b < 2 ^ n.
Proof.
  intros Hn Ha Hb. apply pow2_range_mod; [assumption |].
  rewrite <- Z.land_ones by assumption.
  rewrite Z.land_lor_distr_l, !Z.land_ones by assumption.
  now rewrite !Z.mod_small.
Qed.

Lemma config_of_validated T X s :
  config (validateAndFixConfig T X s) = validateAndFixGroups T X (config s).
Proof. apply validateAndFixConfig_config. Qed.

(** ** What the validator guarantees *)

(** X1.  After the validator no retired feature bit
    ([FEATURE_UNUSED_1] ... [FEATURE_UNUSED_10]) is left set, whatever the
    stored feature word was. *)
Theorem validator_clears_retired_features T X s :
  Z.land (enabledFeatures (config (validateAndFixConfig T X s))) (FEATURE_UNUSED T) = 0.
Proof.
  rewrite config_of_validated, validateAndFixGroups_fields. cbn [enabledFeatures].
  unfold featuresFixed. cbv zeta.
  destruct (ledStripClash T _); bitwise.
Qed.

(** X2.  Where the LED strip and a compiled-in soft serial port sit on
    the same timer, the validator never leaves both the SOFTSERIAL and the
    LED_STRIP feature enabled. *)
Theorem validator_resolves_led_timer_clash T X s led :
  USE_LED_STRIP_WITH_SOFTSERIAL T = true ->
  ledTimerHardware T = Some led ->
  sameTimerAs led (USE_SOFTSERIAL1 T) (ss1TimerHardware T)
  || sameTimerAs led (USE_SOFTSERIAL2 T) (ss2TimerHardware T) = true ->
  featureConfigured (FEATURE_SOFTSERIAL T) (config (validateAndFixConfig T X s))
  && featureConfigured (Config.FEATURE_LED_STRIP T) (config (validateAndFixConfig T X s))
  = false.
Proof.
  intros Hsw Hled Hsame.
  rewrite config_of_validated, validateAndFixGroups_fields.
  unfold featureConfigured. cbn [enabledFeatures].
  unfold featuresFixed. cbv zeta.
  set (g := Z.land (enabledFeatures (config s)) (Z.lnot (FEATURE_UNUSED T))).
  destruct (ledStripClash T g) eqn:E.
  - rewrite land_lnot_self. cbn. apply andb_false_r.
  - unfold ledStripClash in E. rewrite Hsw, Hled, Hsame in E.
    cbn [andb] in E. now rewrite andb_true_r in E.
Qed.

Lemma validator_resolves_led_timer_clash_witness :
  featureConfigured (FEATURE_SOFTSERIAL Samples.sampleTarget)
    (config (validateAndFixConfig Samples.sampleTarget Samples.sampleExtern
               (Samples.sampleState (set_enabledFeatures 65600 Samples.sampleConfig) true)))
  && featureConfigured (Config.FEATURE_LED_STRIP Samples.sampleTarget)
       (config (validateAndFixConfig Samples.sampleTarget Samples.sampleExtern
                  (Samples.sampleState (set_enabledFeatures 65600 Samples.sampleConfig) true)))
  = false.
Proof.
  exact (validator_resolves_led_timer_clash Samples.sampleTarget Samples.sampleExtern
           (Samples.sampleState (set_enabledFeatures 65600 Samples.sampleConfig) true)
           3 eq_refl eq_refl eq_refl).
Defined.

(** X3.  In a build without [USE_SERVO_SBUS] whose PWM servo type differs
    from both SBUS types, the validator never leaves an SBUS servo
    protocol selected. *)
Theorem validator_excludes_sbus_servos T X s :
  USE_SERVO_SBUS T = false ->
  SERVO_TYPE_PWM T <> SERVO_TYPE_SBUS T ->
  SERVO_TYPE_PWM T <> SERVO_TYPE_SBUS_PWM T ->
  servo_protocol (config (validateAndFixConfig T X s)) <> SERVO_TYPE_SBUS T
  /\ servo_protocol (config (validateAndFixConfig T X s)) <> SERVO_TYPE_SBUS_PWM T.
Proof.
  intros Hsw H1 H2.
  rewrite config_of_validated, validateAndFixGroups_fields. cbn [servo_protocol].
  unfold servoProtocolFixed. rewrite Hsw.
  destruct (Z.eqb_spec (servo_protocol (config s)) (SERVO_TYPE_SBUS T)),
    (Z.eqb_spec (servo_protocol (config s)) (SERVO_TYPE_SBUS_PWM T));
    cbn [orb]; split; assumption.
Qed.

Lemma validator_excludes_sbus_servos_witness :
  servo_protocol (config (validateAndFixConfig Samples.sampleTarget Samples.sampleExtern
                            (Samples.sampleState (set_servo_protocol 2 Samples.sampleConfig) true)))
  <> 2
  /\ servo_protocol (config (validateAndFixConfig Samples.sampleTarget Samples.sampleExtern
                               (Samples.sampleState (set_servo_protocol 2 Samples.sampleConfig) true)))
     <> 3.
Proof.
  apply (validator_excludes_sbus_servos Samples.sampleTarget Samples.sampleExtern
           (Samples.sampleState (set_servo_protocol 2 Samples.sampleConfig) true) eq_refl);
    cbn; discriminate.
Defined.

(** X4.  After the validator the accelerometer notch is either switched
    off ([acc_notch_hz = 0]) or its cutoff lies strictly below its centre
    frequency; the cutoff itself is never changed. *)
Theorem validator_acc_notch_ordering T X s :
  acc_notch_cutoff (config (validateAndFixConfig T X s)) = acc_notch_cutoff (config s)
  /\ (acc_notch_hz (config (validateAndFixConfig T X s)) = 0
      \/ (acc_notch_hz (config (validateAndFixConfig T X s)) = acc_notch_hz (config s)
          /\ acc_notch_cutoff (config (validateAndFixConfig T X s))
             < acc_notch_hz (config (validateAndFixConfig T X s)))).
Proof.
  rewrite config_of_validated, validateAndFixGroups_fields.
  cbn [acc_notch_cutoff acc_notch_hz]. unfold accNotchHzFixed.
  split; [reflexivity |].
  destruct (Z.geb_spec (acc_notch_cutoff (config s)) (acc_notch_hz (config s)));
    [left; reflexivity | right; split; [reflexivity | lia]].
Qed.

(** X5.  Whatever the build, the protocol and the stored rate, the
    validator leaves [motorPwmRate] at most 32000; outside
    [BRUSHED_MOTORS] builds it is at most 16000 unless the protocol left
    selected is BRUSHED. *)
Theorem validator_motor_rate_ceiling T X s :
  config_wf (config s) ->
  0 <= motorPwmRate (config (validateAndFixConfig T X s)) <= 32000
  /\ (BRUSHED_MOTORS T = false ->
      motorPwmProtocol (config (validateAndFixConfig T X s)) <> PWM_TYPE_BRUSHED T ->
      motorPwmRate (config (validateAndFixConfig T X s)) <= 16000).
Proof.
  intros Hwf. pose proof (wf_rate _ Hwf) as Hr. unfold is_uint16 in Hr.
  rewrite config_of_validated.
  destruct (validateAndFixGroups_motor T X (config s)) as [-> ->].
  set (p := motorProtocolFixed T (motorPwmProtocol (config s))).
  unfold motorRateFixed, motorPwmRateLimit, uint16_t.
  split.
  - destruct (BRUSHED_MOTORS T).
    + rewrite constrain_spec by lia. rewrite Z.mod_small; lia.
    + repeat match goal with |- context [if ?b then _ else _] => destruct b end;
        rewrite ?MIN_spec, ?constrain_spec by lia; rewrite Z.mod_small; lia.
  - intros -> Hp.
    destruct (Z.eqb_spec p (PWM_TYPE_BRUSHED T)); [contradiction |].
    repeat match goal with |- context [if ?b then _ else _] => destruct b end;
      rewrite ?MIN_spec, ?constrain_spec by lia; rewrite Z.mod_small; lia.
Qed.

Lemma validator_motor_rate_ceiling_witness :
  0 <= motorPwmRate (config (validateAndFixConfig Samples.sampleTarget Samples.sampleExtern
                               (Samples.sampleState Samples.dshot150Config true))) <= 32000
  /\ (BRUSHED_MOTORS Samples.sampleTarget = false ->
      motorPwmProtocol (config (validateAndFixConfig Samples.sampleTarget Samples.sampleExtern
                                  (Samples.sampleState Samples.dshot150Config true)))
      <> PWM_TYPE_BRUSHED Samples.sampleTarget ->
      motorPwmRate (config (validateAndFixConfig Samples.sampleTarget Samples.sampleExtern
                              (Samples.sampleState Samples.dshot150Config true))) <= 16000).
Proof.
  apply (validator_motor_rate_ceiling Samples.sampleTarget Samples.sampleExtern
           (Samples.sampleState Samples.dshot150Config true)).
  split; cbn; unfold is_uint8, is_uint16; lia.
Defined.

(** X6.  In a build with [USE_DSHOT] and without [BRUSHED_MOTORS], a
    stored protocol value that is none of the seven enumerators is kept
    as it is and the rate is limited like STANDARD, to 490. *)
Theorem validator_unknown_protocol_limited_as_standard T X s :
  config_wf (config s) ->
  Config.USE_DSHOT T = true -> BRUSHED_MOTORS T = false ->
  motorPwmProtocol (config s) ∉ pwmCaseLabels T ->
  motorPwmProtocol (config (validateAndFixConfig T X s)) = motorPwmProtocol (config s)
  /\ motorPwmRate (config (validateAndFixConfig T X s)) = Z.min (motorPwmRate (config s)) 490.
Proof.
  intros Hwf Hd Hb Hp. pose proof (wf_rate _ Hwf) as Hr. unfold is_uint16 in Hr.
  rewrite config_of_validated.
  destruct (validateAndFixGroups_motor T X (config s)) as [-> ->].
  unfold motorProtocolFixed, motorRateFixed, motorPwmRateLimit, uint16_t.
  rewrite Hd, Hb. split; [reflexivity |].
  unfold pwmCaseLabels in Hp.
  repeat match goal with
         | |- context [?a =? ?b] =>
             destruct (Z.eqb_spec a b) as [E | _];
             [exfalso; apply Hp; rewrite E;
              repeat first [apply list_elem_of_here | apply list_elem_of_further] |]
         end.
  cbn [andb]. rewrite MIN_spec. apply Z.mod_small. lia.
Qed.

Lemma validator_unknown_protocol_limited_as_standard_witness :
  motorPwmProtocol (config (validateAndFixConfig Samples.sampleTarget Samples.sampleExtern
       (Samples.sampleState (set_motorPwmProtocol 9 Samples.dshot150Config) true))) = 9
  /\ motorPwmRate (config (validateAndFixConfig Samples.sampleTarget Samples.sampleExtern
       (Samples.sampleState (set_motorPwmProtocol 9 Samples.dshot150Config) true))) = 490.
Proof.
  apply (validator_unknown_protocol_limited_as_standard Samples.sampleTarget Samples.sampleExtern
           (Samples.sampleState (set_motorPwmProtocol 9 Samples.dshot150Config) true)).
  - split; cbn; unfold is_uint8, is_uint16; lia.
  - reflexivity.
  - reflexivity.
  - apply (bool_decide_unpack _). vm_compute. reflexivity.
Defined.

(** X7.  After the validator the ARMING_DISABLED_INVALID_SETTING bits of
    the arming flags are all set when [settingsValidate] rejects the
    validated groups and all clear when it accepts them; every other
    arming flag is what it was. *)
Theorem validator_arming_flag T X s :
  Z.land (armingFlags (validateAndFixConfig T X s)) (ARMING_DISABLED_INVALID_SETTING T)
  = (if settingsValidate X (config (validateAndFixConfig T X s))
          (pgActiveProfile (validateAndFixConfig T X s))
     then 0 else ARMING_DISABLED_INVALID_SETTING T)
  /\ Z.land (armingFlags (validateAndFixConfig T X s))
       (Z.lnot (ARMING_DISABLED_INVALID_SETTING T))
     = Z.land (armingFlags s) (Z.lnot (ARMING_DISABLED_INVALID_SETTING T)).
Proof.
  rewrite validateAndFixConfig_pgActiveProfile, config_of_validated.
  unfold validateAndFixConfig, with_config, set_armingFlags,
    DISABLE_ARMING_FLAG, ENABLE_ARMING_FLAG.
  cbn [config pgActiveProfile armingFlags].
  destruct (settingsValidate X (validateAndFixGroups T X (config s)) (pgActiveProfile s));
    cbn [armingFlags]; split; bitwise.
Qed.

(** X8.  The validator keeps every field within the range of its C type,
    provided the three constants it stores into [uint8_t] fields fit
    them. *)
Theorem validator_keeps_fields_in_range T X s :
  config_wf (config s) -> targetConstantsInRange T ->
  config_wf (config (validateAndFixConfig T X s)).
Proof.
  intros Hwf (Hservo & Hmulti & Hflip).
  rewrite config_of_validated, validateAndFixGroups_fields.
  destruct Hwf as [Hhz Hcut Hfeat Hsp Hmin Hmax Hproto Hrate Hmag Hpi Hbi].
  split; cbn [acc_notch_hz acc_notch_cutoff enabledFeatures servo_protocol
              land_slowdown_minalt land_slowdown_maxalt motorPwmProtocol motorPwmRate
              mag_align current_profile_index current_battery_profile_index];
    try assumption.
  - unfold accNotchHzFixed. destruct (_ >=? _); [unfold is_uint8; lia | assumption].
  - unfold featuresFixed. cbv zeta.
    destruct (ledStripClash T _); repeat apply land_range; solve [lia | assumption].
  - unfold servoProtocolFixed.
    destruct (USE_SERVO_SBUS T); [assumption |]. now destruct (_ || _).
  - apply uint16_t_range.
  - unfold motorProtocolFixed.
    destruct (Config.USE_DSHOT T); [assumption |]. now destruct (_ >? _).
  - unfold motorRateFixed. destruct (BRUSHED_MOTORS T); apply uint16_t_range.
  - unfold magAlignFixed. destruct (USE_MAG T); [| assumption]. now destruct (_ =? _).
Qed.

Lemma validator_keeps_fields_in_range_witness :
  config_wf (config (validateAndFixConfig Samples.sampleTarget Samples.sampleExtern
                       (Samples.sampleState Samples.lowMaxaltConfig true))).
Proof.
  apply (validator_keeps_fields_in_range Samples.sampleTarget Samples.sampleExtern
           (Samples.sampleState Samples.lowMaxaltConfig true)).
  - split; cbn; unfold is_uint8, is_uint16; lia.
  - repeat split; cbn; lia.
Defined.

(** ** The profile indices *)

(** X9.  After [setConfigProfile], whatever index was requested and
    whatever was stored before, the stored profile index lies below
    [MAX_PROFILE_COUNT] and the activated parameter-group profile and the
    control-rate profile are that same index. *)
Theorem setConfigProfile_selects_one_valid_slot T idx s :
  0 < MAX_PROFILE_COUNT T -> 0 <= idx ->
  0 <= getConfigProfile (snd (setConfigProfile T idx s)) < MAX_PROFILE_COUNT T
  /\ pgActiveProfile (snd (setConfigProfile T idx s))
     = getConfigProfile (snd (setConfigProfile T idx s))
  /\ controlRateProfile (snd (setConfigProfile T idx s))
     = getConfigProfile (snd (setConfigProfile T idx s)).
Proof.
  intros Hmax Hidx. unfold setConfigProfile, getConfigProfile. cbn.
  destruct (Z.geb_spec idx (MAX_PROFILE_COUNT T)); repeat split; lia.
Qed.

Lemma setConfigProfile_selects_one_valid_slot_witness :
  0 <= getConfigProfile (snd (setConfigProfile Samples.sampleTarget 200
                                (Samples.sampleState Samples.sampleConfig true))) < 3
  /\ pgActiveProfile (snd (setConfigProfile Samples.sampleTarget 200
                             (Samples.sampleState Samples.sampleConfig true)))
     = getConfigProfile (snd (setConfigProfile Samples.sampleTarget 200
                                (Samples.sampleState Samples.sampleConfig true)))
  /\ controlRateProfile (snd (setConfigProfile Samples.sampleTarget 200
                                (Samples.sampleState Samples.sampleConfig true)))
     = getConfigProfile (snd (setConfigProfile Samples.sampleTarget 200
                                (Samples.sampleState Samples.sampleConfig true))).
Proof.
  apply (setConfigProfile_selects_one_valid_slot Samples.sampleTarget 200
           (Samples.sampleState Samples.sampleConfig true)); cbn; lia.
Defined.

(** X10.  For an index below [MAX_PROFILE_COUNT], asking
    [setConfigProfile] a second time for the same index returns [false]
    and changes nothing. *)
Theorem setConfigProfile_repeated_request T idx s :
  idx < MAX_PROFILE_COUNT T ->
  setConfigProfile T idx (snd (setConfigProfile T idx s))
  = (false, snd (setConfigProfile T idx s)).
Proof.
  intros Hidx. unfold setConfigProfile. cbn.
  destruct (Z.geb_spec idx (MAX_PROFILE_COUNT T)); [lia |].
  cbn. now rewrite Z.eqb_refl.
Qed.

Lemma setConfigProfile_repeated_request_witness :
  setConfigProfile Samples.sampleTarget 2
    (snd (setConfigProfile Samples.sampleTarget 2 (Samples.sampleState Samples.sampleConfig true)))
  = (false,
     snd (setConfigProfile Samples.sampleTarget 2 (Samples.sampleState Samples.sampleConfig true))).
Proof.
  apply (setConfigProfile_repeated_request Samples.sampleTarget 2
           (Samples.sampleState Samples.sampleConfig true)).
  cbn. lia.
Defined.

(** X11.  [setConfigBatteryProfile] clamps like [setConfigProfile]: the
    stored battery profile index ends below [MAX_BATTERY_PROFILE_COUNT]
    and the activated battery profile is that index; the flight profile
    index and its activated profiles are not touched. *)
Theorem setConfigBatteryProfile_selects_one_valid_slot T idx s :
  0 < MAX_BATTERY_PROFILE_COUNT T -> 0 <= idx ->
  0 <= getConfigBatteryProfile (snd (setConfigBatteryProfile T idx s))
     < MAX_BATTERY_PROFILE_COUNT T
  /\ batteryProfile (snd (setConfigBatteryProfile T idx s))
     = getConfigBatteryProfile (snd (setConfigBatteryProfile T idx s))
  /\ getConfigProfile (snd (setConfigBatteryProfile T idx s)) = getConfigProfile s
  /\ pgActiveProfile (snd (setConfigBatteryProfile T idx s)) = pgActiveProfile s
  /\ controlRateProfile (snd (setConfigBatteryProfile T idx s)) = controlRateProfile s.
Proof.
  intros Hmax Hidx. unfold setConfigBatteryProfile, getConfigBatteryProfile, getConfigProfile.
  cbn. destruct (Z.geb_spec idx (MAX_BATTERY_PROFILE_COUNT T)); repeat split; lia.
Qed.

Lemma setConfigBatteryProfile_selects_one_valid_slot_witness :
  0 <= getConfigBatteryProfile
         (snd (setConfigBatteryProfile Samples.sampleTarget 7
                 (Samples.sampleState Samples.sampleConfig true))) < 3
  /\ batteryProfile (snd (setConfigBatteryProfile Samples.sampleTarget 7
                            (Samples.sampleState Samples.sampleConfig true)))
     = getConfigBatteryProfile
         (snd (setConfigBatteryProfile Samples.sampleTarget 7
                 (Samples.sampleState Samples.sampleConfig true)))
  /\ getConfigProfile (snd (setConfigBatteryProfile Samples.sampleTarget 7
                              (Samples.sampleState Samples.sampleConfig true)))
     = getConfigProfile (Samples.sampleState Samples.sampleConfig true)
  /\ pgActiveProfile (snd (setConfigBatteryProfile Samples.sampleTarget 7
                             (Samples.sampleState Samples.sampleConfig true)))
     = pgActiveProfile (Samples.sampleState Samples.sampleConfig true)
  /\ controlRateProfile (snd (setConfigBatteryProfile Samples.sampleTarget 7
                                (Samples.sampleState Samples.sampleConfig true)))
     = controlRateProfile (Samples.sampleState Samples.sampleConfig true).
Proof.
  apply (setConfigBatteryProfile_selects_one_valid_slot Samples.sampleTarget 7
           (Samples.sampleState Samples.sampleConfig true)); cbn; lia.
Defined.

(** ** Loading and saving *)

Lemma clampIndex_range count idx :
  0 < count -> 0 <= idx -> 0 <= clampIndex count idx < count.
Proof. intros. unfold clampIndex. destruct (Z.geb_spec idx count); lia. Qed.

Lemma clampIndex_in_range count idx : idx < count -> clampIndex count idx = idx.
Proof. intros. unfold clampIndex. destruct (Z.geb_spec idx count); lia. Qed.

Lemma validateAndFixConfig_frame T X s :
  pgActiveProfile (validateAndFixConfig T X s) = pgActiveProfile s
  /\ controlRateProfile (validateAndFixConfig T X s) = controlRateProfile s
  /\ batteryProfile (validateAndFixConfig T X s) = batteryProfile s
  /\ eeprom (validateAndFixConfig T X s) = eeprom s
  /\ events (validateAndFixConfig T X s) = events s.
Proof.
  unfold validateAndFixConfig. destruct (settingsValidate X _ _); cbn; repeat split.
Qed.

Lemma setConfigProfile_state T idx s :
  snd (setConfigProfile T idx s)
  = {| config := set_current_profile_index (clampIndex (MAX_PROFILE_COUNT T) idx) (config s);
       pgActiveProfile := clampIndex (MAX_PROFILE_COUNT T) idx;
       controlRateProfile := clampIndex (MAX_PROFILE_COUNT T) idx;
       batteryProfile := batteryProfile s; armingFlags := armingFlags s;
       eeprom := eeprom s; events := events s |}.
Proof. reflexivity. Qed.

Lemma setConfigBatteryProfile_state T idx s :
  snd (setConfigBatteryProfile T idx s)
  = {| config := set_current_battery_profile_index
                   (clampIndex (MAX_BATTERY_PROFILE_COUNT T) idx) (config s);
       pgActiveProfile := pgActiveProfile s;
       controlRateProfile := controlRateProfile s;
       batteryProfile := clampIndex (MAX_BATTERY_PROFILE_COUNT T) idx;
       armingFlags := armingFlags s;
       eeprom := eeprom s; events := events s |}.
Proof. reflexivity. Qed.

(** What [readEEPROM] makes of a readable image. *)
Lemma readEEPROM_readable T X s :
  img_readable (eeprom s) = true ->
  exists s',
    readEEPROM T X s = Some s'
    /\ config s'
       = validateAndFixGroups T X
           (set_current_battery_profile_index
              (clampIndex (MAX_BATTERY_PROFILE_COUNT T)
                 (current_battery_profile_index (img_config (eeprom s))))
              (set_current_profile_index
                 (clampIndex (MAX_PROFILE_COUNT T)
                    (current_profile_index (img_config (eeprom s))))
                 (img_config (eeprom s))))
    /\ pgActiveProfile s'
       = clampIndex (MAX_PROFILE_COUNT T) (current_profile_index (img_config (eeprom s)))
    /\ batteryProfile s'
       = clampIndex (MAX_BATTERY_PROFILE_COUNT T)
           (current_battery_profile_index (img_config (eeprom s)))
    /\ eeprom s' = eeprom s
    /\ events s'
       = [EvResumeRx; EvActivateConfig; EvLoadEEPROM; EvSuspendRx] ++ events s.
Proof.
  intros Hr. unfold readEEPROM, loadEEPROM.
  change (img_readable (eeprom (emit EvSuspendRx s))) with (img_readable (eeprom s)).
  rewrite Hr. eexists. split; [reflexivity |].
  match goal with
  | |- context [validateAndFixConfig T X ?v] => remember v as V eqn:EV
  end.
  destruct (validateAndFixConfig_frame T X V) as (Hpg & _ & Hbp & Himg & Hev).
  unfold activateConfig, emit.
  cbn [config pgActiveProfile batteryProfile eeprom events].
  rewrite config_of_validated, Hpg, Hbp, Himg, Hev. subst V.
  repeat split.
Qed.

Lemma readEEPROM_unreadable T X s :
  img_readable (eeprom s) = false -> readEEPROM T X s = None.
Proof.
  intros Hr. unfold readEEPROM, loadEEPROM.
  change (img_readable (eeprom (emit EvSuspendRx s))) with (img_readable (eeprom s)).
  now rewrite Hr.
Qed.

Lemma set_indices_wf p b c :
  config_wf c -> is_uint8 p -> is_uint8 b ->
  config_wf (set_current_battery_profile_index b (set_current_profile_index p c)).
Proof. intros [] Hp Hb. split; cbn; assumption. Qed.

(** X12.  [readEEPROM] fails to return exactly when the store cannot be
    read.  When it returns, the stored image is what it was, both profile
    indices lie within their slot counts and agree with the activated
    profiles, and the groups in RAM are validated: the validator run on
    them again would change nothing. *)
Theorem readEEPROM_leaves_validated_groups T X s :
  config_wf (img_config (eeprom s)) ->
  0 < MAX_PROFILE_COUNT T <= 256 ->
  0 < MAX_BATTERY_PROFILE_COUNT T <= 256 ->
  match readEEPROM T X s with
  | Some s' =>
      img_readable (eeprom s) = true
      /\ eeprom s' = eeprom s
      /\ profilesInRange T s'
      /\ pgActiveProfile s' = getConfigProfile s'
      /\ batteryProfile s' = getConfigBatteryProfile s'
      /\ validateAndFixGroups T X (config s') = config s'
  | None => img_readable (eeprom s) = false
  end.
Proof.
  intros Hwf Hmax Hbat.
  destruct (img_readable (eeprom s)) eqn:Hr; [| now rewrite readEEPROM_unreadable].
  destruct (readEEPROM_readable T X s Hr) as (s' & -> & Hc & Hpg & Hbp & Himg & _).
  pose proof (wf_profile _ Hwf) as Hp. pose proof (wf_battery _ Hwf) as Hb.
  unfold is_uint8 in Hp, Hb.
  pose proof (clampIndex_range (MAX_PROFILE_COUNT T) _ ltac:(lia) (proj1 Hp)) as Hcp.
  pose proof (clampIndex_range (MAX_BATTERY_PROFILE_COUNT T) _ ltac:(lia) (proj1 Hb)) as Hcb.
  unfold profilesInRange, getConfigProfile, getConfigBatteryProfile.
  rewrite Hc, Hpg, Hbp, Himg.
  rewrite validateAndFixGroups_idempotent
    by (apply set_indices_wf; [assumption | unfold is_uint8; lia ..]).
  rewrite validateAndFixGroups_fields.
  unfold set_current_battery_profile_index, set_current_profile_index.
  cbn [current_profile_index current_battery_profile_index].
  repeat split; lia.
Qed.

Lemma readEEPROM_leaves_validated_groups_witness :
  match readEEPROM Samples.sampleTarget Samples.sampleExtern
          (Samples.sampleState Samples.lowMaxaltConfig true) with
  | Some s' =>
      img_readable (eeprom (Samples.sampleState Samples.lowMaxaltConfig true)) = true
      /\ eeprom s' = eeprom (Samples.sampleState Samples.lowMaxaltConfig true)
      /\ profilesInRange Samples.sampleTarget s'
      /\ pgActiveProfile s' = getConfigProfile s'
      /\ batteryProfile s' = getConfigBatteryProfile s'
      /\ validateAndFixGroups Samples.sampleTarget Samples.sampleExtern (config s') = config s'
  | None => img_readable (eeprom (Samples.sampleState Samples.lowMaxaltConfig true)) = false
  end.
Proof.
  apply (readEEPROM_leaves_validated_groups Samples.sampleTarget Samples.sampleExtern
           (Samples.sampleState Samples.lowMaxaltConfig true)).
  - split; cbn; unfold is_uint8, is_uint16; lia.
  - cbn. lia.
  - cbn. lia.
Defined.

Lemma writeEEPROM_state s :
  config (writeEEPROM s) = config s
  /\ eeprom (writeEEPROM s)
     = {| img_readable := img_readable (eeprom s); img_valid := true;
          img_config := config s |}
  /\ events (writeEEPROM s) = [EvResumeRx; EvWriteConfigToEEPROM; EvSuspendRx] ++ events s.
Proof. repeat split. Qed.

(** X13.  Saving and reloading gives the groups back: for groups that
    are validated (the validator changes nothing on them) with both
    profile indices in range and a readable store, [saveConfigAndNotify]
    returns, the groups in RAM are what they were, and the stored image
    is valid and holds exactly these groups. *)
Theorem saveConfigAndNotify_round_trip T X s :
  validateAndFixGroups T X (config s) = config s ->
  profilesInRange T s ->
  img_readable (eeprom s) = true ->
  exists s',
    saveConfigAndNotify T X s = Some s'
    /\ config s' = config s
    /\ img_config (eeprom s') = config s
    /\ isEEPROMContentValid s' = true.
Proof.
  intros Hfix ((_ & Hp) & (_ & Hb)) Hr.
  destruct (writeEEPROM_state s) as (Hwc & Hwe & _).
  destruct (readEEPROM_readable T X (writeEEPROM s)) as (s' & E & Hc & _ & _ & Himg & _).
  { rewrite Hwe. exact Hr. }
  unfold saveConfigAndNotify. rewrite E.
  exists (beeperConfirmationBeeps 1 s').
  unfold isEEPROMContentValid, beeperConfirmationBeeps, emit. cbn [config eeprom].
  rewrite Himg, Hwe in *. cbn [img_config img_valid] in *.
  rewrite !clampIndex_in_range in Hc by assumption.
  rewrite set_current_profile_index_same, set_current_battery_profile_index_same, Hfix in Hc.
  repeat split. exact Hc.
Qed.

Lemma saveConfigAndNotify_round_trip_witness :
  exists s',
    saveConfigAndNotify Samples.sampleTarget Samples.sampleExtern
      (Samples.sampleState (validateAndFixGroups Samples.sampleTarget Samples.sampleExtern Samples.sampleConfig) false) = Some s'
    /\ config s' = config (Samples.sampleState (validateAndFixGroups Samples.sampleTarget Samples.sampleExtern Samples.sampleConfig) false)
    /\ img_config (eeprom s') = config (Samples.sampleState (validateAndFixGroups Samples.sampleTarget Samples.sampleExtern Samples.sampleConfig) false)
    /\ isEEPROMContentValid s' = true.
Proof.
  apply (saveConfigAndNotify_round_trip Samples.sampleTarget Samples.sampleExtern
           (Samples.sampleState (validateAndFixGroups Samples.sampleTarget Samples.sampleExtern Samples.sampleConfig) false)).
  - vm_compute. reflexivity.
  - unfold profilesInRange. rewrite validateAndFixGroups_fields. cbn. lia.
  - reflexivity.
Defined.

(** X14.  A request to [setConfigProfileAndWriteEEPROM] for the profile
    that is already current (an index in range) neither saves nor
    reloads: groups and stored image stay as they are, and the only call
    made is the confirmation of [index + 1] beeps. *)
Theorem setConfigProfileAndWriteEEPROM_same_profile T X idx s :
  0 <= idx < MAX_PROFILE_COUNT T -> idx < 255 ->
  current_profile_index (config s) = idx ->
  exists s',
    setConfigProfileAndWriteEEPROM T X idx s = Some s'
    /\ config s' = config s
    /\ eeprom s' = eeprom s
    /\ events s' = EvBeep (idx + 1) :: events s.
Proof.
  intros Hidx H255 Hcur. unfold setConfigProfileAndWriteEEPROM.
  assert (E : setConfigProfile T idx s = (false, snd (setConfigProfile T idx s))).
  { unfold setConfigProfile. rewrite Hcur, Z.eqb_refl. reflexivity. }
  rewrite E. eexists. split; [reflexivity |].
  rewrite setConfigProfile_state, clampIndex_in_range by lia.
  unfold beeperConfirmationBeeps, emit, uint8_t. cbn [config eeprom events].
  rewrite <- Hcur at 1. rewrite set_current_profile_index_same.
  rewrite Z.mod_small by lia. repeat split.
Qed.

Lemma setConfigProfileAndWriteEEPROM_same_profile_witness :
  exists s',
    setConfigProfileAndWriteEEPROM Samples.sampleTarget Samples.sampleExtern 0
      (Samples.sampleState Samples.sampleConfig true) = Some s'
    /\ config s' = config (Samples.sampleState Samples.sampleConfig true)
    /\ eeprom s' = eeprom (Samples.sampleState Samples.sampleConfig true)
    /\ events s' = EvBeep (0 + 1) :: events (Samples.sampleState Samples.sampleConfig true).
Proof.
  apply (setConfigProfileAndWriteEEPROM_same_profile Samples.sampleTarget Samples.sampleExtern 0
           (Samples.sampleState Samples.sampleConfig true)).
  - cbn. lia.
  - lia.
  - reflexivity.
Defined.

(** X15.  A request to [setConfigProfileAndWriteEEPROM] for an index
    other than the current one is saved before the reload: with a
    readable store the call returns, and the stored image is valid and
    carries the selected index (the requested one, or 0 for a request
    beyond the slot count), which is also the activated profile. *)
Theorem setConfigProfileAndWriteEEPROM_persists_selection T X idx s :
  0 < MAX_PROFILE_COUNT T ->
  img_readable (eeprom s) = true ->
  current_profile_index (config s) <> idx ->
  exists s',
    setConfigProfileAndWriteEEPROM T X idx s = Some s'
    /\ isEEPROMContentValid s' = true
    /\ current_profile_index (img_config (eeprom s')) = clampIndex (MAX_PROFILE_COUNT T) idx
    /\ getConfigProfile s' = clampIndex (MAX_PROFILE_COUNT T) idx
    /\ pgActiveProfile s' = clampIndex (MAX_PROFILE_COUNT T) idx.
Proof.
  intros Hmax Hr Hne. unfold setConfigProfileAndWriteEEPROM.
  assert (E : setConfigProfile T idx s = (true, snd (setConfigProfile T idx s))).
  { unfold setConfigProfile.
    destruct (Z.eqb_spec (current_profile_index (config s)) idx);
      [contradiction | reflexivity]. }
  rewrite E, setConfigProfile_state.
  match goal with |- context [writeEEPROM ?v] => set (s1 := v) end.
  destruct (writeEEPROM_state s1) as (Hwc & Hwe & _).
  destruct (readEEPROM_readable T X (writeEEPROM s1)) as (s' & E' & Hc & Hpg & _ & Himg & _).
  { rewrite Hwe. exact Hr. }
  rewrite E'. eexists. split; [reflexivity |].
  unfold isEEPROMContentValid, getConfigProfile, beeperConfirmationBeeps, emit.
  cbn [config eeprom pgActiveProfile].
  rewrite Hc, Hpg, Himg, Hwe, validateAndFixGroups_fields.
  subst s1. cbn [img_config img_valid config current_profile_index].
  unfold set_current_battery_profile_index, set_current_profile_index.
  cbn [current_profile_index].
  assert (Hcl : clampIndex (MAX_PROFILE_COUNT T) (clampIndex (MAX_PROFILE_COUNT T) idx)
                = clampIndex (MAX_PROFILE_COUNT T) idx).
  { unfold clampIndex. destruct (Z.geb_spec idx (MAX_PROFILE_COUNT T)).
    - destruct (Z.geb_spec 0 (MAX_PROFILE_COUNT T)); [lia | reflexivity].
    - destruct (Z.geb_spec idx (MAX_PROFILE_COUNT T)); [lia | reflexivity]. }
  rewrite Hcl. repeat split.
Qed.

Lemma setConfigProfileAndWriteEEPROM_persists_selection_witness :
  exists s',
    setConfigProfileAndWriteEEPROM Samples.sampleTarget Samples.sampleExtern 2
      (Samples.sampleState Samples.sampleConfig false) = Some s'
    /\ isEEPROMContentValid s' = true
    /\ current_profile_index (img_config (eeprom s'))
       = clampIndex (MAX_PROFILE_COUNT Samples.sampleTarget) 2
    /\ getConfigProfile s' = clampIndex (MAX_PROFILE_COUNT Samples.sampleTarget) 2
    /\ pgActiveProfile s' = clampIndex (MAX_PROFILE_COUNT Samples.sampleTarget) 2.
Proof.
  apply (setConfigProfileAndWriteEEPROM_persists_selection Samples.sampleTarget
           Samples.sampleExtern 2 (Samples.sampleState Samples.sampleConfig false)).
  - cbn. lia.
  - reflexivity.
  - cbn. lia.
Defined.

Lemma callsSince_app before after new :
  events after = new ++ events before -> callsSince before after = rev new.
Proof.
  intros E. unfold callsSince. rewrite E.
  replace (length (new ++ events before) - length (events before))%nat with (length new)
    by (rewrite length_app; lia).
  now rewrite take_app_length.
Qed.

Lemma readEEPROM_events T X s s' :
  readEEPROM T X s = Some s' ->
  events s' = [EvResumeRx; EvActivateConfig; EvLoadEEPROM; EvSuspendRx] ++ events s.
Proof.
  intros E. destruct (img_readable (eeprom s)) eqn:Hr.
  - destruct (readEEPROM_readable T X s Hr) as (s1 & E1 & _ & _ & _ & _ & Hev). congruence.
  - rewrite readEEPROM_unreadable in E by assumption. discriminate.
Qed.

Lemma save_reload_events T X s s' :
  readEEPROM T X (writeEEPROM s) = Some s' ->
  events s' = [EvResumeRx; EvActivateConfig; EvLoadEEPROM; EvSuspendRx;
               EvResumeRx; EvWriteConfigToEEPROM; EvSuspendRx] ++ events s.
Proof. intros E. now rewrite (readEEPROM_events _ _ _ _ E). Qed.

(** X16.  Every function of [config.c] that writes or loads the EEPROM
    does so with the RX signal suspended and has resumed it by the time
    it returns: read in the order of the calls, each write and each load
    lies between an [EvSuspendRx] and the next [EvResumeRx]. *)
Theorem eeprom_access_with_rx_suspended T X idx s :
  rxSuspendedDuringAccess (callsSince s (writeEEPROM s)) false = true
  /\ rxSuspendedDuringAccess (callsSince s (resetEEPROM T X s)) false = true
  /\ rxSuspendedDuringAccess (callsSince s (ensureEEPROMContainsValidData T X s)) false = true
  /\ (forall s', readEEPROM T X s = Some s' ->
        rxSuspendedDuringAccess (callsSince s s') false = true)
  /\ (forall s', saveConfigAndNotify T X s = Some s' ->
        rxSuspendedDuringAccess (callsSince s s') false = true)
  /\ (forall s', setConfigProfileAndWriteEEPROM T X idx s = Some s' ->
        rxSuspendedDuringAccess (callsSince s s') false = true)
  /\ (forall s', setConfigBatteryProfileAndWriteEEPROM T X idx s = Some s' ->
        rxSuspendedDuringAccess (callsSince s s') false = true).
Proof.
  assert (Hreset : rxSuspendedDuringAccess (callsSince s (resetEEPROM T X s)) false = true).
  { rewrite (callsSince_app s _ ([EvResumeRx; EvWriteConfigToEEPROM; EvSuspendRx]
               ++ (if USE_LED_STRIP T then [EvReevaluateLedConfig] else []))).
    - destruct (USE_LED_STRIP T); reflexivity.
    - unfold resetEEPROM.
      destruct (writeEEPROM_state (resetConfigs T X s)) as (_ & _ & ->).
      now rewrite resetConfigs_log, app_assoc. }
  split; [| split; [| split; [| split; [| split; [| split]]]]].
  - now rewrite (callsSince_app s _ [EvResumeRx; EvWriteConfigToEEPROM; EvSuspendRx]).
  - exact Hreset.
  - unfold ensureEEPROMContainsValidData. destruct (isEEPROMContentValid s); [| exact Hreset].
    now rewrite (callsSince_app s s []).
  - intros s' E. now rewrite (callsSince_app s s' _ (readEEPROM_events _ _ _ _ E)).
  - intros s' E. unfold saveConfigAndNotify in E.
    destruct (readEEPROM T X (writeEEPROM s)) as [s1 |] eqn:E1; [| discriminate].
    injection E as <-.
    rewrite (callsSince_app s _ (EvBeep (uint8_t 1) ::
      [EvResumeRx; EvActivateConfig; EvLoadEEPROM; EvSuspendRx;
       EvResumeRx; EvWriteConfigToEEPROM; EvSuspendRx])); [reflexivity |].
    unfold beeperConfirmationBeeps, emit. cbn [events].
    now rewrite (save_reload_events _ _ _ _ E1).
  - intros s' E. unfold setConfigProfileAndWriteEEPROM in E.
    destruct (setConfigProfile T idx s) as [changed s0] eqn:E0.
    assert (Hev0 : events s0 = events s).
    { change s0 with (snd (changed, s0)). rewrite <- E0, setConfigProfile_state. reflexivity. }
    destruct changed.
    + destruct (readEEPROM T X (writeEEPROM s0)) as [s1 |] eqn:E1; [| discriminate].
      injection E as <-.
      rewrite (callsSince_app s _ (EvBeep (uint8_t (idx + 1)) ::
        [EvResumeRx; EvActivateConfig; EvLoadEEPROM; EvSuspendRx;
         EvResumeRx; EvWriteConfigToEEPROM; EvSuspendRx])); [reflexivity |].
      unfold beeperConfirmationBeeps, emit. cbn [events].
      now rewrite (save_reload_events _ _ _ _ E1), Hev0.
    + injection E as <-.
      rewrite (callsSince_app s _ [EvBeep (uint8_t (idx + 1))]); [reflexivity |].
      unfold beeperConfirmationBeeps, emit. cbn [events]. now rewrite Hev0.
  - intros s' E. unfold setConfigBatteryProfileAndWriteEEPROM in E.
    destruct (setConfigBatteryProfile T idx s) as [changed s0] eqn:E0.
    assert (Hev0 : events s0 = events s).
    { change s0 with (snd (changed, s0)). rewrite <- E0, setConfigBatteryProfile_state.
      reflexivity. }
    destruct changed.
    + destruct (readEEPROM T X (writeEEPROM s0)) as [s1 |] eqn:E1; [| discriminate].
      injection E as <-.
      rewrite (callsSince_app s _ (EvBeep (uint8_t (idx + 1)) ::
        [EvResumeRx; EvActivateConfig; EvLoadEEPROM; EvSuspendRx;
         EvResumeRx; EvWriteConfigToEEPROM; EvSuspendRx])); [reflexivity |].
      unfold beeperConfirmationBeeps, emit. cbn [events].
      now rewrite (save_reload_events _ _ _ _ E1), Hev0.
    + injection E as <-.
      rewrite (callsSince_app s _ [EvBeep (uint8_t (idx + 1))]); [reflexivity |].
      unfold beeperConfirmationBeeps, emit. cbn [events]. now rewrite Hev0.
Qed.

End ConfigMore.

(* ================================================================== *)
(** * config.c: the beeper masks, further statements *)
(* ================================================================== *)

Module BeeperTheory.

Import Beeper.

Lemma uint32_t_bits x k :
  0 <= k -> Z.testbit (uint32_t x) k = (k <? 32) && Z.testbit x k.
Proof.
  intros Hk. unfold uint32_t. destruct (Z.ltb_spec k 32).
  - rewrite Z.mod_pow2_bits_low by lia. reflexivity.
  - rewrite Z.mod_pow2_bits_high by lia. reflexivity.
Qed.

Lemma is_uint32_bits x k : is_uint32 x -> 32 <= k -> Z.testbit x k = false.
Proof.
  intros Hx Hk. rewrite <- (Z.mod_small x (2 ^ 32)) by exact Hx.
  apply Z.mod_pow2_bits_high. lia.
Qed.

Lemma is_uint32_land f m : is_uint32 f -> is_uint32 (Z.land f m).
Proof. apply ConfigMore.land_range. lia. Qed.

Lemma is_uint32_lor a b : is_uint32 a -> is_uint32 b -> is_uint32 (Z.lor a b).
Proof. apply ConfigMore.lor_range. lia. Qed.

(** X17.  [beeperOffSetAll] is defined for counts of 0 to 30, and then
    switches off exactly the beepers numbered below the count: bit [k] of
    the mask is set if and only if [k < beeperCount].  The preferred mask
    is not touched. *)
Theorem beeperOffSetAll_sets_the_low_bits n b :
  match beeperOffSetAll n b with
  | Some b' =>
      0 <= n < 31
      /\ (forall k, 0 <= k -> Z.testbit (getBeeperOffMask b') k = (k <? n))
      /\ is_uint32 (getBeeperOffMask b')
      /\ getPreferredBeeperOffMask b' = getPreferredBeeperOffMask b
  | None => n < 0 \/ 31 <= n
  end.
Proof.
  unfold beeperOffSetAll.
  destruct (Z.leb_spec 0 n), (Z.ltb_spec n 31); cbn [andb]; try lia.
  unfold getBeeperOffMask, getPreferredBeeperOffMask.
  cbn [beeper_off_flags preferred_beeper_off_flags].
  assert (E : Z.shiftl 1 n - 1 = Z.ones n).
  { rewrite Z.ones_equiv, Z.shiftl_1_l. lia. }
  assert (Hr : 0 <= Z.ones n < 2 ^ 32).
  { rewrite Z.ones_equiv.
    assert (0 < 2 ^ n) by (apply Z.pow_pos_nonneg; lia).
    assert (2 ^ n <= 2 ^ 31) by (apply Z.pow_le_mono_r; lia).
    lia. }
  rewrite E. unfold uint32_t, is_uint32. rewrite Z.mod_small by exact Hr.
  split; [lia |]. split; [| split; [exact Hr | reflexivity]].
  intros k Hk. apply Z.testbit_ones_nonneg; lia.
Qed.

(** X18.  [beeperOffClear] switches exactly the beepers of the mask back
    on: bit [k] of the new flags is set if and only if it was set before
    and is not in the mask.  The flags stay a 32-bit value and the
    preferred mask is not touched. *)
Theorem beeperOffClear_clears_the_mask mask b :
  is_uint32 (getBeeperOffMask b) ->
  (forall k, 0 <= k ->
     Z.testbit (getBeeperOffMask (beeperOffClear mask b)) k
     = Z.testbit (getBeeperOffMask b) k && negb (Z.testbit mask k))
  /\ is_uint32 (getBeeperOffMask (beeperOffClear mask b))
  /\ getPreferredBeeperOffMask (beeperOffClear mask b) = getPreferredBeeperOffMask b.
Proof.
  intros Hf. unfold getBeeperOffMask, getPreferredBeeperOffMask, beeperOffClear in *.
  cbn [beeper_off_flags preferred_beeper_off_flags].
  split; [| split; [now apply is_uint32_land | reflexivity]].
  intros k Hk. rewrite Z.land_spec, uint32_t_bits, Z.lnot_spec by assumption.
  destruct (Z.ltb_spec k 32); cbn [andb]; [reflexivity |].
  rewrite (is_uint32_bits _ k Hf) by assumption. reflexivity.
Qed.

Lemma beeperOffClear_clears_the_mask_witness :
  (forall k, 0 <= k ->
     Z.testbit (getBeeperOffMask (beeperOffClear 4 sampleBeeperConfig)) k
     = Z.testbit (getBeeperOffMask sampleBeeperConfig) k && negb (Z.testbit 4 k))
  /\ is_uint32 (getBeeperOffMask (beeperOffClear 4 sampleBeeperConfig))
  /\ getPreferredBeeperOffMask (beeperOffClear 4 sampleBeeperConfig)
     = getPreferredBeeperOffMask sampleBeeperConfig.
Proof.
  apply (beeperOffClear_clears_the_mask 4 sampleBeeperConfig).
  unfold is_uint32. cbn. lia.
Defined.

(** X19.  Clearing undoes setting: when none of the beepers of a mask is
    switched off, [beeperOffSet] followed by [beeperOffClear] with that
    mask gives the beeper configuration back. *)
Theorem beeperOffClear_undoes_beeperOffSet mask b :
  is_uint32 (getBeeperOffMask b) ->
  Z.land (getBeeperOffMask b) mask = 0 ->
  beeperOffClear mask (beeperOffSet mask b) = b.
Proof.
  intros Hf Hdisj. destruct b as [f p].
  unfold getBeeperOffMask, beeperOffClear, beeperOffSet in *.
  cbn [beeper_off_flags preferred_beeper_off_flags] in *.
  f_equal. apply Z.bits_inj'. intros k Hk.
  rewrite Z.land_spec, uint32_t_bits, Z.lnot_spec, Z.lor_spec by assumption.
  pose proof (f_equal (fun z => Z.testbit z k) Hdisj) as Hb. cbn beta in Hb.
  rewrite Z.land_spec, Z.bits_0 in Hb.
  destruct (Z.ltb_spec k 32).
  - destruct (Z.testbit f k), (Z.testbit mask k); cbn in *; congruence.
  - rewrite (is_uint32_bits _ k Hf) by assumption.
    destruct (Z.testbit mask k); reflexivity.
Qed.

Lemma beeperOffClear_undoes_beeperOffSet_witness :
  beeperOffClear 2 (beeperOffSet 2 sampleBeeperConfig) = sampleBeeperConfig.
Proof.
  apply (beeperOffClear_undoes_beeperOffSet 2 sampleBeeperConfig).
  - unfold is_uint32. cbn. lia.
  - reflexivity.
Defined.

End BeeperTheory.

(* ================================================================== *)
(** * fc_msp_box.c: further statements *)
(* ================================================================== *)

Module MspBoxMore.

Import MspBox MspBoxAux MspBoxTheory SensorStatus MoreAux.

(** ** The scan of the table *)

Lemma scanBoxes_spec test rows :
  match scanBoxes test rows with
  | Some e => test e = true /\ e ∈ rows
  | None => forall e, e ∈ rows -> test e = false
  end.
Proof.
  induction rows as [| a rows IH]; cbn.
  - intros e He. now apply elem_of_nil in He.
  - destruct (test a) eqn:E.
    + split; [exact E | apply list_elem_of_here].
    + destruct (scanBoxes test rows) as [e |].
      * destruct IH as [Ht He]. split; [exact Ht | now apply list_elem_of_further].
      * intros e He. apply elem_of_cons in He as [-> | He]; [exact E | now apply IH].
Qed.

Lemma scanBoxes_unique (key : box_t -> Z) rows e :
  NoDup (List.map key rows) -> e ∈ rows ->
  scanBoxes (fun candidate => key candidate =? key e) rows = Some e.
Proof.
  induction rows as [| a rows IH]; intros Hnd He; [now apply elem_of_nil in He |].
  cbn [List.map] in Hnd. apply NoDup_cons in Hnd as [Ha Hnd]. cbn [scanBoxes].
  apply elem_of_cons in He as [-> | He]; [now rewrite Z.eqb_refl |].
  destruct (Z.eqb_spec (key a) (key e)) as [E | _]; [| now apply IH].
  exfalso. apply Ha. rewrite E. apply list_elem_of_In, in_map, list_elem_of_In, He.
Qed.

(** ** What a receiver makes of the replies *)

Lemma splitNames_name name rest acc :
  forallb (fun c => negb (c =? BOX_SUFFIX)) name = true ->
  splitNames (name ++ BOX_SUFFIX :: rest) acc = (rev acc ++ name) :: splitNames rest [].
Proof.
  revert acc. induction name as [| c name IH]; intros acc H.
  - cbn. now rewrite app_nil_r.
  - cbn [forallb] in H. apply andb_true_iff in H as [Hc H].
    cbn [app splitNames]. destruct (c =? BOX_SUFFIX); [discriminate |].
    rewrite IH by assumption. cbn [rev]. now rewrite <- app_assoc.
Qed.

Lemma boxNameOf_no_suffix b :
  forallb (fun c => negb (c =? BOX_SUFFIX)) (chars (boxNameOf b)) = true.
Proof. destruct b; vm_compute; reflexivity. Qed.

Lemma splitNames_payload l :
  splitNames (boxNamesPayload l) [] = List.map (fun b => chars (boxNameOf b)) l.
Proof.
  induction l as [| b l IH]; [reflexivity |].
  unfold boxNamesPayload in *. cbn [List.map concat].
  rewrite <- app_assoc. cbn [app].
  rewrite splitNames_name by apply boxNameOf_no_suffix.
  cbn [rev app]. now rewrite IH.
Qed.

Lemma boxPermanentIdOf_range U1 U2 b :
  is_uint8 U1 -> is_uint8 U2 -> is_uint8 (boxPermanentIdOf U1 U2 b).
Proof. unfold is_uint8. intros H1 H2. destruct b; cbn; lia. Qed.

(** Case analysis over everything that the guards of [initActiveBoxIds]
    read in a context. *)
Ltac guard_cases C :=
  unfold guardsHold, initAdditions; cbn;
  repeat match goal with
    | |- context [STATE C ?x] => destruct (STATE C x); cbn
    | |- context [USE_GPS (build C)] => destruct (USE_GPS (build C)); cbn
    | |- context [sensors C ?x] => destruct (sensors C x); cbn
    | |- context [feature C ?x] => destruct (feature C x); cbn
    | |- context [use_gps_no_baro C] => destruct (use_gps_no_baro C); cbn
    | |- context [allow_dead_reckoning C] => destruct (allow_dead_reckoning C); cbn
    | |- context [hwCompassPresent C] => destruct (hwCompassPresent C); cbn
    | |- context [isMotorProtocolDshot C] => destruct (isMotorProtocolDshot C); cbn
    | |- context [USE_DSHOT (build C)] => destruct (USE_DSHOT (build C)); cbn
    | |- context [USE_AUTOTUNE_FIXED_WING (build C)] =>
        destruct (USE_AUTOTUNE_FIXED_WING (build C)); cbn
    | |- context [osdLayoutAbove (build C) ?n] => destruct (osdLayoutAbove (build C) n); cbn
    end;
  try solve [reflexivity | discriminate | intros; reflexivity | intros; discriminate
            | intros; assumption].

Section Numbering.

Variable boxval : boxId_e -> Z.
Variables U1 U2 : Z.
Hypothesis boxval_inj : forall a b, boxval a = boxval b -> a = b.
Hypothesis boxval_range : forall b, 0 <= boxval b < CHECKBOX_ITEM_COUNT.

(** X20.  Each lookup returns a row of the table that carries the
    requested id, and returns [NULL] only when no row of the table, the
    terminating row included, carries it. *)
Theorem lookups_sound_and_complete id :
  match findBoxByActiveBoxId boxval U1 U2 id with
  | Some box => boxId box = id /\ box ∈ boxes boxval U1 U2
  | None => forall e, e ∈ boxes boxval U1 U2 -> boxId e <> id
  end
  /\ match findBoxByPermanentId boxval U1 U2 id with
     | Some box => permanentId box = id /\ box ∈ boxes boxval U1 U2
     | None => forall e, e ∈ boxes boxval U1 U2 -> permanentId e <> id
     end.
Proof using Type.
  unfold findBoxByActiveBoxId, findBoxByPermanentId. split.
  - pose proof (scanBoxes_spec (fun candidate => boxId candidate =? id)
                  (boxes boxval U1 U2)) as H.
    destruct (scanBoxes _ _) as [box |].
    + destruct H as [Ht He]. split; [now apply Z.eqb_eq | exact He].
    + intros e He. apply Z.eqb_neq. now apply H.
  - pose proof (scanBoxes_spec (fun candidate => permanentId candidate =? id)
                  (boxes boxval U1 U2)) as H.
    destruct (scanBoxes _ _) as [box |].
    + destruct H as [Ht He]. split; [now apply Z.eqb_eq | exact He].
    + intros e He. apply Z.eqb_neq. now apply H.
Qed.

Lemma boxDescriptor_row b : boxDescriptor boxval U1 U2 b ∈ boxes boxval U1 U2.
Proof using boxval_inj.
  pose proof (scanBoxes_spec (fun candidate => boxId candidate =? boxval b)
                (boxes boxval U1 U2)) as H.
  fold (findBoxByActiveBoxId boxval U1 U2 (boxval b)) in H.
  rewrite (findBoxByActiveBoxId_member boxval U1 U2 boxval_inj) in H. apply H.
Qed.

Lemma findBoxByPermanentId_member b :
  NoDup (List.map permanentId (boxes boxval U1 U2)) ->
  findBoxByPermanentId boxval U1 U2 (boxPermanentIdOf U1 U2 b)
  = Some (boxDescriptor boxval U1 U2 b).
Proof using boxval_inj.
  intros Hnd. unfold findBoxByPermanentId.
  apply (scanBoxes_unique permanentId _ (boxDescriptor boxval U1 U2 b) Hnd).
  apply boxDescriptor_row.
Qed.

(** X21.  The id list can be read back: when the permanent ids of the
    table are distinct and the two macro ids fit a byte,
    [serializeBoxReply] appends one byte per active box, and looking
    each byte up with [findBoxByPermanentId] gives the active-box list
    back, in order. *)
Theorem serializeBoxReply_decodes l st dst :
  NoDup (List.map permanentId (boxes boxval U1 U2)) ->
  is_uint8 U1 -> is_uint8 U2 ->
  activeList st = List.map boxval l ->
  exists bytes,
    sbuf_written (serializeBoxReply boxval U1 U2 st dst) = sbuf_written dst ++ bytes
    /\ length bytes = length (activeList st)
    /\ decodeBoxIds boxval U1 U2 bytes = List.map Some (activeList st).
Proof using boxval_inj.
  intros Hnd H1 H2 Hl.
  destruct (serializeBoxReply_members boxval U1 U2 boxval_inj l st dst Hl) as [Es Hlen].
  exists (boxIdsPayload U1 U2 l). rewrite Es. cbn [sbuf_written].
  split; [reflexivity | split; [exact Hlen |]].
  rewrite Hl. unfold decodeBoxIds, boxIdsPayload. rewrite !List.map_map.
  apply List.map_ext. intros b.
  pose proof (boxPermanentIdOf_range U1 U2 b H1 H2) as Hr.
  unfold uint8_t. rewrite Z.mod_small by exact Hr.
  now rewrite findBoxByPermanentId_member.
Qed.

(** X22.  The name list can be read back: when the destination has room,
    [serializeBoxNamesReply] returns [true], and cutting the appended
    bytes at every [';'] gives the names of the active boxes, one per
    box and in order; no name of the table contains a [';']. *)
Theorem serializeBoxNamesReply_splits l st dst :
  activeList st = List.map boxval l ->
  Z.of_nat (length (boxNamesPayload l)) <= sbufBytesRemaining dst ->
  exists dst' bytes,
    serializeBoxNamesReply boxval U1 U2 st dst = Some (true, dst')
    /\ sbuf_written dst' = sbuf_written dst ++ bytes
    /\ splitNames bytes [] = List.map (fun b => chars (boxNameOf b)) l.
Proof using boxval_inj.
  intros Hl Hroom. unfold serializeBoxNamesReply.
  rewrite Hl, (replyLength_members boxval U1 U2 boxval_inj), Z.add_0_l.
  destruct (Z.ltb_spec (sbufBytesRemaining dst) (Z.of_nat (length (boxNamesPayload l))));
    [lia |].
  rewrite (writeBoxNames_members boxval U1 U2 boxval_inj).
  eexists _, (boxNamesPayload l). split; [reflexivity |].
  split; [reflexivity | apply splitNames_payload].
Qed.

(** ** Ids that the table does not carry *)

Lemma writeBoxIds_skip id l1 l2 dst :
  findBoxByActiveBoxId boxval U1 U2 id = None ->
  writeBoxIds boxval U1 U2 (l1 ++ id :: l2) dst = writeBoxIds boxval U1 U2 (l1 ++ l2) dst.
Proof using Type.
  intros Hid. revert dst. induction l1 as [| a l1 IH]; intros dst; cbn [app writeBoxIds].
  - now rewrite Hid.
  - destruct (findBoxByActiveBoxId boxval U1 U2 a); apply IH.
Qed.

Lemma replyLength_skip id l1 l2 acc :
  findBoxByActiveBoxId boxval U1 U2 id = None ->
  replyLength boxval U1 U2 (l1 ++ id :: l2) acc = replyLength boxval U1 U2 (l1 ++ l2) acc.
Proof using Type.
  intros Hid. revert acc. induction l1 as [| a l1 IH]; intros acc; cbn [app replyLength].
  - now rewrite Hid.
  - destruct (findBoxByActiveBoxId boxval U1 U2 a) as [box |]; [| apply IH].
    destruct (boxName box); [apply IH | reflexivity].
Qed.

Lemma writeBoxNames_skip id l1 l2 dst :
  findBoxByActiveBoxId boxval U1 U2 id = None ->
  writeBoxNames boxval U1 U2 (l1 ++ id :: l2) dst
  = writeBoxNames boxval U1 U2 (l1 ++ l2) dst.
Proof using Type.
  intros Hid. revert dst. induction l1 as [| a l1 IH]; intros dst; cbn [app writeBoxNames].
  - now rewrite Hid.
  - destruct (findBoxByActiveBoxId boxval U1 U2 a) as [box |]; [| apply IH].
    destruct (boxName box); [apply IH | reflexivity].
Qed.

(** X23.  An active id that no row of the table carries is passed over
    by both serializers: the replies are what they would be without it,
    so the name list and the id list stay aligned with each other. *)
Theorem serializers_skip_unknown_ids id l1 l2 st st0 dst :
  (forall e, e ∈ boxes boxval U1 U2 -> boxId e <> id) ->
  activeList st = l1 ++ id :: l2 ->
  activeList st0 = l1 ++ l2 ->
  serializeBoxReply boxval U1 U2 st dst = serializeBoxReply boxval U1 U2 st0 dst
  /\ serializeBoxNamesReply boxval U1 U2 st dst
     = serializeBoxNamesReply boxval U1 U2 st0 dst.
Proof using Type.
  intros Hid Hl Hl0.
  assert (Hnone : findBoxByActiveBoxId boxval U1 U2 id = None).
  { pose proof (scanBoxes_spec (fun candidate => boxId candidate =? id)
                  (boxes boxval U1 U2)) as H.
    unfold findBoxByActiveBoxId. destruct (scanBoxes _ _) as [box |]; [| reflexivity].
    destruct H as [Ht He]. apply Z.eqb_eq in Ht. now apply Hid in He. }
  unfold serializeBoxReply, serializeBoxNamesReply. rewrite Hl, Hl0.
  now rewrite writeBoxIds_skip, replyLength_skip, writeBoxNames_skip.
Qed.

(** ** The array that [initActiveBoxIds] leaves *)

Lemma run_suffix p st :
  length (activeBoxIds st) = Z.to_nat CHECKBOX_ITEM_COUNT ->
  0 <= activeBoxIdCount st ->
  activeBoxIdCount st + Z.of_nat (length (added p)) <= CHECKBOX_ITEM_COUNT ->
  forall st', run boxval p st = Some st' ->
    drop (Z.to_nat (activeBoxIdCount st')) (activeBoxIds st')
    = drop (Z.to_nat (activeBoxIdCount st')) (activeBoxIds st).
Proof using Type.
  revert st. induction p as [b | p IHp q IHq | c p IH]; intros st Hlen Hlo Hhi st' E.
  - cbn [run added length] in Hhi, E. unfold ADD_ACTIVE_BOX in E.
    unfold CHECKBOX_ITEM_COUNT in *.
    destruct (Z.leb_spec 0 (activeBoxIdCount st)); [| lia].
    destruct (Z.ltb_spec (activeBoxIdCount st) 48); [| lia].
    cbn [andb] in E. injection E as <-. cbn [activeBoxIds activeBoxIdCount].
    unfold uint8_t. rewrite Z.mod_small by lia.
    apply drop_insert_lt. lia.
  - cbn [run added] in Hhi, E. rewrite length_app, Nat2Z.inj_add in Hhi.
    unfold seq in E.
    destruct (run_added boxval p st Hlen Hlo ltac:(lia)) as (st1 & E1 & Hlen1 & Hn1 & _).
    rewrite E1 in E.
    destruct (run_added boxval q st1 Hlen1 ltac:(lia) ltac:(lia))
      as (st2 & E2 & _ & Hn2 & _).
    rewrite E2 in E. injection E as <-.
    rewrite (IHq st1 Hlen1 ltac:(lia) ltac:(lia) st2 E2).
    pose proof (IHp st Hlen Hlo ltac:(lia) st1 E1) as Hp.
    replace (Z.to_nat (activeBoxIdCount st2))
      with (Z.to_nat (activeBoxIdCount st1) + Z.to_nat (Z.of_nat (length (added q))))%nat
      by lia.
    rewrite <- !drop_drop. now rewrite Hp.
  - cbn [run added] in Hhi, E. destruct c; cbn [when] in E.
    + now apply (IH st).
    + injection E as <-. reflexivity.
Qed.

(** X24.  [initActiveBoxIds] overwrites the whole state: whatever
    [activeBoxIds] and [activeBoxIdCount] held before, the array is the
    list of added boxes followed by [0xFF] in every unused slot, and the
    count is the length of that list. *)
Theorem initActiveBoxIds_overwrites_state C :
  exists st' l,
    (forall st, initActiveBoxIds boxval C st = Some st')
    /\ activeBoxIds st'
       = List.map boxval l ++ replicate (Z.to_nat CHECKBOX_ITEM_COUNT - length l) 255
    /\ activeBoxIdCount st' = Z.of_nat (length l).
Proof using Type.
  set (st0 := {| activeBoxIds := replicate (Z.to_nat CHECKBOX_ITEM_COUNT) 255;
                 activeBoxIdCount := 0 |}).
  pose proof (added_initAdditions_length C) as Hl.
  destruct (run_added boxval (initAdditions C) st0) as (st' & E & Hlen & Hn & Hact).
  { apply length_replicate. }
  { cbn. lia. }
  { cbn [activeBoxIdCount st0]. lia. }
  exists st', (added (initAdditions C)).
  cbn [activeBoxIdCount st0] in Hn. rewrite Z.add_0_l in Hn.
  split; [| split; [| exact Hn]].
  - intros st. exact E.
  - pose proof (run_suffix (initAdditions C) st0 ltac:(apply length_replicate)
                  ltac:(cbn; lia) ltac:(cbn [activeBoxIdCount st0]; lia) st' E) as Hs.
    rewrite <- (take_drop (Z.to_nat (activeBoxIdCount st')) (activeBoxIds st')).
    fold (activeList st'). rewrite Hs, Hact. unfold activeList. cbn [activeBoxIdCount st0 activeBoxIds].
    rewrite take_0, drop_replicate, Hn, Nat2Z.id. reflexivity.
Qed.

(** X25.  In every context the active-box list keeps the order in which
    [initActiveBoxIds] mentions the boxes, starts with BOXARM and
    BOXPREARM, and holds BOXHEADINGHOLD, BOXCAMSTAB, BOXBEEPERON,
    BOXOSD, BOXKILLSWITCH and BOXFAILSAFE as well: at least eight boxes
    are offered. *)
Theorem initActiveBoxIds_always_offers C st :
  exists st' l,
    initActiveBoxIds boxval C st = Some st'
    /\ activeList st' = List.map boxval l
    /\ l `sublist_of` initOrder
    /\ (exists rest, l = BOXARM :: BOXPREARM :: rest)
    /\ Forall (fun b => b ∈ l) alwaysOffered
    /\ 8 <= activeBoxIdCount st' <= CHECKBOX_ITEM_COUNT.
Proof using Type.
  destruct (initActiveBoxIds_result boxval C st) as (st' & E & _ & Hn & Hact).
  exists st', (added (initAdditions C)).
  assert (Hall : Forall (fun b => b ∈ added (initAdditions C)) alwaysOffered).
  { unfold alwaysOffered.
    repeat (apply Forall_cons; split; [apply guards_spec; reflexivity |]).
    apply Forall_nil_2. }
  split; [exact E |]. split; [exact Hact |].
  split; [rewrite <- (mentioned_initAdditions C); apply added_sublist |].
  split; [eexists; unfold initAdditions; cbn [added app]; reflexivity |].
  split; [exact Hall |].
  rewrite Hn. split; [| apply added_initAdditions_length].
  assert (Hsub : alwaysOffered ⊆+ added (initAdditions C)).
  { apply NoDup_submseteq.
    - apply (NoDup_fmap_1 boxOrdinal). apply (bool_decide_unpack _). vm_compute. reflexivity.
    - intros b Hb. now apply (proj1 (Forall_forall _ _) Hall). }
  apply submseteq_length in Hsub. change (length alwaysOffered) with 8%nat in Hsub. lia.
Qed.

(** X26.  Airframe boxes: BOXLOITERDIRCHN, BOXNAVCRUISE,
    BOXNAVCOURSEHOLD, BOXSOARING, BOXNAVLAUNCH, BOXAUTOTRIM, BOXAUTOTUNE
    and BOXAUTOLEVEL are offered on an airplane only; BOXHEADFREE,
    BOXHEADADJ, BOXSURFACE, BOXFPVANGLEMIX and BOXTURTLE on a multirotor
    only. *)
Theorem initActiveBoxIds_vehicle_boxes C st :
  exists st',
    initActiveBoxIds boxval C st = Some st'
    /\ Forall (fun b => boxval b ∈ activeList st' -> STATE C AIRPLANE = true) airplaneBoxes
    /\ Forall (fun b => boxval b ∈ activeList st' -> STATE C MULTIROTOR = true)
         multirotorBoxes.
Proof using boxval_inj.
  destruct (initActiveBoxIds_result boxval C st) as (st' & E & _).
  exists st'. split; [exact E |]. split.
  - unfold airplaneBoxes.
    repeat (apply Forall_cons; split;
            [rewrite (initActiveBoxIds_member boxval boxval_inj C st st' _ E);
             guard_cases C |]).
    apply Forall_nil_2.
  - unfold multirotorBoxes.
    repeat (apply Forall_cons; split;
            [rewrite (initActiveBoxIds_member boxval boxval_inj C st st' _ E);
             guard_cases C |]).
    apply Forall_nil_2.
Qed.

(** X27.  Boxes that come together: BOXNAVPOSHOLD is offered only
    together with BOXNAVALTHOLD, and BOXLOITERDIRCHN only together with
    BOXNAVPOSHOLD; BOXANGLE, BOXHORIZON and BOXTURNASSIST are offered all
    or none, and so are BOXNAVRTH, BOXNAVWP, BOXHOMERESET, BOXGCSNAV and
    BOXPLANWPMISSION; an OSD alternative layout is offered only together
    with the ones before it. *)
Theorem initActiveBoxIds_box_dependencies C st :
  exists st',
    initActiveBoxIds boxval C st = Some st'
    /\ (boxval BOXNAVPOSHOLD ∈ activeList st' -> boxval BOXNAVALTHOLD ∈ activeList st')
    /\ (boxval BOXLOITERDIRCHN ∈ activeList st' -> boxval BOXNAVPOSHOLD ∈ activeList st')
    /\ Forall (fun b => boxval b ∈ activeList st' <-> boxval BOXANGLE ∈ activeList st')
         angleBoxes
    /\ Forall (fun b => boxval b ∈ activeList st' <-> boxval BOXNAVRTH ∈ activeList st')
         returnHomeBoxes
    /\ (boxval BOXOSDALT3 ∈ activeList st' -> boxval BOXOSDALT2 ∈ activeList st')
    /\ (boxval BOXOSDALT2 ∈ activeList st' -> boxval BOXOSDALT1 ∈ activeList st').
Proof using boxval_inj.
  destruct (initActiveBoxIds_result boxval C st) as (st' & E & _).
  exists st'. split; [exact E |].
  split; [| split; [| split; [| split; [| split]]]].
  - rewrite !(initActiveBoxIds_member boxval boxval_inj C st st' _ E). guard_cases C.
  - rewrite !(initActiveBoxIds_member boxval boxval_inj C st st' _ E). guard_cases C.
  - unfold angleBoxes.
    repeat (apply Forall_cons; split;
            [rewrite !(initActiveBoxIds_member boxval boxval_inj C st st' _ E);
             reflexivity |]).
    apply Forall_nil_2.
  - unfold returnHomeBoxes.
    repeat (apply Forall_cons; split;
            [rewrite !(initActiveBoxIds_member boxval boxval_inj C st st' _ E);
             reflexivity |]).
    apply Forall_nil_2.
  - rewrite !(initActiveBoxIds_member boxval boxval_inj C st st' _ E). guard_cases C.
  - rewrite !(initActiveBoxIds_member boxval boxval_inj C st st' _ E). guard_cases C.
Qed.

(** X28.  On a build without [USE_GPS] none of BOXNAVPOSHOLD,
    BOXLOITERDIRCHN, BOXNAVRTH, BOXNAVWP, BOXHOMERESET, BOXGCSNAV,
    BOXPLANWPMISSION, BOXNAVCRUISE, BOXNAVCOURSEHOLD, BOXSOARING and
    BOXBRAKING is offered, in any context; BOXNAVALTHOLD then depends on
    the barometer and altitude control alone. *)
Theorem initActiveBoxIds_without_gps_build C st :
  USE_GPS (build C) = false ->
  exists st',
    initActiveBoxIds boxval C st = Some st'
    /\ Forall (fun b => boxval b ∉ activeList st') gpsBuildBoxes
    /\ (boxval BOXNAVALTHOLD ∈ activeList st'
        <-> STATE C ALTITUDE_CONTROL = true /\ sensors C SENSOR_BARO = true).
Proof using boxval_inj.
  intros HG.
  destruct (initActiveBoxIds_result boxval C st) as (st' & E & _).
  exists st'. split; [exact E |]. split.
  - unfold gpsBuildBoxes.
    repeat (apply Forall_cons; split;
            [rewrite (initActiveBoxIds_member boxval boxval_inj C st st' _ E);
             unfold guardsHold, initAdditions; cbn; rewrite HG; cbn; discriminate |]).
    apply Forall_nil_2.
  - rewrite (initActiveBoxIds_member boxval boxval_inj C st st' _ E).
    unfold guardsHold, initAdditions. cbn. rewrite HG.
    destruct (STATE C ALTITUDE_CONTROL), (sensors C SENSOR_BARO); cbn;
      split; solve [discriminate | reflexivity | intros [? ?]; discriminate
                   | intros _; split; reflexivity].
Qed.

(** X29.  After [initActiveBoxIds], [packBoxModeFlags] returns a mask of
    two words in which bit [j] reports the box at position [j] of the
    active-box list, not the box numbered [j], and every bit from
    [activeBoxIdCount] on is clear. *)
Theorem packBoxModeFlags_reports_by_position C R st :
  exists st' l bits,
    initActiveBoxIds boxval C st = Some st'
    /\ activeList st' = List.map boxval l
    /\ packBoxModeFlags boxval (build C) R st' = Some bits
    /\ length bits = 2%nat
    /\ forall j, 0 <= j ->
         bitArrayGet bits j
         = match l !! Z.to_nat j with
           | Some b => reportedState (build C) R b
           | None => false
           end.
Proof using boxval_inj boxval_range.
  destruct (initActiveBoxIds_result boxval C st) as (st' & E & _ & _ & Hact).
  pose proof (added_initAdditions_length C) as Hlen.
  destruct (packLoop_members boxval (checkActiveBoxes boxval (build C) R)
              (boxChecked (checkedBoxes (build C) R)) (added (initAdditions C))
              (checkActiveBoxes_lookup boxval boxval_inj boxval_range (build C) R)
              0 emptyBitmask ltac:(lia))
    as (bits & Ep & Hl & Hget).
  { unfold CHECKBOX_ITEM_COUNT in Hlen. change (length emptyBitmask) with 2%nat. lia. }
  exists st', (added (initAdditions C)), bits.
  split; [exact E |]. split; [exact Hact |].
  split; [unfold packBoxModeFlags; rewrite Hact; exact Ep |].
  split; [exact Hl |].
  intros j Hj. rewrite (Hget j Hj), Z.sub_0_r, bitArrayGet_empty, orb_false_r.
  destruct (added (initAdditions C) !! Z.to_nat j) as [b |]; [| reflexivity].
  destruct (Z.leb_spec 0 j); [| lia]. cbn [andb].
  apply boxChecked_reportedState.
Qed.

End Numbering.

(** ** The sensor status word *)

Lemma IS_ENABLED_shifted b n k :
  0 <= n -> 0 <= k -> Z.testbit (Z.shiftl (IS_ENABLED b) n) k = b && (k =? n).
Proof.
  intros Hn Hk. rewrite Z.shiftl_spec by assumption.
  destruct b; cbn [IS_ENABLED andb]; [| apply Z.testbit_0_l].
  destruct (Z.eqb_spec k n) as [-> | Hne].
  - now rewrite Z.sub_diag.
  - destruct (Z.lt_trichotomy k n) as [Hlt | [Heq | Hgt]]; [| contradiction |].
    + apply Z.testbit_neg_r. lia.
    + change 1 with (2 ^ 0). rewrite Z.pow2_bits_eqb by lia.
      apply Z.eqb_neq. lia.
Qed.

(** X30.  The status word of [packSensorStatus] is a 16-bit value in
    which bits 0 to 7 tell whether the accelerometer, barometer,
    compass, GPS, rangefinder, optical flow, pitot and temperature
    sensors were detected, bits 8 to 14 are clear, and bit 15 is set
    exactly when the hardware is not healthy. *)
Theorem packSensorStatus_bits sensors isHardwareHealthy :
  0 <= packSensorStatus sensors isHardwareHealthy < 65536
  /\ forall k, 0 <= k < 16 ->
       Z.testbit (packSensorStatus sensors isHardwareHealthy) k
       = match sensorOfBit k with
         | Some s => sensors s
         | None => (k =? 15) && negb isHardwareHealthy
         end.
Proof.
  split.
  - unfold packSensorStatus, uint16_t.
    destruct (negb isHardwareHealthy); apply Z.mod_pos_bound; lia.
  - intros k Hk.
    assert (Hbit : forall x, Z.testbit (uint16_t x) k = Z.testbit x k).
    { intros x. unfold uint16_t. change 65536 with (2 ^ 16).
      apply Z.mod_pow2_bits_low. lia. }
    assert (H15 : Z.testbit (Z.shiftl 1 15) k = (k =? 15)).
    { change (Z.shiftl 1 15) with (2 ^ 15). rewrite Z.pow2_bits_eqb by lia.
      apply Z.eqb_sym. }
    unfold packSensorStatus.
    destruct isHardwareHealthy; cbn [negb];
      rewrite ?Hbit, ?Z.lor_spec, ?Hbit, ?Z.lor_spec, ?H15, !IS_ENABLED_shifted by lia;
      assert (Hc : k = 0 \/ k = 1 \/ k = 2 \/ k = 3 \/ k = 4 \/ k = 5 \/ k = 6 \/ k = 7
                   \/ k = 8 \/ k = 9 \/ k = 10 \/ k = 11 \/ k = 12 \/ k = 13 \/ k = 14
                   \/ k = 15) by lia;
      repeat (destruct Hc as [-> | Hc]); try subst k; cbn;
      rewrite ?andb_false_r, ?andb_true_r, ?orb_false_r, ?orb_false_l; reflexivity.
Qed.

(** ** The statements above at the sample inputs *)

Lemma sample_permanent_ids_distinct :
  NoDup (List.map permanentId (boxes boxOrdinal 47 48)).
Proof. apply (bool_decide_unpack _). vm_compute. reflexivity. Qed.

Lemma sample_unknown_id :
  forall e, e ∈ boxes boxOrdinal 47 48 -> boxId e <> 200.
Proof.
  apply Forall_forall. unfold boxes, boxRows. cbn.
  repeat (constructor; [discriminate |]). constructor.
Qed.

Lemma serializeBoxReply_decodes_witness :
  exists bytes,
    sbuf_written (serializeBoxReply boxOrdinal 47 48 (Samples.boxStateOf [0; 42; 4])
                    (Samples.emptyBuffer 3))
    = sbuf_written (Samples.emptyBuffer 3) ++ bytes
    /\ length bytes = length (activeList (Samples.boxStateOf [0; 42; 4]))
    /\ decodeBoxIds boxOrdinal 47 48 bytes
       = List.map Some (activeList (Samples.boxStateOf [0; 42; 4])).
Proof.
  apply (serializeBoxReply_decodes boxOrdinal 47 48 boxOrdinal_inj
           [BOXARM; BOXPREARM; BOXHEADINGHOLD]
           (Samples.boxStateOf [0; 42; 4]) (Samples.emptyBuffer 3)
           sample_permanent_ids_distinct).
  - unfold is_uint8. lia.
  - unfold is_uint8. lia.
  - reflexivity.
Defined.

Lemma serializeBoxNamesReply_splits_witness :
  exists dst' bytes,
    serializeBoxNamesReply boxOrdinal 47 48 (Samples.boxStateOf [0; 42; 4])
      (Samples.emptyBuffer 24) = Some (true, dst')
    /\ sbuf_written dst' = sbuf_written (Samples.emptyBuffer 24) ++ bytes
    /\ splitNames bytes []
       = List.map (fun b => chars (boxNameOf b)) [BOXARM; BOXPREARM; BOXHEADINGHOLD].
Proof.
  apply (serializeBoxNamesReply_splits boxOrdinal 47 48 boxOrdinal_inj
           [BOXARM; BOXPREARM; BOXHEADINGHOLD]
           (Samples.boxStateOf [0; 42; 4]) (Samples.emptyBuffer 24)).
  - reflexivity.
  - cbn. lia.
Defined.

Lemma serializers_skip_unknown_ids_witness :
  serializeBoxReply boxOrdinal 47 48 (Samples.boxStateOf [0; 200; 42]) (Samples.emptyBuffer 24)
  = serializeBoxReply boxOrdinal 47 48 (Samples.boxStateOf [0; 42]) (Samples.emptyBuffer 24)
  /\ serializeBoxNamesReply boxOrdinal 47 48 (Samples.boxStateOf [0; 200; 42])
       (Samples.emptyBuffer 24)
     = serializeBoxNamesReply boxOrdinal 47 48 (Samples.boxStateOf [0; 42])
         (Samples.emptyBuffer 24).
Proof.
  apply (serializers_skip_unknown_ids boxOrdinal 47 48 200 [0] [42]
           (Samples.boxStateOf [0; 200; 42]) (Samples.boxStateOf [0; 42])
           (Samples.emptyBuffer 24) sample_unknown_id).
  - reflexivity.
  - reflexivity.
Defined.

Lemma initActiveBoxIds_without_gps_build_witness :
  exists st',
    initActiveBoxIds boxOrdinal airplaneWithoutGpsBuild Samples.emptyBoxState = Some st'
    /\ Forall (fun b => boxOrdinal b ∉ activeList st') gpsBuildBoxes
    /\ (boxOrdinal BOXNAVALTHOLD ∈ activeList st'
        <-> STATE airplaneWithoutGpsBuild ALTITUDE_CONTROL = true
            /\ sensors airplaneWithoutGpsBuild SENSOR_BARO = true).
Proof.
  apply (initActiveBoxIds_without_gps_build boxOrdinal boxOrdinal_inj
           airplaneWithoutGpsBuild Samples.emptyBoxState).
  reflexivity.
Defined.

Lemma initActiveBoxIds_vehicle_boxes_witness :
  exists st',
    initActiveBoxIds boxOrdinal equippedAirplane Samples.emptyBoxState = Some st'
    /\ Forall (fun b => boxOrdinal b ∈ activeList st' -> STATE equippedAirplane AIRPLANE = true)
         airplaneBoxes
    /\ Forall (fun b => boxOrdinal b ∈ activeList st'
                        -> STATE equippedAirplane MULTIROTOR = true)
         multirotorBoxes.
Proof.
  exact (initActiveBoxIds_vehicle_boxes boxOrdinal boxOrdinal_inj
           equippedAirplane Samples.emptyBoxState).
Defined.

Lemma initActiveBoxIds_box_dependencies_witness :
  exists st',
    initActiveBoxIds boxOrdinal equippedAirplane Samples.emptyBoxState = Some st'
    /\ (boxOrdinal BOXNAVPOSHOLD ∈ activeList st' -> boxOrdinal BOXNAVALTHOLD ∈ activeList st')
    /\ (boxOrdinal BOXLOITERDIRCHN ∈ activeList st'
        -> boxOrdinal BOXNAVPOSHOLD ∈ activeList st')
    /\ Forall (fun b => boxOrdinal b ∈ activeList st' <-> boxOrdinal BOXANGLE ∈ activeList st')
         angleBoxes
    /\ Forall (fun b => boxOrdinal b ∈ activeList st' <-> boxOrdinal BOXNAVRTH ∈ activeList st')
         returnHomeBoxes
    /\ (boxOrdinal BOXOSDALT3 ∈ activeList st' -> boxOrdinal BOXOSDALT2 ∈ activeList st')
    /\ (boxOrdinal BOXOSDALT2 ∈ activeList st' -> boxOrdinal BOXOSDALT1 ∈ activeList st').
Proof.
  exact (initActiveBoxIds_box_dependencies boxOrdinal boxOrdinal_inj
           equippedAirplane Samples.emptyBoxState).
Defined.

Lemma packBoxModeFlags_reports_by_position_witness :
  exists st' l bits,
    initActiveBoxIds boxOrdinal equippedAirplane Samples.emptyBoxState = Some st'
    /\ activeList st' = List.map boxOrdinal l
    /\ packBoxModeFlags boxOrdinal (build equippedAirplane) armedInAngle st' = Some bits
    /\ length bits = 2%nat
    /\ forall j, 0 <= j ->
         bitArrayGet bits j
         = match l !! Z.to_nat j with
           | Some b => reportedState (build equippedAirplane) armedInAngle b
           | None => false
           end.
Proof.
  exact (packBoxModeFlags_reports_by_position boxOrdinal boxOrdinal_inj boxOrdinal_range
           equippedAirplane armedInAngle Samples.emptyBoxState).
Defined.

(** The fully equipped airplane is offered the airplane boxes and the
    navigation boxes, and none of the multirotor boxes. *)
Example equippedAirplane_boxes :
  option_map activeList (initActiveBoxIds boxOrdinal equippedAirplane Samples.emptyBoxState)
  = Some (List.map boxOrdinal
      [BOXARM; BOXPREARM; BOXANGLE; BOXHORIZON; BOXTURNASSIST; BOXAIRMODE;
       BOXHEADINGHOLD; BOXCAMSTAB; BOXNAVPOSHOLD; BOXLOITERDIRCHN; BOXNAVRTH;
       BOXNAVWP; BOXHOMERESET; BOXGCSNAV; BOXPLANWPMISSION; BOXNAVCRUISE;
       BOXNAVCOURSEHOLD; BOXSOARING; BOXNAVALTHOLD; BOXMANUAL; BOXNAVLAUNCH;
       BOXAUTOTRIM; BOXAUTOTUNE; BOXAUTOLEVEL; BOXFLAPERON; BOXBEEPERON;
       BOXLIGHTS; BOXOSD; BOXTELEMETRY; BOXKILLSWITCH; BOXFAILSAFE;
       BOXCAMERA1; BOXCAMERA2; BOXCAMERA3; BOXUSER1; BOXUSER2;
       BOXOSDALT1; BOXOSDALT2; BOXOSDALT3; BOXMSPRCOVERRIDE]).
Proof. vm_compute. reflexivity. Qed.

(** On that airplane, armed, in angle mode and with camera
    stabilisation switched on, the mask has bits 0 (ARM), 2 (ANGLE) and
    7 (CAMSTAB) set. *)
Example equippedAirplane_mask :
  match initActiveBoxIds boxOrdinal equippedAirplane Samples.emptyBoxState with
  | Some st' => packBoxModeFlags boxOrdinal (build equippedAirplane) armedInAngle st'
  | None => None
  end = Some [133; 0].
Proof. vm_compute. reflexivity. Qed.

(** Barometer and GPS detected, hardware not healthy: bits 1, 3 and 15. *)
Example packSensorStatus_sample :
  packSensorStatus gpsAndBaroOnly false = 32778
  /\ packSensorStatus gpsAndBaroOnly true = 10.
Proof. split; reflexivity. Qed.

End MspBoxMore.
